(** * respy / robupy: expected-value kernel, KW94 interpolation helpers,
      admissible-value toolkit and scalability report

    A shallow embedding of the Python sources

    - [robupy/python/py/auxiliary.py]  (module [Kernel]),
    - [respy/interpolate.py]           (module [Interpolate]),
    - [development/analyses/robust/admissible_values/modules/auxiliary.py]
                                       (module [Admissible]),
    - [development/testing/_modules/auxiliary_scalability.py]
                                       (module [Scalability]).

    Python floats are IEEE-754 binary64 numbers; they are modelled by the
    executable specification [spec_float] of the standard library at
    precision 53 and exponent bound 1024 (module [F64]), so that infinities,
    signed zeros and NaN behave as they do in the interpreter.  Python
    exceptions are a sum type [result]; numpy arrays are lists; dictionaries
    whose iteration order is observable are association lists in insertion
    order; files are a finite map from path to content, and where a
    directory matters a map from path to a directory or a file.  What the sources
    import from numpy, [datetime] and modules outside these four files
    ([np.random], [np.linalg], [strftime], [strfdelta], [pickle]) is an
    interface: a type class or a section variable.  Module [Sample] holds
    concrete inputs and instances of these interfaces. *)

From Stdlib Require Import ZArith SpecFloat Ascii String.
From stdpp Require Import base list strings gmap pretty.

Local Open Scope Z_scope.

(** ** Exceptions *)

Inductive exn : Set :=
| AssertionError
| IndexError
| KeyError
| ValueError
| ZeroDivisionError
| OverflowError
| FileNotFoundError
| NotADirectoryError
| IsADirectoryError
| LinAlgError.

Inductive result (A : Type) : Type :=
| Ok (a : A)
| Raise (e : exn).
Arguments Ok {A} a.
Arguments Raise {A} e.

Global Instance result_ret : MRet result := λ A, @Ok A.
Global Instance result_bind : MBind result :=
  λ A B f m, match m with Ok a => f a | Raise e => Raise e end.
Global Instance result_fmap : FMap result :=
  λ A B f m, match m with Ok a => Ok (f a) | Raise e => Raise e end.

(** [assert c] *)
Definition py_assert (c : bool) : result unit :=
  if c then Ok tt else Raise AssertionError.

(** [for x in xs: s = body(s, x)] with the exceptions of the body. *)
Fixpoint for_each {A S : Type} (xs : list A) (body : S → A → result S)
    (s : S) : result S :=
  match xs with
  | [] => Ok s
  | x :: xs' => s' ← body s x; for_each xs' body s'
  end.

(** [[f(x) for x in xs]], stopping at the first exception. *)
Fixpoint map_each {A B : Type} (f : A → result B) (xs : list A)
    : result (list B) :=
  match xs with
  | [] => Ok []
  | x :: xs' => y ← f x; ys ← map_each f xs'; Ok (y :: ys)
  end.

(** [range(n)] *)
Definition py_range (n : Z) : list Z := Z.of_nat <$> seq 0 (Z.to_nat n).

(** ** Binary64 floats *)

Module F64.

Definition prec : Z := 53.
Definition emax : Z := 1024.

Definition float : Set := spec_float.

Definition add : float → float → float := SFadd prec emax.
Definition mul : float → float → float := SFmul prec emax.
Definition div : float → float → float := SFdiv prec emax.
Definition eqb : float → float → bool := SFeqb.
Definition ltb : float → float → bool := SFltb.
Definition leb : float → float → bool := SFleb.

Definition zero : float := S754_zero false.
Definition one : float := S754_finite false 4503599627370496 (-52).
Definition nan : float := S754_nan.
Definition inf : float := S754_infinity false.
Definition neg_inf : float := S754_infinity true.

(** [float(n)] for a Python integer, rounding to nearest even. *)
Definition of_Z (n : Z) : float := binary_normalize prec emax n 0 false.

(** [np.isneginf] *)
Definition isneginf (x : float) : bool :=
  match x with S754_infinity true => true | _ => false end.

(** [np.isfinite] *)
Definition isfinite (x : float) : bool :=
  match x with S754_zero _ | S754_finite _ _ _ => true | _ => false end.

(** The same number: identical, or two zeros that differ in sign only. *)
Definition same_number (x y : float) : Prop :=
  match x, y with
  | S754_zero _, S754_zero _ => True
  | _, _ => x = y
  end.

Definition sub : float → float → float := SFsub prec emax.
Definition sqrt : float → float := SFsqrt prec emax.
Definition opp : float → float := SFopp.

(** [np.isnan] *)
Definition isnan (x : float) : bool :=
  match x with S754_nan => true | _ => false end.

(** Left-to-right accumulation [s = 0.0; for x in xs: s += x]. *)
Definition sum (xs : list float) : float := foldl add zero xs.

(** Arithmetic mean of a list, accumulated from left to right. *)
Definition mean (xs : list float) : float :=
  div (sum xs) (of_Z (Z.of_nat (length xs))).

End F64.

Abbreviation float := F64.float.

(** ** numpy and builtin helpers *)

(** [a[i]] on a sequence: negative indices count from the end. *)
Definition py_getitem {A : Type} (a : list A) (i : Z) : result A :=
  let n := Z.of_nat (length a) in
  let j := if i <? 0 then i + n else i in
  if (j <? 0) || (n <=? j) then Raise IndexError
  else match a !! Z.to_nat j with
       | Some x => Ok x
       | None => Raise IndexError
       end.

(** [np.tile(x, n)] for a scalar [x]. *)
Definition np_tile {A : Type} (x : A) (n : nat) : list A := replicate n x.

(** The builtin [max] of a sequence: the first maximal item under [>]. *)
Definition py_max (xs : list float) : result float :=
  match xs with
  | [] => Raise ValueError
  | x :: xs' => Ok (foldl (λ m y, if F64.ltb m y then y else m) x xs')
  end.

(** [a[mask] = v] for a scalar [v]. *)
Definition mask_fill {A : Type} (a : list A) (mask : list bool) (v : A)
    : list A :=
  zip_with (λ x (b : bool), if b then v else x) a mask.

(** [float(n)] for a Python integer: an integer too large for a float is an
    [OverflowError]. *)
Definition py_float_of_int (n : Z) : result float :=
  let x := F64.of_Z n in
  if F64.isfinite x then Ok x else Raise OverflowError.

(** [x / n] for a Python float [x] and a Python integer [n]: the integer is
    converted to a float, then a zero divisor is refused. *)
Definition py_float_truediv_int (x : float) (n : Z) : result float :=
  d ← py_float_of_int n;
  if n =? 0 then Raise ZeroDivisionError else Ok (F64.div x d).

(** A value that is either a Python float or a one-dimensional array. *)
Inductive pyobj : Set :=
| PyFloat (x : float)
| PyArray (a : list float).

(** ** robupy/python/py/auxiliary.py *)

Module Kernel.

Definition array2 (A : Type) : Type := list (list A).
Definition array3 (A : Type) : Type := list (list (list A)).
Definition array5 (A : Type) : Type := list (list (list (list (list A)))).

Definition index2 {A} (a : array2 A) (i j : Z) : result A :=
  r ← py_getitem a i; py_getitem r j.

Definition index5 {A} (a : array5 A) (i j k l m : Z) : result A :=
  a1 ← py_getitem a i; a2 ← py_getitem a1 j; a3 ← py_getitem a2 k;
  a4 ← py_getitem a3 l; py_getitem a4 m.

(** [w, x, y, z = row] *)
Definition unpack4 {A} (row : list A) : result (A * A * A * A) :=
  match row with
  | [w; x; y; z] => Ok (w, x, y, z)
  | _ => Raise ValueError
  end.

Definition _stabilize_myopic (total_payoffs future_payoffs : list float)
    : list float :=
  let is_inf := F64.isneginf <$> future_payoffs in
  mask_fill total_payoffs is_inf F64.neg_inf.

Definition _get_future_payoffs (edu_max edu_start : Z)
    (mapping_state_idx : array5 Z) (period : Z) (emax : array2 float)
    (k : Z) (states_all : array3 Z) : result (list float) :=
  row ← index2 states_all period k;
  '(exp_A, exp_B, edu, edu_lagged) ← unpack4 row;
  let future_payoffs := np_tile F64.nan 4 in
  (* Working in occupation A *)
  future_idx ← index5 mapping_state_idx (period + 1) (exp_A + 1) exp_B edu 0;
  v ← index2 emax (period + 1) future_idx;
  let future_payoffs := <[0%nat := v]> future_payoffs in
  (* Working in occupation B *)
  future_idx ← index5 mapping_state_idx (period + 1) exp_A (exp_B + 1) edu 0;
  v ← index2 emax (period + 1) future_idx;
  let future_payoffs := <[1%nat := v]> future_payoffs in
  (* Increasing schooling *)
  future_payoffs ←
    (if edu <? edu_max - edu_start then
       future_idx ← index5 mapping_state_idx (period + 1) exp_A exp_B (edu + 1) 1;
       v ← index2 emax (period + 1) future_idx;
       Ok (<[2%nat := v]> future_payoffs)
     else Ok (<[2%nat := F64.neg_inf]> future_payoffs));
  (* Staying at home *)
  future_idx ← index5 mapping_state_idx (period + 1) exp_A exp_B edu 0;
  v ← index2 emax (period + 1) future_idx;
  Ok (<[3%nat := v]> future_payoffs).

Definition get_total_value (period num_periods : Z) (delta : float)
    (payoffs_ex_ante disturbances : list float) (edu_max edu_start : Z)
    (mapping_state_idx : array5 Z) (emax : array2 float) (k : Z)
    (states_all : array3 Z)
    : result (list float * list float * list float) :=
  let is_myopic := F64.eqb delta F64.zero in
  let payoffs_ex_post := np_tile F64.nan 4 in
  payoffs_ex_post ←
    for_each [0; 1] (λ acc j,
      a ← py_getitem payoffs_ex_ante j;
      d ← py_getitem disturbances j;
      Ok (<[Z.to_nat j := F64.mul a d]> acc)) payoffs_ex_post;
  payoffs_ex_post ←
    for_each [2; 3] (λ acc j,
      a ← py_getitem payoffs_ex_ante j;
      d ← py_getitem disturbances j;
      Ok (<[Z.to_nat j := F64.add a d]> acc)) payoffs_ex_post;
  future_payoffs ←
    (if negb (period =? num_periods - 1) then
       _get_future_payoffs edu_max edu_start mapping_state_idx period emax
         k states_all
     else Ok (np_tile F64.zero 4));
  let total_payoffs :=
    zip_with F64.add payoffs_ex_post (F64.mul delta <$> future_payoffs) in
  let total_payoffs :=
    if is_myopic then _stabilize_myopic total_payoffs future_payoffs
    else total_payoffs in
  Ok (total_payoffs, payoffs_ex_post, future_payoffs).

Definition simulate_emax (num_periods num_draws period k : Z)
    (eps_relevant : array2 float) (payoffs_ex_ante : list float)
    (edu_max edu_start : Z) (emax : array2 float) (states_all : array3 Z)
    (mapping_state_idx : array5 Z) (delta : float)
    : result (float * pyobj * pyobj) :=
  let init := (F64.zero, PyFloat F64.zero, PyFloat F64.zero) in
  '(emax_simulated, payoffs_ex_post, future_payoffs) ←
    for_each (py_range num_draws)
      (λ '(emax_simulated, _, _) i,
         disturbances ← py_getitem eps_relevant i;
         '(total_payoffs, payoffs_ex_post, future_payoffs) ←
           get_total_value period num_periods delta payoffs_ex_ante
             disturbances edu_max edu_start mapping_state_idx emax k
             states_all;
         maximum ← py_max total_payoffs;
         Ok (F64.add emax_simulated maximum,
             PyArray payoffs_ex_post, PyArray future_payoffs))
      init;
  (* Scaling.  After a draw [emax_simulated] is a numpy float, and its
     quotient by [num_draws], a number of rows of [eps_relevant], is the
     IEEE quotient; without a draw it is still the Python float [0.0], and
     the division is the one of Python floats. *)
  emax_simulated ←
    (if 0 <? num_draws then
       Ok (F64.div emax_simulated (F64.of_Z num_draws))
     else py_float_truediv_int emax_simulated num_draws);
  Ok (emax_simulated, payoffs_ex_post, future_payoffs).

(** The maximal total value of draw [i]: what one pass of the loop of
    [simulate_emax] adds to the running sum. *)
Definition draw_maximum (num_periods period k : Z)
    (eps_relevant : array2 float) (payoffs_ex_ante : list float)
    (edu_max edu_start : Z) (emax : array2 float) (states_all : array3 Z)
    (mapping_state_idx : array5 Z) (delta : float) (i : Z) : result float :=
  disturbances ← py_getitem eps_relevant i;
  r ← get_total_value period num_periods delta payoffs_ex_ante
        disturbances edu_max edu_start mapping_state_idx emax k states_all;
  py_max r.1.1.

End Kernel.

(** ** respy/interpolate.py *)

(** [np.random], as far as [interpolate.py] uses it: the state of the global
    generator after [np.random.seed(seed)], and
    [np.random.choice(n, size=size, replace=False)], which returns the sample
    (or raises) together with the generator's next state. *)
Class NumpyRandom : Type := {
  rng_state : Type;
  np_random_seed : Z → result rng_state;
  np_random_choice : rng_state → Z → Z → result (list Z) * rng_state;
}.

(** The linear algebra of numpy used by [ols]: [x.T], [a.dot(b)] for two
    matrices, [a.dot(v)] for a matrix and a vector, and [np.linalg.pinv],
    which raises [LinAlgError] for a matrix it cannot decompose (under numba,
    one that holds an infinity or a NaN).  A matrix is the list of its
    rows. *)
Class NumpyLinalg : Type := {
  np_T : list (list float) → list (list float);
  np_dot_mm : list (list float) → list (list float) → list (list float);
  np_dot_mv : list (list float) → list float → list float;
  np_linalg_pinv : list (list float) → result (list (list float));
}.

(** The two kernels that [interpolate.py] imports from [respy.shared]:
    for the states given row by row they return the value functions and the
    flow utilities (one row per state), and the expected value functions
    (one number per state). *)
Class RespyShared : Type := {
  calculate_value_functions_and_flow_utilities :
    list (list float) → list (list float) → list (list float) →
    list float → float → list (list float) * list (list float);
  calculate_expected_value_functions :
    list (list float) → list (list float) → list (list float) →
    list (list float) → float → list float;
}.

Module Interpolate.

(** A state space has the attribute [sub_state_spaces], a dictionary keyed
    by dense index (kept in iteration order), or it has not. *)
Record state_space (K V : Type) : Type := {
  sub_state_spaces : option (list (K * V));
}.
Arguments sub_state_spaces {K V} _.

Record options : Type := {
  interpolation_points : Z;
}.

(** A value that [parallelize_across_dense_dimensions] treats either as one
    object or as a dictionary with one object per dense index. *)
Inductive dense (K A : Type) : Type :=
| Single (a : A)
| PerDense (d : list (K * A)).
Arguments Single {K A} a.
Arguments PerDense {K A} d.

(** [np.full(n, v)] *)
Definition np_full {A : Type} (n : Z) (v : A) : list A :=
  replicate (Z.to_nat n) v.

(** [a % b] on Python integers. *)
Definition py_mod (a b : Z) : result Z :=
  if b =? 0 then Raise ZeroDivisionError else Ok (a `mod` b).

(** The number of leading items selected by the slice [[:stop]]. *)
Definition slice_stop (len : nat) (stop : Z) : nat :=
  if stop <? 0 then Z.to_nat (Z.of_nat len + stop)
  else Nat.min (Z.to_nat stop) len.

(** A Python integer as an item of an [int64] array: numpy refuses an
    integer outside the range of the type. *)
Definition np_int64 (n : Z) : result Z :=
  if (- 2 ^ 63 <=? n) && (n <? 2 ^ 63) then Ok n else Raise OverflowError.

(** The arithmetic of [int64] wraps around. *)
Definition wrap_int64 (n : Z) : Z := (n + 2 ^ 63) `mod` 2 ^ 64 - 2 ^ 63.

(** [p // a] for a Python integer [p] and an [int64] array [a]: [p] becomes
    an [int64], the quotients are rounded down, and a zero divisor gives 0. *)
Definition floor_divide_int64 (p : Z) (a : list Z) : result (list Z) :=
  p ← np_int64 p;
  Ok ((λ d, if d =? 0 then 0 else wrap_int64 (p `div` d)) <$> a).

(** [a[:stop] += v] for an [int64] array [a]. *)
Definition slice_add (a : list Z) (stop : Z) (v : Z) : list Z :=
  let n := slice_stop (length a) stop in
  ((λ x, wrap_int64 (x + v)) <$> take n a) ++ drop n a.

Definition _split_interpolation_points_evenly {K V : Type}
    (state_space : state_space K V) (options : options)
    : result (dense K Z) :=
  match sub_state_spaces state_space with
  | Some subs =>
      let n_dense_combinations := Z.of_nat (length subs) in
      interp_points ←
        floor_divide_int64 (interpolation_points options)
          (np_full n_dense_combinations n_dense_combinations);
      remaining_points ←
        py_mod (interpolation_points options) n_dense_combinations;
      let interp_points := slice_add interp_points remaining_points 1 in
      Ok (PerDense (zip (fst <$> subs) interp_points))
  | None => Ok (Single (interpolation_points options))
  end.

(** [a[indices] = v] for an integer index array. *)
Definition index_fill {A : Type} (a : list A) (indices : list Z) (v : A)
    : result (list A) :=
  for_each indices (λ acc i,
    let n := Z.of_nat (length acc) in
    let j := if i <? 0 then i + n else i in
    if (j <? 0) || (n <=? j) then Raise IndexError
    else Ok (<[Z.to_nat j := v]> acc)) a.

(** [np.zeros(n, dtype="bool")] *)
Definition np_zeros_bool (n : Z) : result (list bool) :=
  if n <? 0 then Raise ValueError else Ok (replicate (Z.to_nat n) false).

(** The body of [_get_not_interpolated_indicator], run on the global
    generator state [g]; it returns the generator state it leaves behind. *)
Definition _get_not_interpolated_indicator `{NumpyRandom}
    (interpolation_points n_states seed : Z) (g : rng_state)
    : result (list bool) * rng_state :=
  match np_random_seed seed with
  | Raise e => (Raise e, g)
  | Ok g =>
      let '(indices, g) :=
        np_random_choice g n_states interpolation_points in
      (indices ← indices;
       not_interpolated ← np_zeros_bool n_states;
       index_fill not_interpolated indices true, g)
  end.

(** [a[mask]] for a boolean mask. *)
Fixpoint compress {A : Type} (mask : list bool) (a : list A) : list A :=
  match mask, a with
  | b :: mask', x :: a' =>
      if b then x :: compress mask' a' else compress mask' a'
  | _, _ => []
  end.

Definition mask_select {A : Type} (a : list A) (mask : list bool)
    : result (list A) :=
  if bool_decide (length mask = length a) then Ok (compress mask a)
  else Raise IndexError.

(** The items of [vs] written, in order, to the positions of [a] where the
    mask holds. *)
Fixpoint mask_put {A : Type} (a : list A) (mask : list bool) (vs : list A)
    : list A :=
  match a, mask with
  | x :: a', true :: mask' =>
      match vs with
      | v :: vs' => v :: mask_put a' mask' vs'
      | [] => x :: mask_put a' mask' []
      end
  | x :: a', false :: mask' => x :: mask_put a' mask' vs
  | _, _ => a
  end.

Definition count_true (mask : list bool) : nat :=
  length (filter (λ b : bool, b = true) mask).

(** [a[mask] = vs]: [vs] has one item per selected position, or a single
    item that is broadcast. *)
Definition mask_assign {A : Type} (a : list A) (mask : list bool)
    (vs : list A) : result (list A) :=
  if negb (bool_decide (length mask = length a)) then Raise IndexError
  else if bool_decide (length vs = count_true mask) then
    Ok (mask_put a mask vs)
  else match vs with
       | [v] => Ok (mask_fill a mask v)
       | _ => Raise ValueError
       end.

(** [a + b] on one-dimensional arrays, with numpy's broadcasting. *)
Definition np_add (a b : list float) : result (list float) :=
  if bool_decide (length a = length b) then Ok (zip_with F64.add a b)
  else match a, b with
       | [x], _ => Ok (F64.add x <$> b)
       | _, [y] => Ok ((λ x, F64.add x y) <$> a)
       | _, _ => Raise ValueError
       end.

(** [np.clip(a, 0, None)], on one item and on an array. *)
Definition clip_min0 (x : float) : float :=
  if F64.ltb x F64.zero then F64.zero else x.

Definition np_clip_min0 (a : list float) : list float := clip_min0 <$> a.

Definition ols `{NumpyLinalg} (y : list float) (x : list (list float))
    : result (list float) :=
  pinv ← np_linalg_pinv (np_dot_mm (np_T x) x);
  Ok (np_dot_mv pinv (np_dot_mv (np_T x) y)).

(** The body of [_predict_with_linear_model]; the second component tells
    whether the warning about non-finite coefficients was issued. *)
Definition _predict_with_linear_model `{NumpyLinalg}
    (endogenous : list float) (exogenous : list (list float))
    (max_value_functions : list float) (not_interpolated : list bool)
    : result (list float * bool) :=
  x ← mask_select exogenous not_interpolated;
  beta ← ols endogenous x;
  let endogenous_predicted := np_dot_mv exogenous beta in
  let endogenous_predicted := np_clip_min0 endogenous_predicted in
  predictions ← np_add endogenous_predicted max_value_functions;
  m ← mask_select max_value_functions not_interpolated;
  v ← np_add endogenous m;
  predictions ← mask_assign predictions not_interpolated v;
  let warned := negb (forallb F64.isfinite beta) in
  Ok (predictions, warned).

(** [options["solution_seed_iteration"]]: an unbounded iterator over seeds
    (an [itertools.count]), given by the seeds it yields and the number of
    seeds already taken from it. *)
Record seed_iterator : Type := {
  upcoming : nat → Z;
  taken : nat;
}.

(** [next(it)] *)
Definition py_next (it : seed_iterator) : Z * seed_iterator :=
  (upcoming it (taken it),
   {| upcoming := upcoming it; taken := S (taken it) |}).

(** [{k: next(it) for k in keys}] *)
Fixpoint seeds_for {K : Type} (keys : list K) (it : seed_iterator)
    : list (K * Z) * seed_iterator :=
  match keys with
  | [] => ([], it)
  | k :: keys' =>
      let '(seed, it) := py_next it in
      let '(d, it) := seeds_for keys' it in
      ((k, seed) :: d, it)
  end.

(** [_get_seeds_for_interpolation], with the iterator it advances. *)
Definition _get_seeds_for_interpolation {K V : Type}
    (state_space : state_space K V) (solution_seed_iteration : seed_iterator)
    : dense K Z * seed_iterator :=
  match sub_state_spaces state_space with
  | Some subs =>
      let '(seed, it) := seeds_for (fst <$> subs) solution_seed_iteration in
      (PerDense seed, it)
  | None =>
      let '(seed, it) := py_next solution_seed_iteration in
      (Single seed, it)
  end.

(** [np.maximum] on two items: a NaN wins. *)
Definition np_maximum (x y : float) : float :=
  if F64.isnan x then x
  else if F64.isnan y then y
  else if F64.ltb x y then y else x.

(** [row.max()]: an empty row has no maximum. *)
Definition np_max (row : list float) : result float :=
  match row with
  | [] => Raise ValueError
  | x :: row' => Ok (foldl np_maximum x row')
  end.

(** [a - b] on one-dimensional arrays, with numpy's broadcasting. *)
Definition np_sub (a b : list float) : result (list float) :=
  if bool_decide (length a = length b) then Ok (zip_with F64.sub a b)
  else match a, b with
       | [x], _ => Ok (F64.sub x <$> b)
       | _, [y] => Ok ((λ x, F64.sub x y) <$> a)
       | _, _ => Raise ValueError
       end.

(** The body of [_compute_rhs_variables]. *)
Definition _compute_rhs_variables `{RespyShared}
    (wages nonpec emaxs : list (list float)) (draws : list float)
    (delta : float) : result (list (list float) * list float) :=
  let '(value_functions, _) :=
    calculate_value_functions_and_flow_utilities wages nonpec emaxs draws
      delta in
  (* value_functions.max(axis=1) *)
  max_value_functions ← map_each np_max value_functions;
  (* max_value_functions.reshape(-1, 1) - value_functions *)
  let exogenous :=
    zip_with (λ m row, F64.sub m <$> row) max_value_functions
      value_functions in
  (* np.column_stack((exogenous, np.sqrt(exogenous), np.ones(n))) *)
  let exogenous :=
    zip_with (λ row one, row ++ (F64.sqrt <$> row) ++ [one]) exogenous
      (replicate (length exogenous) F64.one) in
  Ok (exogenous, max_value_functions).

(** The body of [_compute_lhs_variable]. *)
Definition _compute_lhs_variable `{RespyShared}
    (wages nonpec continuation_values : list (list float))
    (max_value_functions : list float) (not_interpolated : list bool)
    (draws : list (list float)) (delta : float) : result (list float) :=
  w ← mask_select wages not_interpolated;
  n ← mask_select nonpec not_interpolated;
  c ← mask_select continuation_values not_interpolated;
  let expected_value_functions :=
    calculate_expected_value_functions w n c draws delta in
  m ← mask_select max_value_functions not_interpolated;
  np_sub expected_value_functions m.

End Interpolate.

(** ** Strings and formatting *)

Definition nl : string := String "010"%char EmptyString.

Fixpoint str_repeat (c : ascii) (n : nat) : string :=
  match n with
  | O => EmptyString
  | S n' => String c (str_repeat c n')
  end.

(** [format(s, '>w')] and [format(s, '<w')] *)
Definition rjust (w : nat) (s : string) : string :=
  str_repeat " "%char (w - String.length s) +:+ s.

Definition ljust (w : nat) (s : string) : string :=
  s +:+ str_repeat " "%char (w - String.length s).

(** The number of positions of [s] at which [sub] occurs. *)
Fixpoint occurrences (sub s : string) : nat :=
  match s with
  | EmptyString => 0
  | String _ s' =>
      ((if String.prefix sub s then 1 else 0) + occurrences sub s')%nat
  end.

(** [str(n)] for a Python integer. *)
Definition py_str_int (n : Z) : string := pretty n.

(** Rounding of [num / den] to the nearest integer, ties to even. *)
Definition round_half_even (num den : Z) : Z :=
  let q := num `div` den in
  let r := num `mod` den in
  if (den <? 2 * r) || ((2 * r =? den) && Z.odd q) then q + 1 else q.

(** The digits of the scaled integer [n >= 0] with [p] decimals. *)
Definition fixed_digits (p : nat) (n : Z) : string :=
  let s := pretty n in
  let s := str_repeat "0"%char (S p - String.length s) +:+ s in
  let k := (String.length s - p)%nat in
  substring 0 k s +:+
    (if p is O then EmptyString else "." +:+ substring k p s).

(** [format(x, '.pf')] for a float. *)
Definition format_f (p : nat) (x : float) : string :=
  let sign (s : bool) : string := if s then "-" else EmptyString in
  match x with
  | S754_nan => "nan"
  | S754_infinity s => sign s +:+ "inf"
  | S754_zero s => sign s +:+ fixed_digits p 0
  | S754_finite s m e =>
      let scaled := Z.pos m * 10 ^ Z.of_nat p in
      let n := if 0 <=? e then scaled * 2 ^ e
               else round_half_even scaled (2 ^ (- e)) in
      sign s +:+ fixed_digits p n
  end.

(** ** development/analyses/robust/admissible_values/modules/auxiliary.py *)

(** Text written to an open file, and how the writing code ended. *)
Record out (A : Type) : Type := Out {
  written : string;
  outcome : result A;
}.
Arguments Out {A} written outcome.
Arguments written {A} _.
Arguments outcome {A} _.

Global Instance out_ret : MRet out := λ A a, Out EmptyString (Ok a).
Global Instance out_bind : MBind out :=
  λ A B f m,
    match outcome m with
    | Ok a => Out (written m +:+ written (f a)) (outcome (f a))
    | Raise e => Out (written m) (Raise e)
    end.

(** [out_file.write(s)] *)
Definition write (s : string) : out unit := Out s (Ok tt).

(** A computation that writes nothing. *)
Definition quiet {A : Type} (r : result A) : out A := Out EmptyString r.

Fixpoint for_out {A : Type} (xs : list A) (body : A → out unit) : out unit :=
  match xs with
  | [] => mret tt
  | x :: xs' => _ ← body x; for_out xs' body
  end.

(** [enumerate(xs)] *)
Definition py_enumerate {A : Type} (xs : list A) : list (Z * A) :=
  zip (Z.of_nat <$> seq 0 (length xs)) xs.

(** The values that command-line options take. *)
Inductive pynum : Set :=
| NBool (b : bool)
| NInt (n : Z)
| NFloat (x : float).

Inductive pyval : Set :=
| PNone
| PNum (n : pynum)
| PStr (s : string)
| PList (l : list pynum).

Module Admissible.

Definition f_0_01 : float := S754_finite false 5764607523034235 (-59).
Definition f_0_02 : float := S754_finite false 5764607523034235 (-58).

Definition AMBIGUITY_GRID : list float := [F64.zero; f_0_01; f_0_02].
Definition CHOICE_LIST : list string :=
  ["Occupation A"; "Occupation B"; "School"; "Home"].
Definition BOUNDS_LIST : list string := ["lower"; "upper"].

(** The results: a dictionary from ambiguity level to a list with one
    [(lower, upper)] sequence per choice, in insertion order. *)
Definition rslts : Type := list (float * list (list float)).

(** [d[key]] for a dictionary keyed by numbers. *)
Fixpoint dict_get {V : Type} (d : list (float * V)) (key : float)
    : result V :=
  match d with
  | [] => Raise KeyError
  | (k, v) :: d' => if F64.eqb k key then Ok v else dict_get d' key
  end.

(** [x in xs] *)
Definition float_in (x : float) (xs : list float) : bool :=
  existsb (F64.eqb x) xs.

Definition str_in (x : string) (xs : list string) : bool :=
  bool_decide (x ∈ xs).

(** [xs.index(x)] *)
Fixpoint list_index (xs : list string) (x : string) : result Z :=
  match xs with
  | [] => Raise ValueError
  | y :: xs' =>
      if bool_decide (y = x) then Ok 0
      else i ← list_index xs' x; Ok (i + 1)
  end.

(** [x, y = r] *)
Definition unpack2 {A} (r : list A) : result (A * A) :=
  match r with
  | [x; y] => Ok (x, y)
  | _ => Raise ValueError
  end.

Definition _extract_results (level : float) (choice : string)
    (rslts : rslts) (which : string) : result float :=
  _ ← py_assert (float_in level AMBIGUITY_GRID);
  _ ← py_assert (str_in choice CHOICE_LIST);
  _ ← py_assert (str_in which BOUNDS_LIST);
  idx_choice ← list_index CHOICE_LIST choice;
  idx_bounds ← list_index BOUNDS_LIST which;
  e ← dict_get rslts level;
  r ← py_getitem e idx_choice;
  py_getitem r idx_bounds.

(** The keys of a dictionary in iteration order, each with its position,
    which tells the key objects apart. *)
Definition dict_keys {V : Type} (d : list (float * V)) : list (nat * float) :=
  imap (λ pos kv, (pos, kv.1)) d.

(** [d[key]] for the key object that the iteration over [d] gave at position
    [pos]: a dictionary compares keys by identity before it compares them by
    value, so that also a NaN key finds its entry. *)
Definition dict_get_own {V : Type} (d : list (float * V)) (pos : nat)
    (key : float) : result V :=
  match dict_get d key with
  | Ok v => Ok v
  | Raise e =>
      match d !! pos with
      | Some (_, v) => Ok v
      | None => Raise e
      end
  end.

(** The two format strings of [store_rslts]. *)
Definition fmt_level (level : float) (c1 c2 c3 : string) : string :=
  " " +:+ ljust 7 "Level" +:+ format_f 3 level +:+ "        " +:+
  ljust 15 c1 +:+ ljust 15 c2 +:+ ljust 15 c3 +:+ nl +:+ nl.

Definition fmt_choice (choice : string) (lower baseline upper : float)
    : string :=
  "  " +:+ ljust 15 choice +:+ rjust 15 (format_f 5 lower) +:+
  rjust 15 (format_f 5 baseline) +:+ rjust 15 (format_f 5 upper) +:+ nl.

(** One pass of the loop over the choices in [store_rslts], for the level
    that the outer loop took from position [key.1] of [rslt]. *)
Definition store_rslts_choice (rslt : rslts) (key : nat * float)
    (ic : Z * string) : out unit :=
  let '(pos, level) := key in
  let '(i, choice) := ic in
  baseline ← quiet (e ← dict_get rslt F64.zero;
                    r ← py_getitem e i;
                    py_getitem r 0);
  '(lower, upper) ← quiet (e ← dict_get_own rslt pos level;
                           r ← py_getitem e i;
                           unpack2 r);
  write (fmt_choice choice lower baseline upper).

(** One pass of the loop over the levels in [store_rslts]. *)
Definition store_rslts_level (rslt : rslts) (key : nat * float) : out unit :=
  _ ← write (fmt_level key.2 "Lower" "Baseline" "Upper");
  _ ← for_out (py_enumerate CHOICE_LIST) (store_rslts_choice rslt key);
  write (nl +:+ nl).

(** What [store_rslts] writes to [rslts/admissible_values.robupy.log]. *)
Definition store_rslts_log (rslt : rslts) : out unit :=
  let levels := dict_keys rslt in
  for_out levels (store_rslts_level rslt).

(** A directory tree below the working directory: a path names a directory
    or a file with its content. *)
Inductive node : Set :=
| Directory
| File (content : string).

Abbreviation file_system := (gmap string node).

(** [open(dir/name, 'w')]: the directory has to be there, and the path must
    not name a directory; the file is created, or emptied. *)
Definition py_open_w (dir name : string) (fs : file_system)
    : result file_system :=
  match fs !! dir with
  | None => Raise FileNotFoundError
  | Some (File _) => Raise NotADirectoryError
  | Some Directory =>
      match fs !! (dir +:+ "/" +:+ name) with
      | Some Directory => Raise IsADirectoryError
      | _ => Ok (<[dir +:+ "/" +:+ name := File EmptyString]> fs)
      end
  end.

(** The log as the claim describes it.  The Baseline entry of choice [i] is
    [rslt[0.0][i][0]], whatever the level of the block; the bounds of choice
    [i] at a level are the two numbers [rslt[level][i]]. *)
Definition baseline_entry (rslt : rslts) (i : Z) : result float :=
  e ← dict_get rslt F64.zero; r ← py_getitem e i; py_getitem r 0.

Definition baseline_column (rslt : rslts) : result (list float) :=
  map_each (baseline_entry rslt) [0; 1; 2; 3].

Definition bounds_entry (rslt : rslts) (key : nat * float) (i : Z)
    : result (float * float) :=
  e ← dict_get_own rslt key.1 key.2; r ← py_getitem e i; unpack2 r.

Definition level_bounds (rslt : rslts) (key : nat * float)
    : result (list (float * float)) :=
  map_each (bounds_entry rslt key) [0; 1; 2; 3].

(** The line of a choice: two spaces, the choice in 15 characters, then the
    lower bound, the Baseline entry and the upper bound with five decimals
    in 15 characters each. *)
Definition log_line (choice : string) (lower baseline upper : float)
    : string :=
  "  " +:+ ljust 15 choice +:+ rjust 15 (format_f 5 lower) +:+
  rjust 15 (format_f 5 baseline) +:+ rjust 15 (format_f 5 upper) +:+ nl.

(** The block of a level: the level with three decimals and the column
    titles, a blank line, one line per choice, and two blank lines. *)
Definition log_block (choices : list string) (level : float)
    (baselines : list float) (bounds : list (float * float)) : string :=
  " Level  " +:+ format_f 3 level +:+
  "        Lower          Baseline       Upper          " +:+ nl +:+ nl +:+
  foldr String.append EmptyString
    (zip_with (λ '(choice, b) '(lower, upper), log_line choice lower b upper)
       (zip choices baselines) bounds)
  +:+ nl +:+ nl.

Section Store.

(** [pickle.dumps] *)
Variable pkl_dumps : rslts → string.

(** [store_rslts] on a directory tree; the log holds what was written
    before an exception, if there is one. *)
Definition store_rslts (rslt : rslts) (fs : file_system)
    : file_system * result unit :=
  match py_open_w "rslts" "admissible_values.robupy.pkl" fs with
  | Raise e => (fs, Raise e)
  | Ok fs =>
      let fs :=
        <["rslts/admissible_values.robupy.pkl" := File (pkl_dumps rslt)]> fs in
      match py_open_w "rslts" "admissible_values.robupy.log" fs with
      | Raise e => (fs, Raise e)
      | Ok fs =>
          let log := store_rslts_log rslt in
          (<["rslts/admissible_values.robupy.log" := File (written log)]> fs,
           outcome log)
      end
  end.

End Store.

(** The command-line options after parsing. *)
Record namespace : Set := {
  is_recompile : pyval;
  num_procs : pyval;
  is_debug : pyval;
  levels : pyval;
  spec : pyval;
}.

Record parser : Set := {
  parse_args : namespace;
}.

(** [isinstance(v, list)] and [isinstance(v, int)] ([bool] is a subclass of
    [int]). *)
Definition is_list (v : pyval) : bool :=
  match v with PList _ => true | _ => false end.

Definition is_int (v : pyval) : bool :=
  match v with PNum (NBool _) | PNum (NInt _) => true | _ => false end.

(** The truth value of a number. *)
Definition truthy (n : pynum) : bool :=
  match n with
  | NBool b => b
  | NInt n => negb (n =? 0)
  | NFloat x => negb (F64.eqb x F64.zero)
  end.

(** [np.all(v)] for a list of numbers. *)
Definition np_all (l : list pynum) : bool := forallb truthy l.

Definition float_of_bool (b : bool) : float :=
  if b then F64.one else F64.zero.

(** [v == b] for a boolean [b]. *)
Definition eq_bool (v : pyval) (b : bool) : bool :=
  match v with
  | PNum (NBool c) => bool_decide (c = b)
  | PNum (NInt n) => n =? (if b then 1 else 0)
  | PNum (NFloat x) => F64.eqb x (float_of_bool b)
  | _ => false
  end.

(** [v > 0] for a value that is an [int]. *)
Definition gt_zero (v : pyval) : bool :=
  match v with
  | PNum (NBool b) => b
  | PNum (NInt n) => 0 <? n
  | _ => false
  end.

Definition distribute_arguments (parser : parser)
    : result (pyval * pyval * pyval * pyval * pyval) :=
  let args := parse_args parser in
  let is_recompile := is_recompile args in
  let num_procs := num_procs args in
  let is_debug := is_debug args in
  let levels := levels args in
  let spec := spec args in
  _ ← py_assert (is_list levels);
  _ ← py_assert
        (match levels with
         | PList l => F64.leb F64.zero (float_of_bool (np_all l))
         | _ => false
         end);
  _ ← py_assert (eq_bool is_recompile true || eq_bool is_recompile false);
  _ ← py_assert (eq_bool is_debug true || eq_bool is_debug false);
  _ ← py_assert (is_int num_procs);
  _ ← py_assert (gt_zero num_procs);
  _ ← py_assert
        (match spec with
         | PStr s => bool_decide (s ∈ ["one"; "two"; "three"])
         | _ => false
         end);
  Ok (levels, is_recompile, is_debug, num_procs, spec).

(** The checks of [distribute_arguments] that can fail. *)
Definition accepted (args : namespace) : bool :=
  is_list (levels args)
  && (eq_bool (is_recompile args) true || eq_bool (is_recompile args) false)
  && (eq_bool (is_debug args) true || eq_bool (is_debug args) false)
  && is_int (num_procs args)
  && gt_zero (num_procs args)
  && match spec args with
     | PStr s => bool_decide (s ∈ ["one"; "two"; "three"])
     | _ => false
     end.

(** [np.array(rslt) / 1000.00] *)
Definition in_thousands (rslt : list float) : list float :=
  (λ x, F64.div x (F64.of_Z 1000)) <$> rslt.

Definition get_elements (choice : string) (rslts : rslts)
    : result (list float * list float * list float) :=
  '(lower, upper) ←
    for_each BOUNDS_LIST (λ '(lower, upper) which,
      rslt ← for_each AMBIGUITY_GRID (λ rslt level,
                x ← _extract_results level choice rslts which;
                Ok (rslt ++ [x])) [];
      if str_in which ["upper"] then Ok (lower, in_thousands rslt)
      else Ok (in_thousands rslt, upper)) ([], []);
  (* Calculate increments *)
  increments ← Interpolate.np_sub upper lower;
  Ok (upper, lower, increments).

Section Criterion.

(** [transform_disturbances_ambiguity] of [robupy.python.py.ambiguity]. *)
Variable transform_disturbances_ambiguity :
  Kernel.array2 float → list float → Kernel.array2 float.

Definition criterion (x : list float) (num_draws : Z)
    (eps_relevant : Kernel.array2 float) (period k : Z)
    (payoffs_systematic : list float) (edu_max edu_start : Z)
    (mapping_state_idx : Kernel.array5 Z) (states_all : Kernel.array3 Z)
    (num_periods : Z) (periods_emax : Kernel.array2 float) (delta : float)
    (sign : Z) : result float :=
  _ ← py_assert ((sign =? 1) || (sign =? -1));
  let eps_relevant_emax := transform_disturbances_ambiguity eps_relevant x in
  '(simulated, _, _) ←
    Kernel.simulate_emax num_periods num_draws period k eps_relevant_emax
      payoffs_systematic edu_max edu_start periods_emax states_all
      mapping_state_idx delta;
  Ok (F64.mul (F64.of_Z sign) simulated).

End Criterion.

End Admissible.

(** ** development/testing/_modules/auxiliary_scalability.py *)

(** The clock: [datetime] objects with [strftime], their difference, and
    the helper [strfdelta] of [auxiliary_shared], which formats a duration. *)
Class DateTime : Type := {
  datetime : Type;
  timedelta : Type;
  strftime : datetime → string → string;
  datetime_sub : datetime → datetime → timedelta;
  strfdelta : timedelta → string → string;
}.

Module Scalability.

Definition info_file : string := "scalability.respy.info".

(** [os.path.exists] on a file system that maps a path to the content. *)
Definition os_path_exists (path : string) (fs : gmap string string) : bool :=
  bool_decide (is_Some (fs !! path)).

(** [with open(path, 'a') as f: f.write(text)] *)
Definition append_to (path text : string) (fs : gmap string string)
    : gmap string string :=
  <[path := default EmptyString (fs !! path) +:+ text]> fs.

(** ['{:>15} {:>25} {:>25} {:>15}\n'.format(a, b, c, d)] *)
Definition fmt (a b c d : string) : string :=
  rjust 15 a +:+ " " +:+ rjust 25 b +:+ " " +:+ rjust 25 c +:+ " " +:+
  rjust 15 d +:+ nl.

Definition record_information `{DateTime} (start_time finish_time : datetime)
    (num_slaves : Z) (fs : gmap string string) : gmap string string :=
  let fs :=
    if negb (os_path_exists info_file fs) then
      let fs := append_to info_file (nl +:+ " Time" +:+ nl +:+ nl) fs in
      let fs :=
        append_to info_file (fmt "Slaves" "Start" "Stop" "Duration") fs in
      append_to info_file nl fs
    else fs in
  let start_str := strftime start_time "%Y-%m-%d %H:%M:%S" in
  let finish_str := strftime finish_time "%Y-%m-%d %H:%M:%S" in
  let duration_time := datetime_sub finish_time start_time in
  let duration_str := strfdelta duration_time "{H:02}:{M:02}:{S:02}" in
  append_to info_file
    (fmt (py_str_int num_slaves) start_str finish_str duration_str) fs.

(** The header of the report and the row of one call. *)
Definition header : string :=
  nl +:+ " Time" +:+ nl +:+ nl +:+
  fmt "Slaves" "Start" "Stop" "Duration" +:+ nl.

Definition row `{DateTime} (call : datetime * datetime * Z) : string :=
  let '(start_time, finish_time, num_slaves) := call in
  fmt (py_str_int num_slaves)
    (strftime start_time "%Y-%m-%d %H:%M:%S")
    (strftime finish_time "%Y-%m-%d %H:%M:%S")
    (strfdelta (datetime_sub finish_time start_time) "{H:02}:{M:02}:{S:02}").

(** A sequence of calls, as the loop of [run] makes them. *)
Definition record_all `{DateTime} (calls : list (datetime * datetime * Z))
    (fs : gmap string string) : gmap string string :=
  foldl (λ fs '(start_time, finish_time, num_slaves),
           record_information start_time finish_time num_slaves fs)
    fs calls.

End Scalability.

(** ** Concrete inputs and instances *)

Module Sample.

(** *** The kernel: two periods, one state in period 0 with no education
    left to acquire ([edu_max = edu_start]), four states in period 1. *)

Definition num_periods : Z := 2.
Definition edu_max : Z := 10.
Definition edu_start : Z := 10.

Definition states_all : Kernel.array3 Z :=
  [ [[0; 0; 0; 0]];
    [[1; 0; 0; 0]; [0; 1; 0; 0]; [0; 0; 0; 0]; [1; 1; 0; 0]] ].

(** [mapping_state_idx[period][exp_A][exp_B][edu][edu_lagged]] *)
Definition mapping_state_idx : Kernel.array5 Z :=
  [ [[[[0; 0]]; [[0; 0]]]; [[[0; 0]]; [[0; 0]]]];
    [[[[2; 2]]; [[1; 1]]]; [[[0; 0]]; [[3; 3]]]] ].

Definition emax : Kernel.array2 float :=
  [ [F64.zero; F64.zero; F64.zero; F64.zero];
    [F64.of_Z 10; F64.of_Z 20; F64.of_Z 30; F64.of_Z 40] ].

Definition payoffs_ex_ante : list float :=
  [F64.of_Z 1; F64.of_Z 2; F64.of_Z 3; F64.of_Z 4].

Definition eps_relevant : Kernel.array2 float :=
  [ [F64.of_Z 1; F64.of_Z 1; F64.zero; F64.zero];
    [F64.of_Z 5; F64.of_Z 1; F64.zero; F64.of_Z 2] ].

(** *** A generator for [NumpyRandom]: the state is a counter, and the
    sample is a prefix of [range(n)] rotated by the counter. *)

Definition rotation_seed (seed : Z) : result Z :=
  if (0 <=? seed) && (seed <? 2 ^ 32) then Ok seed else Raise ValueError.

Definition rotation_choice (g n size : Z) : result (list Z) * Z :=
  if (size <? 0) || (n <? size) then (Raise ValueError, g)
  else (Ok (take (Z.to_nat size) (rotate (Z.to_nat g) (py_range n))), g + 1).

Definition rotation_rng : NumpyRandom := {|
  rng_state := Z;
  np_random_seed := rotation_seed;
  np_random_choice := rotation_choice;
|}.

(** *** Linear algebra for [NumpyLinalg]: products accumulated from left to
    right, and the pseudo-inverse of a diagonal matrix of finite numbers. *)

Definition dot (u v : list float) : float :=
  F64.sum (zip_with F64.mul u v).

Definition dot_mv (a : list (list float)) (v : list float) : list float :=
  (λ row, dot row v) <$> a.

Fixpoint transpose (a : list (list float)) : list (list float) :=
  match a with
  | [] => []
  | [row] => (λ x, [x]) <$> row
  | row :: a' => zip_with cons row (transpose a')
  end.

Definition dot_mm (a b : list (list float)) : list (list float) :=
  (λ row, (λ col, dot row col) <$> transpose b) <$> a.

Definition pinv_diagonal (a : list (list float))
    : result (list (list float)) :=
  if forallb (forallb F64.isfinite) a then
    Ok (imap (λ i row,
                imap (λ j x,
                        if bool_decide (i = j) && negb (F64.eqb x F64.zero)
                        then F64.div F64.one x else F64.zero) row) a)
  else Raise LinAlgError.

Definition naive_linalg : NumpyLinalg := {|
  np_T := transpose;
  np_dot_mm := dot_mm;
  np_dot_mv := dot_mv;
  np_linalg_pinv := pinv_diagonal;
|}.

(** *** A clock for [DateTime]: seconds since midnight of one day.
    Modelled from the spec: [strfdelta] renders a duration as [HH:MM:SS]. *)

Definition two_digits (n : Z) : string :=
  str_repeat "0"%char (2 - String.length (pretty n)) +:+ pretty n.

Definition hms (t : Z) : string :=
  two_digits (t `div` 3600) +:+ ":" +:+ two_digits ((t `div` 60) `mod` 60)
  +:+ ":" +:+ two_digits (t `mod` 60).

Definition day_clock : DateTime := {|
  datetime := Z;
  timedelta := Z;
  strftime t _ := "2016-05-01 " +:+ hms t;
  datetime_sub := Z.sub;
  strfdelta d _ := hms d;
|}.

(** *** Admissible values at the levels 0.0 and 0.01. *)

Definition rslt : Admissible.rslts :=
  [ (F64.zero,
     [ [F64.of_Z 1; F64.of_Z 1]; [F64.of_Z 2; F64.of_Z 2];
       [F64.of_Z 3; F64.of_Z 3]; [F64.of_Z 4; F64.of_Z 4] ]);
    (Admissible.f_0_01,
     [ [F64.zero; F64.of_Z 2]; [F64.of_Z 1; F64.of_Z 3];
       [F64.of_Z 2; F64.of_Z 4]; [F64.of_Z 3; F64.of_Z 5] ]) ].

(** *** The state array with the lagged-education flag of the state in
    period 0 set. *)

Definition states_all_lagged : Kernel.array3 Z :=
  [ [[0; 0; 0; 1]];
    [[1; 0; 0; 0]; [0; 1; 0; 0]; [0; 0; 0; 0]; [1; 1; 0; 0]] ].

(** *** Kernels for [RespyShared]: the value function of a choice is its
    wage times the draw plus the non-pecuniary reward plus the discounted
    continuation value; the expected value function of a state is the
    largest of these, averaged over the draws. *)

Definition value_function (delta : float) (draws : list float)
    (wages nonpec emaxs : list float) : list float :=
  zip_with F64.add
    (zip_with F64.add (zip_with F64.mul wages draws) nonpec)
    (F64.mul delta <$> emaxs).

Definition shared_kernels : RespyShared := {|
  calculate_value_functions_and_flow_utilities wages nonpec emaxs draws
      delta :=
    (zip_with (λ w ne, value_function delta draws w ne.1 ne.2) wages
       (zip nonpec emaxs),
     zip_with (λ w n, zip_with F64.add (zip_with F64.mul w draws) n) wages
       nonpec);
  calculate_expected_value_functions wages nonpec continuation_values draws
      delta :=
    (λ w,
       F64.mean
         ((λ d, foldl Interpolate.np_maximum F64.neg_inf
                  (zip_with F64.mul w d)) <$> draws)) <$> wages;
|}.

(** *** Admissible values at the three levels of the grid, at the level
    0.01 alone, and with a level that is NaN; a directory tree that holds
    the directory [rslts] and nothing else. *)

Definition rslts_grid : Admissible.rslts :=
  rslt ++
  [ (Admissible.f_0_02,
     [ [F64.zero; F64.of_Z 3]; [F64.zero; F64.of_Z 4];
       [F64.of_Z 1; F64.of_Z 5]; [F64.of_Z 2; F64.of_Z 6] ]) ].

Definition rslt_low : Admissible.rslts :=
  [ (Admissible.f_0_01,
     [ [F64.zero; F64.of_Z 2]; [F64.of_Z 1; F64.of_Z 3];
       [F64.of_Z 2; F64.of_Z 4]; [F64.of_Z 3; F64.of_Z 5] ]) ].

Definition rslt_nan : Admissible.rslts :=
  [ (F64.zero,
     [ [F64.of_Z 1; F64.of_Z 1]; [F64.of_Z 2; F64.of_Z 2];
       [F64.of_Z 3; F64.of_Z 3]; [F64.of_Z 4; F64.of_Z 4] ]);
    (F64.nan,
     [ [F64.zero; F64.of_Z 2]; [F64.of_Z 1; F64.of_Z 3];
       [F64.of_Z 2; F64.of_Z 4]; [F64.of_Z 3; F64.of_Z 5] ]) ].

Definition results_directory : Admissible.file_system :=
  {["rslts" := Admissible.Directory]}.

End Sample.

(** * Verified properties *)

(** ** The exception monad *)

Lemma bind_Ok {A B} (f : A → result B) (a : A) : (Ok a ≫= f) = f a.
Proof. reflexivity. Qed.

Lemma bind_Raise {A B} (f : A → result B) (e : exn) :
  (Raise e ≫= f) = Raise e.
Proof. reflexivity. Qed.

Lemma bind_Ok_inv {A B} (m : result A) (f : A → result B) (b : B) :
  m ≫= f = Ok b → ∃ a, m = Ok a ∧ f a = Ok b.
Proof. destruct m as [a|e]; [eauto | discriminate]. Qed.

(** Destructs the computation bound first in a hypothesis [_ ≫= _ = Ok _]. *)
Ltac bind_inv H :=
  let a := fresh "a" in
  let Ha := fresh "Ha" in
  apply bind_Ok_inv in H as (a & Ha & H).

Lemma py_getitem_lookup {A} (a : list A) (i : Z) (x : A) :
  0 ≤ i → a !! Z.to_nat i = Some x → py_getitem a i = Ok x.
Proof.
  intros Hi Hx. unfold py_getitem.
  pose proof (lookup_lt_Some _ _ _ Hx) as Hlt.
  destruct (Z.ltb_spec i 0) as [?|_]; [lia|].
  destruct (Z.ltb_spec i 0) as [?|_]; [lia|].
  destruct (Z.leb_spec (Z.of_nat (length a)) i) as [?|_]; [lia|].
  simpl. by rewrite Hx.
Qed.

Lemma py_range_length (n : Z) : length (py_range n) = Z.to_nat n.
Proof. unfold py_range. by rewrite length_fmap, length_seq. Qed.

Lemma map_each_length {A B} (f : A → result B) xs ys :
  map_each f xs = Ok ys → length ys = length xs.
Proof.
  revert ys. induction xs as [|x xs IH]; intros ys H; simpl in H.
  - by inversion H.
  - bind_inv H. bind_inv H. inversion H; subst. simpl. f_equal. by apply IH.
Qed.

(** ** Floats *)

Lemma mul_finite_zero (d : float) :
  F64.isfinite d = true → ∃ s, F64.mul d F64.zero = S754_zero s.
Proof. destruct d; simpl; intros H; try discriminate; eauto. Qed.

Lemma add_zero_same_number (x : float) (s : bool) :
  F64.same_number (F64.add x (S754_zero s)) x.
Proof. destruct x as [[]|[]| |]; destruct s; simpl; auto. Qed.

Lemma add_nan_r (x : float) : F64.add x F64.nan = F64.nan.
Proof. by destruct x. Qed.

Lemma mul_zero_neg_inf (d : float) :
  F64.eqb d F64.zero = true → F64.mul d F64.neg_inf = F64.nan.
Proof. destruct d as [[]|[]| |[] ? ?]; simpl; intros H; done. Qed.

(** ** robupy/python/py/auxiliary.py *)

Section KernelFacts.

Import Kernel.

Variables (num_periods period k edu_max edu_start : Z).
Variables (emax : array2 float) (states_all : array3 Z).
Variables (mapping_state_idx : array5 Z) (delta : float).

(** The running sum of the loop of [simulate_emax], started at [e], is the
    left-to-right sum of the per-draw maxima. *)
Lemma simulate_emax_loop eps_relevant payoffs_ex_ante xs e p f :
  (λ s : float * pyobj * pyobj, s.1.1) <$>
    for_each xs
      (λ '(emax_simulated, _, _) i,
         disturbances ← py_getitem eps_relevant i;
         '(total_payoffs, payoffs_ex_post, future_payoffs) ←
           get_total_value period num_periods delta payoffs_ex_ante
             disturbances edu_max edu_start mapping_state_idx emax k
             states_all;
         maximum ← py_max total_payoffs;
         Ok (F64.add emax_simulated maximum,
             PyArray payoffs_ex_post, PyArray future_payoffs))
      (e, p, f)
  = (maxima ← map_each
       (draw_maximum num_periods period k eps_relevant payoffs_ex_ante
          edu_max edu_start emax states_all mapping_state_idx delta) xs;
     Ok (foldl F64.add e maxima)).
Proof.
  revert e p f. induction xs as [|i xs IH]; intros e p f; [reflexivity|].
  cbn [for_each map_each].
  replace (draw_maximum _ _ _ _ _ _ _ _ _ _ _ i) with
    (disturbances ← py_getitem eps_relevant i;
     r ← get_total_value period num_periods delta payoffs_ex_ante
           disturbances edu_max edu_start mapping_state_idx emax k
           states_all;
     py_max r.1.1) by reflexivity.
  destruct (py_getitem eps_relevant i) as [d|?]; [|reflexivity].
  rewrite !bind_Ok.
  destruct (get_total_value _ _ _ _ d _ _ _ _ _ _) as [[[t pe] fp]|?];
    [|reflexivity].
  rewrite !bind_Ok. cbn [fst].
  destruct (py_max t) as [m|?]; [|reflexivity].
  rewrite !bind_Ok, IH.
  destruct (map_each _ xs) as [ms|?]; reflexivity.
Qed.

(** C1: for [num_draws >= 1] the first value returned by [simulate_emax] is
    the arithmetic mean (the left-to-right sum divided by [num_draws]) of
    the per-draw maxima [max(total_payoffs)], where [total_payoffs] is what
    [get_total_value] returns for the disturbance row of that draw; the
    call raises exactly when one of the draws does. *)
Theorem simulate_emax_is_mean_of_maxima (num_draws : Z)
    (eps_relevant : array2 float) (payoffs_ex_ante : list float) :
  1 ≤ num_draws →
  (λ r : float * pyobj * pyobj, r.1.1) <$>
    simulate_emax num_periods num_draws period k eps_relevant
      payoffs_ex_ante edu_max edu_start emax states_all mapping_state_idx
      delta
  = (maxima ← map_each
       (draw_maximum num_periods period k eps_relevant payoffs_ex_ante
          edu_max edu_start emax states_all mapping_state_idx delta)
       (py_range num_draws);
     Ok (F64.mean maxima)).
Proof.
  intros Hn. unfold simulate_emax.
  pose proof (simulate_emax_loop eps_relevant payoffs_ex_ante
                (py_range num_draws) F64.zero (PyFloat F64.zero)
                (PyFloat F64.zero)) as Hloop.
  destruct (for_each _ _ _) as [[[e p] f]|err].
  - destruct (map_each _ _) as [ms|?] eqn:Hms; [|discriminate].
    apply map_each_length in Hms. rewrite py_range_length in Hms.
    simpl in Hloop. injection Hloop as ->.
    destruct (Z.ltb_spec 0 num_draws) as [_|?]; [|lia].
    simpl. unfold F64.mean, F64.sum. rewrite Hms, Z2Nat.id by lia. done.
  - destruct (map_each _ _) as [ms|?]; [discriminate|].
    simpl in *. congruence.
Qed.

(** C2 (amended): in the terminal period [period == num_periods - 1],
    [get_total_value] returns [future_payoffs = [0, 0, 0, 0]] and the
    ex-post payoffs (multiplicative shock for choices 0 and 1, additive
    shock for choices 2 and 3).  For a finite discount factor the total
    payoffs [payoffs_ex_post + delta * 0.0] are the same numbers as the
    ex-post payoffs; for an infinite or undefined discount factor every
    total payoff is NaN. *)
Theorem get_total_value_terminal_period
    (a0 a1 a2 a3 d0 d1 d2 d3 : float) (ra rd : list float) :
  period = num_periods - 1 →
  let payoffs_ex_post :=
    [F64.mul a0 d0; F64.mul a1 d1; F64.add a2 d2; F64.add a3 d3] in
  ∃ total_payoffs,
    get_total_value period num_periods delta
      (a0 :: a1 :: a2 :: a3 :: ra) (d0 :: d1 :: d2 :: d3 :: rd)
      edu_max edu_start mapping_state_idx emax k states_all
    = Ok (total_payoffs, payoffs_ex_post,
          [F64.zero; F64.zero; F64.zero; F64.zero])
    ∧ (F64.isfinite delta = true →
       Forall2 F64.same_number total_payoffs payoffs_ex_post)
    ∧ (F64.isfinite delta = false →
       total_payoffs = [F64.nan; F64.nan; F64.nan; F64.nan]).
Proof.
  intros Hp pe. subst pe. unfold get_total_value. cbn [for_each].
  rewrite !(py_getitem_lookup (_ :: _ :: _ :: _ :: _) 0 _ ltac:(lia) eq_refl).
  rewrite !(py_getitem_lookup (_ :: _ :: _ :: _ :: _) 1 _ ltac:(lia) eq_refl).
  rewrite !(py_getitem_lookup (_ :: _ :: _ :: _ :: _) 2 _ ltac:(lia) eq_refl).
  rewrite !(py_getitem_lookup (_ :: _ :: _ :: _ :: _) 3 _ ltac:(lia) eq_refl).
  rewrite !bind_Ok.
  destruct (Z.eqb_spec period (num_periods - 1)) as [_|?]; [|done].
  unfold _stabilize_myopic, mask_fill, np_tile.
  cbn -[F64.add F64.mul F64.eqb].
  eexists. split; [reflexivity|]. split.
  - intros Hd. destruct (mul_finite_zero delta Hd) as [s Hs]. rewrite Hs.
    destruct (F64.eqb delta F64.zero);
      cbv -[F64.add F64.mul F64.same_number];
      repeat constructor; apply add_zero_same_number.
  - intros Hd.
    assert (Hm : F64.mul delta F64.zero = F64.nan)
      by (by destruct delta as [?|[]| |]).
    assert (Hz : F64.eqb delta F64.zero = false)
      by (by destruct delta as [?|[]| |]).
    rewrite Hm, Hz. cbv -[F64.add F64.mul]. by rewrite !add_nan_r.
Qed.

(** With the maximum-education constraint binding, [_get_future_payoffs]
    puts negative infinity in the schooling entry. *)
Lemma _get_future_payoffs_max_edu exp_A exp_B edu edu_lagged future :
  index2 states_all period k = Ok [exp_A; exp_B; edu; edu_lagged] →
  edu = edu_max - edu_start →
  _get_future_payoffs edu_max edu_start mapping_state_idx period emax k
    states_all = Ok future →
  ∃ v0 v1 v3, future = [v0; v1; F64.neg_inf; v3].
Proof.
  intros Hrow Hedu H. unfold _get_future_payoffs in H.
  rewrite Hrow in H. cbn [mbind result_bind unpack4] in H.
  destruct (Z.ltb_spec edu (edu_max - edu_start)) as [?|_]; [lia|].
  repeat bind_inv H. injection H as <-.
  match goal with E : Ok _ = Ok _ |- _ => injection E as <- end.
  cbn. eauto.
Qed.

(** C3: in a non-terminal period, for a state whose education component
    satisfies [edu == edu_max - edu_start], the schooling entry
    [future_payoffs[2]] returned by [get_total_value] is negative infinity,
    and for [delta == 0] the entry [total_payoffs[2]] is negative infinity
    too, where the plain sum [payoffs_ex_post[2] + delta * future_payoffs[2]]
    would have been NaN. *)
Theorem get_total_value_max_education
    (payoffs_ex_ante disturbances : list float)
    (exp_A exp_B edu edu_lagged : Z) (total ex_post future : list float) :
  period ≠ num_periods - 1 →
  index2 states_all period k = Ok [exp_A; exp_B; edu; edu_lagged] →
  edu = edu_max - edu_start →
  get_total_value period num_periods delta payoffs_ex_ante disturbances
    edu_max edu_start mapping_state_idx emax k states_all
  = Ok (total, ex_post, future) →
  future !! 2%nat = Some F64.neg_inf
  ∧ (F64.eqb delta F64.zero = true →
     total !! 2%nat = Some F64.neg_inf
     ∧ ∃ p, ex_post !! 2%nat = Some p
          ∧ F64.add p (F64.mul delta F64.neg_inf) = F64.nan).
Proof.
  intros Hp Hrow Hedu H. unfold get_total_value in H. cbn [for_each] in H.
  destruct (Z.eqb_spec period (num_periods - 1)) as [?|_]; [done|].
  cbn [negb] in H. repeat bind_inv H.
  repeat match goal with E : Ok _ = Ok _ |- _ => injection E as <- end.
  match goal with
  | E : _get_future_payoffs _ _ _ _ _ _ _ = Ok _ |- _ =>
      destruct (_get_future_payoffs_max_edu _ _ _ _ _ Hrow Hedu E)
        as (v0 & v1 & v3 & ->)
  end.
  repeat match goal with E : _ ≫= _ = Ok _ |- _ => bind_inv E end.
  repeat match goal with E : Ok _ = Ok _ |- _ => injection E as <- end.
  subst. split; [reflexivity|].
  intros Hz. rewrite Hz. unfold _stabilize_myopic, mask_fill, np_tile.
  pose proof (mul_zero_neg_inf _ Hz) as Hm. unfold F64.neg_inf, F64.nan in Hm.
  cbv -[F64.add F64.mul]. rewrite Hm.
  split; [reflexivity|]. eexists. split; [reflexivity|].
  apply add_nan_r.
Qed.

End KernelFacts.

(** ** respy/interpolate.py *)

Section SplitFacts.

Import Interpolate.

Lemma sum_replicate (n : nat) (x : Z) :
  foldr Z.add 0 (replicate n x) = Z.of_nat n * x.
Proof. induction n as [|n IH]; simpl; [lia|]. rewrite IH. lia. Qed.

Lemma sum_app (xs ys : list Z) :
  foldr Z.add 0 (xs ++ ys) = foldr Z.add 0 xs + foldr Z.add 0 ys.
Proof. induction xs as [|x xs IH]; simpl; [lia|]. rewrite IH. lia. Qed.

Lemma wrap_int64_small (z : Z) :
  - 2 ^ 63 ≤ z < 2 ^ 63 → wrap_int64 z = z.
Proof. intros Hz. unfold wrap_int64. rewrite Z.mod_small; lia. Qed.

Lemma np_int64_Ok (p : Z) : - 2 ^ 63 ≤ p < 2 ^ 63 → np_int64 p = Ok p.
Proof.
  intros Hp. unfold np_int64.
  destruct (Z.leb_spec (- 2 ^ 63) p) as [_|?]; [|lia].
  by destruct (Z.ltb_spec p (2 ^ 63)) as [_|?]; [|lia].
Qed.

Lemma np_int64_Raise (p : Z) :
  p < - 2 ^ 63 ∨ 2 ^ 63 ≤ p → np_int64 p = Raise OverflowError.
Proof.
  intros Hp. unfold np_int64.
  destruct (Z.leb_spec (- 2 ^ 63) p) as [?|?]; [|done].
  by destruct (Z.ltb_spec p (2 ^ 63)) as [?|?]; [lia|].
Qed.

(** A quotient by a positive divisor stays within bounds that enclose
    zero. *)
Lemma div_between (p n lo hi : Z) :
  1 ≤ n → lo ≤ 0 → 0 < hi → lo ≤ p < hi → lo ≤ p `div` n < hi.
Proof.
  intros Hn Hlo Hhi Hp.
  pose proof (Z.div_mod p n ltac:(lia)) as Hdm.
  pose proof (Z.mod_pos_bound p n ltac:(lia)) as Hr.
  nia.
Qed.

(** With a remainder left, the quotient can still be increased by one. *)
Lemma div_succ_between (p n lo hi : Z) :
  1 ≤ n → lo ≤ 0 → 0 < hi → lo ≤ p < hi → 0 < p `mod` n →
  lo ≤ p `div` n + 1 < hi.
Proof.
  intros Hn Hlo Hhi Hp Hpos.
  pose proof (Z.div_mod p n ltac:(lia)) as Hdm.
  pose proof (Z.mod_pos_bound p n ltac:(lia)) as Hr.
  nia.
Qed.

(** The counts of the split for a budget [p] in the range of [int64] and
    [n >= 1] sub-state-spaces: [p // n], plus one for the first [p % n]. *)
Lemma split_counts (n : nat) (p : Z) :
  (1 ≤ n)%nat → - 2 ^ 63 ≤ p < 2 ^ 63 →
  (floor_divide_int64 p (np_full (Z.of_nat n) (Z.of_nat n))
   ≫= λ interp_points,
        py_mod p (Z.of_nat n)
        ≫= λ remaining_points, Ok (slice_add interp_points remaining_points 1))
  = Ok (replicate (Z.to_nat (p `mod` Z.of_nat n)) (p `div` Z.of_nat n + 1)
        ++ replicate (n - Z.to_nat (p `mod` Z.of_nat n))
             (p `div` Z.of_nat n)).
Proof.
  intros Hn Hp.
  assert (Hr : 0 ≤ p `mod` Z.of_nat n < Z.of_nat n)
    by (apply Z.mod_pos_bound; lia).
  unfold floor_divide_int64, py_mod, np_full.
  rewrite (np_int64_Ok p Hp), !bind_Ok, fmap_replicate, Nat2Z.id.
  destruct (Z.eqb_spec (Z.of_nat n) 0) as [?|_]; [lia|]. rewrite bind_Ok.
  rewrite (wrap_int64_small (p `div` Z.of_nat n))
    by (apply div_between; lia).
  unfold slice_add, slice_stop. rewrite length_replicate.
  destruct (Z.ltb_spec (p `mod` Z.of_nat n) 0) as [?|_]; [lia|].
  rewrite Nat.min_l by lia.
  rewrite take_replicate, drop_replicate, fmap_replicate.
  rewrite Nat.min_l by lia. do 2 f_equal.
  destruct (Z.to_nat (p `mod` Z.of_nat n)) as [|r] eqn:Hrn; [done|].
  rewrite wrap_int64_small; [done|]. apply div_succ_between; lia.
Qed.

Lemma split_counts_sum (n : nat) (p : Z) :
  (1 ≤ n)%nat →
  foldr Z.add 0
    (replicate (Z.to_nat (p `mod` Z.of_nat n)) (p `div` Z.of_nat n + 1)
     ++ replicate (n - Z.to_nat (p `mod` Z.of_nat n)) (p `div` Z.of_nat n))
  = p.
Proof.
  intros Hn.
  assert (Hr : 0 ≤ p `mod` Z.of_nat n < Z.of_nat n)
    by (apply Z.mod_pos_bound; lia).
  rewrite sum_app, !sum_replicate.
  rewrite Nat2Z.inj_sub, Z2Nat.id by lia.
  pose proof (Z.div_mod p (Z.of_nat n) ltac:(lia)) as Hdm.
  set (q := p `div` Z.of_nat n) in *. set (r := p `mod` Z.of_nat n) in *.
  replace (r * (q + 1) + (Z.of_nat n - r) * q) with (Z.of_nat n * q + r)
    by ring.
  lia.
Qed.

(** C7 (amended): with [n >= 1] dense sub-state-spaces and a budget
    [0 <= p < 2^63], [_split_interpolation_points_evenly] gives the [i]-th
    sub-state-space (in iteration order) [p // n] points, plus one exactly
    when [i < p % n], and the assigned counts sum to [p]; a budget of
    [2^63] or more does not fit the [int64] array of the counts, and the
    call raises [OverflowError]. *)
Theorem split_interpolation_points_evenly {K V : Type}
    (subs : list (K * V)) (p : Z) :
  (1 ≤ length subs)%nat →
  0 ≤ p →
  let n := Z.of_nat (length subs) in
  if p <? 2 ^ 63 then
    ∃ counts : list Z,
      _split_interpolation_points_evenly
        {| sub_state_spaces := Some subs |} {| interpolation_points := p |}
      = Ok (PerDense (zip (fst <$> subs) counts))
      ∧ length counts = length subs
      ∧ (∀ i : nat, (i < length subs)%nat →
           counts !! i
           = Some (p `div` n + if Z.of_nat i <? p `mod` n then 1 else 0))
      ∧ foldr Z.add 0 counts = p
  else
    _split_interpolation_points_evenly
      {| sub_state_spaces := Some subs |} {| interpolation_points := p |}
    = Raise OverflowError.
Proof.
  intros Hn Hp n.
  assert (Hr : 0 ≤ p `mod` n < n) by (apply Z.mod_pos_bound; lia).
  unfold _split_interpolation_points_evenly.
  cbn [sub_state_spaces interpolation_points]. fold n.
  destruct (Z.ltb_spec p (2 ^ 63)) as [Hlt|Hge].
  - pose proof (split_counts (length subs) p Hn ltac:(lia)) as Hsplit.
    fold n in Hsplit. revert Hsplit.
    destruct (floor_divide_int64 p _) as [interp_points|?]; [|done].
    rewrite !bind_Ok.
    destruct (py_mod p n) as [remaining_points|?]; [|done].
    rewrite !bind_Ok. intros [= ->].
    eexists. split; [reflexivity|]. split; [|split].
    + rewrite length_app, !length_replicate. lia.
    + intros i Hi.
      destruct (Z.ltb_spec (Z.of_nat i) (p `mod` n)) as [Hi'|Hi'].
      * rewrite lookup_app_l by (rewrite length_replicate; lia).
        rewrite lookup_replicate_2 by lia. done.
      * rewrite lookup_app_r by (rewrite length_replicate; lia).
        rewrite length_replicate, lookup_replicate_2 by lia.
        by rewrite Z.add_0_r.
    + by apply split_counts_sum.
  - unfold floor_divide_int64. by rewrite np_int64_Raise by lia.
Qed.

End SplitFacts.

Section IndicatorFacts.

Import Interpolate.


Lemma count_true_cons (b : bool) (mask : list bool) :
  count_true (b :: mask)
  = ((if b then 1 else 0) + count_true mask)%nat.
Proof.
  unfold count_true. destruct b.
  - by rewrite filter_cons_True.
  - by rewrite filter_cons_False.
Qed.



Context `{NumpyRandom}.

(** What numpy documents for sampling without replacement: a sample of
    [size] distinct items of [range(n)]. *)
Hypothesis np_random_choice_spec : ∀ (g : rng_state) (n size : Z),
  0 ≤ size ≤ n →
  ∃ indices g',
    np_random_choice g n size = (Ok indices, g')
    ∧ NoDup indices
    ∧ Z.of_nat (length indices) = size
    ∧ Forall (λ i, 0 ≤ i < n) indices.


End IndicatorFacts.

Section PredictFacts.

Import Interpolate.

Lemma compress_length {A} (mask : list bool) (a : list A) :
  length mask = length a → length (compress mask a) = count_true mask.
Proof.
  revert a. induction mask as [|b mask IH]; intros [|x a] Hl; try done.
  simpl in Hl. rewrite count_true_cons. cbn [compress].
  destruct b; simpl; rewrite IH by lia; done.
Qed.

(** A selected position [i] is found in [a[mask]] at the number of selected
    positions before [i]. *)
Lemma compress_lookup {A} (mask : list bool) (a : list A) (i : nat) :
  length mask = length a →
  mask !! i = Some true →
  compress mask a !! count_true (take i mask) = a !! i.
Proof.
  revert a i. induction mask as [|b mask IH]; intros [|x a] i Hl Hi; try done.
  simpl in Hl. destruct i as [|i].
  - simpl in Hi. by injection Hi as ->.
  - simpl in Hi. cbn [take]. rewrite count_true_cons. cbn [compress].
    destruct b; simpl; apply IH; (lia || done).
Qed.

Lemma mask_put_length {A} (a : list A) (mask : list bool) (vs : list A) :
  length (mask_put a mask vs) = length a.
Proof.
  revert mask vs. induction a as [|x a IH]; intros [|[] mask] vs; try done.
  - destruct vs; simpl; by rewrite IH.
  - simpl; by rewrite IH.
Qed.

Lemma mask_put_lookup {A} (a : list A) (mask : list bool) (vs : list A)
    (i : nat) (b : bool) :
  length a = length mask →
  length vs = count_true mask →
  mask !! i = Some b →
  mask_put a mask vs !! i
  = if b then vs !! count_true (take i mask) else a !! i.
Proof.
  revert mask vs i.
  induction a as [|x a IH]; intros [|c mask] vs i Hl Hv Hi; try done.
  simpl in Hl. rewrite count_true_cons in Hv. destruct i as [|i].
  - simpl in Hi. injection Hi as ->. destruct b.
    + destruct vs; [done|]. done.
    + done.
  - simpl in Hi. cbn [take]. rewrite count_true_cons. destruct c.
    + destruct vs as [|v vs]; [done|]. simpl in Hv. cbn [mask_put].
      rewrite lookup_cons_ne_0 by done. simpl.
      rewrite (IH mask vs i) by (lia || done). by destruct b.
    + cbn [mask_put]. rewrite lookup_cons_ne_0 by done. simpl.
      rewrite (IH mask vs i) by (lia || done). by destruct b.
Qed.

Context `{NumpyLinalg}.

(** [a.dot(v)] has one item per row of [a]. *)
Hypothesis np_dot_mv_length : ∀ (a : list (list float)) (v : list float),
  length (np_dot_mv a v) = length a.

(** C4: when the pseudo-inverse of [x.T.dot(x)] exists, [x] being the rows
    of [exogenous] of the not-interpolated states, the array returned by
    [_predict_with_linear_model] holds, at every index where
    [not_interpolated] is true, [endogenous + max_value_functions] for that
    state (the entry of [endogenous] is the one at the rank of the index
    among the not-interpolated states), and at every other index
    [max_value_functions] plus the prediction [exogenous.dot(beta)] of the
    least-squares coefficients [beta = pinv(x.T.dot(x)).dot(x.T.dot(y))],
    replaced by 0 where it is below 0.  When [np.linalg.pinv] raises, so
    does the function. *)
Theorem predict_with_linear_model_pointwise
    (endogenous : list float) (exogenous : list (list float))
    (max_value_functions : list float) (not_interpolated : list bool) :
  length exogenous = length not_interpolated →
  length max_value_functions = length not_interpolated →
  length endogenous = count_true not_interpolated →
  let x := compress not_interpolated exogenous in
  match np_linalg_pinv (np_dot_mm (np_T x) x) with
  | Raise e =>
      _predict_with_linear_model endogenous exogenous max_value_functions
        not_interpolated = Raise e
  | Ok pinv =>
      let beta := np_dot_mv pinv (np_dot_mv (np_T x) endogenous) in
      let endogenous_predicted := np_dot_mv exogenous beta in
      ∃ predictions warned,
        _predict_with_linear_model endogenous exogenous max_value_functions
          not_interpolated = Ok (predictions, warned)
        ∧ length predictions = length not_interpolated
        ∧ ∀ i : nat, (i < length not_interpolated)%nat →
            ∃ m, max_value_functions !! i = Some m
              ∧ match not_interpolated !! i with
                | Some true =>
                    ∃ e, endogenous !! count_true (take i not_interpolated)
                         = Some e
                       ∧ predictions !! i = Some (F64.add e m)
                | _ =>
                    ∃ p, endogenous_predicted !! i = Some p
                       ∧ predictions !! i
                         = Some (F64.add
                                   (if F64.ltb p F64.zero then F64.zero
                                    else p) m)
                end
  end.
Proof.
  intros Hx Hm He x.
  unfold _predict_with_linear_model, mask_select, ols.
  rewrite (bool_decide_eq_true_2 _ (eq_sym Hx)). cbv iota. rewrite bind_Ok.
  fold x. destruct (np_linalg_pinv _) as [pinv|e]; [|done].
  rewrite !bind_Ok.
  set (beta := np_dot_mv pinv (np_dot_mv (np_T x) endogenous)).
  set (predicted := np_dot_mv exogenous beta).
  assert (Hp : length (np_clip_min0 predicted) = length not_interpolated).
  { unfold np_clip_min0, predicted. by rewrite length_fmap, np_dot_mv_length. }
  pose proof (compress_length not_interpolated max_value_functions
                (eq_sym Hm)) as Hc.
  assert (Hv : length (zip_with F64.add endogenous
                         (compress not_interpolated max_value_functions))
               = count_true not_interpolated)
    by (rewrite length_zip_with; lia).
  assert (Hs : length not_interpolated
               = length (zip_with F64.add (np_clip_min0 predicted)
                           max_value_functions))
    by (rewrite length_zip_with; lia).
  unfold np_add, mask_assign.
  rewrite (bool_decide_eq_true_2
             (length (np_clip_min0 predicted) = length max_value_functions))
    by congruence.
  cbv iota. rewrite bind_Ok.
  rewrite (bool_decide_eq_true_2 _ (eq_sym Hm)). cbv iota. rewrite bind_Ok.
  rewrite (bool_decide_eq_true_2
             (length endogenous
              = length (compress not_interpolated max_value_functions)))
    by congruence.
  cbv iota. rewrite bind_Ok.
  rewrite (bool_decide_eq_true_2 _ Hs), (bool_decide_eq_true_2 _ Hv).
  cbn [negb]. cbv iota. rewrite bind_Ok.
  eexists _, _. split; [reflexivity|]. split.
  { by rewrite mask_put_length. }
  intros i Hi.
  destruct (lookup_lt_is_Some_2 max_value_functions i ltac:(lia)) as [m Hmi].
  destruct (lookup_lt_is_Some_2 not_interpolated i Hi) as [b Hb].
  exists m. split; [done|]. rewrite Hb.
  rewrite (mask_put_lookup _ _ _ i b) by done.
  destruct b.
  - pose proof (compress_lookup not_interpolated max_value_functions i
                  (eq_sym Hm) Hb) as Hcl. rewrite Hmi in Hcl.
    pose proof (lookup_lt_Some _ _ _ Hcl) as Hlt.
    destruct (lookup_lt_is_Some_2 endogenous
                (count_true (take i not_interpolated)) ltac:(lia))
      as [e Hei].
    exists e. split; [done|].
    by rewrite lookup_zip_with, Hei, Hcl.
  - destruct (lookup_lt_is_Some_2 predicted i) as [p Hpi].
    { unfold predicted. rewrite np_dot_mv_length. lia. }
    exists p. split; [done|].
    rewrite lookup_zip_with. unfold np_clip_min0, clip_min0.
    by rewrite list_lookup_fmap, Hpi, Hmi.
Qed.

End PredictFacts.

(** ** Strings *)

Lemma str_app_cons (c : ascii) (s1 s2 : string) :
  String c s1 +:+ s2 = String c (s1 +:+ s2).
Proof. reflexivity. Qed.

Lemma str_app_nil_l (s : string) : EmptyString +:+ s = s.
Proof. reflexivity. Qed.

Lemma str_app_assoc (s1 s2 s3 : string) :
  (s1 +:+ s2) +:+ s3 = s1 +:+ (s2 +:+ s3).
Proof.
  induction s1 as [|c s1 IH]; [done|]. by rewrite !str_app_cons, IH.
Qed.

Lemma str_app_nil_r (s : string) : s +:+ EmptyString = s.
Proof. induction s as [|c s IH]; [done|]. by rewrite str_app_cons, IH. Qed.

Lemma str_length_app (s1 s2 : string) :
  String.length (s1 +:+ s2) = (String.length s1 + String.length s2)%nat.
Proof.
  induction s1 as [|c s1 IH]; [done|]. rewrite str_app_cons. simpl.
  by rewrite IH.
Qed.

Lemma str_repeat_length (c : ascii) (n : nat) :
  String.length (str_repeat c n) = n.
Proof. induction n as [|n IH]; simpl; [done|]. by rewrite IH. Qed.

Lemma rjust_length (w : nat) (s : string) :
  String.length (rjust w s) = Nat.max w (String.length s).
Proof. unfold rjust. rewrite str_length_app, str_repeat_length. lia. Qed.

(** ** development/testing/_modules/auxiliary_scalability.py *)

Section ScalabilityFacts.

Import Scalability.

Context `{DateTime}.

Lemma append_to_lookup (path text : string) (fs : gmap string string) :
  append_to path text fs !! path
  = Some (default EmptyString (fs !! path) +:+ text).
Proof. unfold append_to. by rewrite lookup_insert_eq. Qed.

(** One call: the header goes in front of the row exactly when the report
    did not exist. *)
Lemma record_information_content (start_time finish_time : datetime)
    (num_slaves : Z) (fs : gmap string string) :
  record_information start_time finish_time num_slaves fs !! info_file
  = Some (match fs !! info_file with
          | None => header
          | Some old => old
          end +:+ row (start_time, finish_time, num_slaves)).
Proof.
  unfold record_information, os_path_exists, row.
  rewrite append_to_lookup. destruct (fs !! info_file) as [old|] eqn:Hfs.
  - rewrite bool_decide_eq_true_2 by eauto. cbn [negb]. by rewrite Hfs.
  - rewrite bool_decide_eq_false_2 by (intros [? ?]; done). cbn [negb].
    rewrite !append_to_lookup, Hfs. cbn [default].
    unfold header. by rewrite !str_app_assoc.
Qed.

(** The report after a sequence of calls. *)
Lemma record_all_content (calls : list (datetime * datetime * Z))
    (fs : gmap string string) :
  record_all calls fs !! info_file
  = match calls with
    | [] => fs !! info_file
    | _ :: _ =>
        Some (match fs !! info_file with
              | None => header
              | Some old => old
              end +:+ foldr String.append EmptyString (row <$> calls))
    end.
Proof.
  revert fs. induction calls as [|[[s f] n] calls IH]; intros fs; [done|].
  unfold record_all in *. cbn [foldl]. rewrite IH.
  rewrite record_information_content.
  destruct calls as [|c calls].
  - cbn. by rewrite str_app_nil_r.
  - cbn [fmap list_fmap foldr]. by rewrite str_app_assoc.
Qed.

(** C9 (amended): [record_information] writes the header (a blank line, the
    [ Time] banner, a blank line, the column row Slaves/Start/Stop/Duration
    and a blank line) only on a call that finds no file
    [scalability.respy.info], and every call appends exactly one row: the
    slave count, the start and the stop timestamp and the duration,
    right-aligned in columns of 15, 25, 25 and 15 characters with one space
    between them.  So a sequence of calls that starts without the file
    leaves the header once, at the top, followed by one row per call; a
    file that is there before the first call keeps its content and gets
    the rows, and no header. *)
Theorem record_information_header_once
    (calls : list (datetime * datetime * Z)) (fs : gmap string string) :
  let line (a b c d : string) : string :=
    rjust 15 a +:+ " " +:+ rjust 25 b +:+ " " +:+ rjust 25 c +:+ " " +:+
    rjust 15 d +:+ nl in
  let rows : string :=
    foldr String.append EmptyString
      ((λ '(start_time, finish_time, num_slaves),
          line (py_str_int num_slaves)
            (strftime start_time "%Y-%m-%d %H:%M:%S")
            (strftime finish_time "%Y-%m-%d %H:%M:%S")
            (strfdelta (datetime_sub finish_time start_time)
               "{H:02}:{M:02}:{S:02}")) <$> calls) in
  let banner : string :=
    nl +:+ " Time" +:+ nl +:+ nl +:+
    "         Slaves                     Start                      Stop        Duration"
    +:+ nl +:+ nl in
  record_all calls fs !! "scalability.respy.info"
  = match calls with
    | [] => fs !! "scalability.respy.info"
    | _ :: _ =>
        Some (match fs !! "scalability.respy.info" with
              | None => banner
              | Some old => old
              end +:+ rows)
    end.
Proof.
  intros line rows banner.
  change rows with (foldr String.append EmptyString (row <$> calls)).
  change banner with header.
  apply record_all_content.
Qed.

(** A row whose four fields fit their columns is 84 characters long. *)
Lemma fmt_length (a b c d : string) :
  (String.length a ≤ 15)%nat → (String.length b ≤ 25)%nat →
  (String.length c ≤ 25)%nat → (String.length d ≤ 15)%nat →
  String.length (fmt a b c d) = 84%nat.
Proof.
  intros. unfold fmt. rewrite !str_length_app, !rjust_length. simpl. lia.
Qed.

End ScalabilityFacts.

(** ** development/analyses/robust/admissible_values/modules/auxiliary.py *)

Section AdmissibleFacts.

Import Admissible.

Lemma float_in_false (x : float) (xs : list float) :
  Forall (λ g, F64.eqb x g = false) xs → float_in x xs = false.
Proof.
  unfold float_in. induction 1 as [|g xs Hg _ IH]; [done|].
  simpl. by rewrite Hg, IH.
Qed.

Lemma float_in_true (x : float) (xs : list float) :
  Exists (λ g, F64.eqb x g = true) xs → float_in x xs = true.
Proof.
  unfold float_in. induction 1 as [g xs Hg|g xs _ IH]; simpl.
  - by rewrite Hg.
  - rewrite IH. by destruct (F64.eqb x g).
Qed.

(** C8: [_extract_results] fails with an assertion error when the level is
    none of 0.0, 0.01, 0.02, when the choice is not one of the four choices,
    or when the bound kind is neither "lower" nor "upper"; for arguments in
    the vocabularies it returns
    [rslts[level][index of choice][index of bound kind]]. *)
Theorem extract_results_vocabulary (level : float) (choice : string)
    (rslts : rslts) (which : string) :
  (Forall (λ g, F64.eqb level g = false) AMBIGUITY_GRID
   ∨ choice ∉ CHOICE_LIST ∨ which ∉ BOUNDS_LIST →
   _extract_results level choice rslts which = Raise AssertionError)
  ∧ (∀ idx_choice idx_bounds : nat,
       Exists (λ g, F64.eqb level g = true) AMBIGUITY_GRID →
       CHOICE_LIST !! idx_choice = Some choice →
       BOUNDS_LIST !! idx_bounds = Some which →
       _extract_results level choice rslts which
       = (e ← dict_get rslts level;
          r ← py_getitem e (Z.of_nat idx_choice);
          py_getitem r (Z.of_nat idx_bounds))).
Proof.
  split.
  - intros Hout. unfold _extract_results.
    destruct (float_in level AMBIGUITY_GRID) eqn:Hl; [|done].
    destruct (str_in choice CHOICE_LIST) eqn:Hc; [|done].
    destruct (str_in which BOUNDS_LIST) eqn:Hw; [|done].
    destruct Hout as [Hout|[Hout|Hout]].
    + apply float_in_false in Hout. congruence.
    + unfold str_in in Hc. by apply bool_decide_eq_true_1 in Hc.
    + unfold str_in in Hw. by apply bool_decide_eq_true_1 in Hw.
  - intros ic ib Hl Hc Hw. unfold _extract_results.
    rewrite (float_in_true _ _ Hl).
    unfold str_in.
    rewrite (bool_decide_eq_true_2 _ (list_elem_of_lookup_2 _ _ _ Hc)).
    rewrite (bool_decide_eq_true_2 _ (list_elem_of_lookup_2 _ _ _ Hw)).
    cbn [py_assert]. rewrite !bind_Ok.
    assert (Hic : list_index CHOICE_LIST choice = Ok (Z.of_nat ic)).
    { do 4 (destruct ic as [|ic]; [by injection Hc as <-|]). done. }
    assert (Hib : list_index BOUNDS_LIST which = Ok (Z.of_nat ib)).
    { do 2 (destruct ib as [|ib]; [by injection Hw as <-|]). done. }
    by rewrite Hic, Hib.
Qed.

(** The check [np.all(levels) >= 0.00] of [distribute_arguments] holds for
    every list of numbers: it compares the truth value of [np.all] with
    zero. *)
Lemma levels_check_vacuous (l : list pynum) :
  F64.leb F64.zero (float_of_bool (np_all l)) = true.
Proof. by destruct (np_all l). Qed.

(** C5 (what the code does): a list of levels with a negative number passes
    every check of [distribute_arguments]. *)
Theorem distribute_arguments_negative_level :
  let minus_one := NFloat (F64.of_Z (-1)) in
  let args := {| is_recompile := PNum (NBool false);
                 num_procs := PNum (NInt 1);
                 is_debug := PNum (NBool false);
                 levels := PList [minus_one];
                 spec := PStr "one" |} in
  distribute_arguments {| parse_args := args |}
  = Ok (PList [minus_one], PNum (NBool false), PNum (NBool false),
        PNum (NInt 1), PStr "one").
Proof. reflexivity. Qed.

(** *** The writer monad of [store_rslts] *)

Lemma bind_quiet_Ok {A B} (a : A) (f : A → out B) : quiet (Ok a) ≫= f = f a.
Proof.
  unfold mbind, out_bind, quiet. cbn. rewrite str_app_nil_l.
  by destruct (f a).
Qed.

Lemma bind_quiet_Raise {A B} (e : exn) (f : A → out B) :
  quiet (Raise e) ≫= f = Out EmptyString (Raise e).
Proof. reflexivity. Qed.

Lemma bind_Out_Ok {A B} (w : string) (a : A) (f : A → out B) :
  Out w (Ok a) ≫= f = Out (w +:+ written (f a)) (outcome (f a)).
Proof. reflexivity. Qed.

Lemma outcome_bind_Raise {A B} (m : out A) (f : A → out B) (e : exn) :
  outcome m = Raise e → outcome (m ≫= f) = Raise e.
Proof. intros Hm. unfold mbind, out_bind. by rewrite Hm. Qed.

Lemma outcome_bind_Ok {A B} (m : out A) (f : A → out B) (a : A) :
  outcome m = Ok a → outcome (m ≫= f) = outcome (f a).
Proof. intros Hm. unfold mbind, out_bind. by rewrite Hm. Qed.

(** Closes a goal in which the code has raised. *)
Ltac raise_case :=
  rewrite ?bind_Raise, ?bind_quiet_Raise; cbv beta iota;
  eexists; reflexivity.

Lemma map_each_Forall2 {A B} (f : A → result B) xs ys :
  map_each f xs = Ok ys ↔ Forall2 (λ x y, f x = Ok y) xs ys.
Proof.
  split.
  - revert ys. induction xs as [|x xs IH]; intros ys H; simpl in H.
    + injection H as <-. constructor.
    + apply bind_Ok_inv in H as (y & Hy & H).
      apply bind_Ok_inv in H as (ys' & Hys & H). injection H as <-.
      constructor; [done|]. by apply IH.
  - induction 1 as [|x y xs ys Hxy _ IH]; [done|].
    simpl. by rewrite Hxy, bind_Ok, IH.
Qed.

(** The bounds of a choice are the two numbers of [rslt[level][i]]. *)
Lemma bounds_entry_Ok (rslt : rslts) (pos : nat) (level : float) (i : Z)
    (lower upper : float) :
  bounds_entry rslt (pos, level) i = Ok (lower, upper)
  ↔ (e ← dict_get_own rslt pos level; py_getitem e i) = Ok [lower; upper].
Proof.
  unfold bounds_entry. cbn [fst snd].
  destruct (dict_get_own rslt pos level) as [e|?]; [|done].
  rewrite !bind_Ok. destruct (py_getitem e i) as [r|?]; [|done].
  rewrite bind_Ok. destruct r as [|x [|y [|z r]]]; try done.
  split; by intros [= -> ->].
Qed.

(** *** The loop over the choices *)

Lemma store_rslts_choice_eq (rslt : rslts) (key : nat * float) (i : Z)
    (choice : string) :
  store_rslts_choice rslt key (i, choice)
  = (baseline ← quiet (baseline_entry rslt i);
     lu ← quiet (bounds_entry rslt key i);
     write (fmt_choice choice lu.1 baseline lu.2)).
Proof.
  destruct key as [pos level].
  unfold store_rslts_choice, baseline_entry, bounds_entry. cbn [fst snd].
  destruct (dict_get rslt F64.zero ≫= _) as [b|?]; [|done].
  rewrite !bind_quiet_Ok.
  by destruct (dict_get_own rslt pos level ≫= _) as [[lower upper]|?].
Qed.

(** With the Baseline entries at hand, the loop over the choices writes one
    line for each choice, or raises where the bounds of a choice are
    missing. *)
Lemma store_rslts_choices_ok (rslt : rslts) (key : nat * float)
    (xs : list (Z * string)) (baselines : list float) :
  map_each (baseline_entry rslt) xs.*1 = Ok baselines →
  match map_each (bounds_entry rslt key) xs.*1 with
  | Ok bounds =>
      for_out xs (store_rslts_choice rslt key)
      = Out (foldr String.append EmptyString
               (zip_with (λ '(choice, b) '(lower, upper),
                            log_line choice lower b upper)
                  (zip xs.*2 baselines) bounds))
          (Ok tt)
  | Raise _ =>
      ∃ e, outcome (for_out xs (store_rslts_choice rslt key)) = Raise e
  end.
Proof.
  revert baselines. induction xs as [|[i choice] xs IH]; intros bs Hbs.
  - by injection Hbs as <-.
  - cbn [fmap list_fmap fst snd map_each] in Hbs |- *.
    apply bind_Ok_inv in Hbs as (b & Hb & Hbs).
    apply bind_Ok_inv in Hbs as (bs' & Hbs' & Hbs). injection Hbs as <-.
    specialize (IH _ Hbs'). cbn [for_out].
    rewrite store_rslts_choice_eq, Hb, bind_quiet_Ok.
    destruct (bounds_entry rslt key i) as [[lower upper]|?]; [|raise_case].
    rewrite bind_Ok, bind_quiet_Ok. unfold write. rewrite bind_Out_Ok.
    cbn [fst snd].
    destruct (map_each _ xs.*1) as [bounds|?].
    + by rewrite IH, bind_Ok.
    + destruct IH as [e' IH]. exists e'. cbn [outcome]. exact IH.
Qed.

(** A missing Baseline entry makes the loop over the choices raise. *)
Lemma store_rslts_choices_fail (rslt : rslts) (key : nat * float)
    (xs : list (Z * string)) (e : exn) :
  map_each (baseline_entry rslt) xs.*1 = Raise e →
  ∃ e', outcome (for_out xs (store_rslts_choice rslt key)) = Raise e'.
Proof.
  induction xs as [|[i choice] xs IH]; intros Hbs; [done|].
  cbn [fmap list_fmap fst map_each] in Hbs. cbn [for_out].
  rewrite store_rslts_choice_eq.
  destruct (baseline_entry rslt i) as [b|?]; [|raise_case].
  rewrite bind_Ok in Hbs. rewrite bind_quiet_Ok.
  destruct (map_each _ xs.*1) as [bs|e0] eqn:Hxs; [done|].
  injection Hbs as <-. destruct (IH eq_refl) as [e' IH'].
  destruct (bounds_entry rslt key i) as [lu|?]; [|raise_case].
  rewrite bind_quiet_Ok. unfold write. rewrite bind_Out_Ok.
  exists e'. cbn [outcome]. exact IH'.
Qed.

(** One pass of the loop over the levels writes the block of its level with
    the Baseline column [rslt[0.0][i][0]], or raises. *)
Lemma store_rslts_level_spec (rslt : rslts) (key : nat * float) :
  match baseline_column rslt with
  | Ok baselines =>
      match level_bounds rslt key with
      | Ok bounds =>
          store_rslts_level rslt key
          = Out (log_block CHOICE_LIST key.2 baselines bounds) (Ok tt)
      | Raise _ => ∃ e, outcome (store_rslts_level rslt key) = Raise e
      end
  | Raise _ => ∃ e, outcome (store_rslts_level rslt key) = Raise e
  end.
Proof.
  unfold baseline_column, level_bounds, store_rslts_level, write.
  rewrite bind_Out_Ok.
  change [0; 1; 2; 3] with (py_enumerate CHOICE_LIST).*1.
  destruct (map_each (baseline_entry rslt) _) as [bs|e] eqn:Hbs.
  - pose proof (store_rslts_choices_ok rslt key _ _ Hbs) as Hok.
    destruct (map_each (bounds_entry rslt key) _) as [bounds|?].
    + rewrite Hok, bind_Out_Ok. cbn [written outcome].
      unfold fmt_level, log_block. by rewrite !str_app_assoc.
    + destruct Hok as [e' Hok]. exists e'. cbn [outcome].
      by apply outcome_bind_Raise.
  - destruct (store_rslts_choices_fail rslt key _ _ Hbs) as [e' He'].
    exists e'. cbn [outcome]. by apply outcome_bind_Raise.
Qed.

(** *** The loop over the levels *)

Lemma store_rslts_levels_ok (rslt : rslts) (baselines : list float)
    (keys : list (nat * float)) :
  baseline_column rslt = Ok baselines →
  match map_each (level_bounds rslt) keys with
  | Ok bounds =>
      for_out keys (store_rslts_level rslt)
      = Out (foldr String.append EmptyString
               (zip_with (λ '(_, level) lus,
                            log_block CHOICE_LIST level baselines lus)
                  keys bounds))
          (Ok tt)
  | Raise _ =>
      ∃ e, outcome (for_out keys (store_rslts_level rslt)) = Raise e
  end.
Proof.
  intros Hbs. induction keys as [|[pos level] keys IH]; [done|].
  cbn [map_each for_out].
  pose proof (store_rslts_level_spec rslt (pos, level)) as Hl.
  rewrite Hbs in Hl.
  destruct (level_bounds rslt (pos, level)) as [lus|?].
  - rewrite Hl, bind_Ok, bind_Out_Ok.
    destruct (map_each _ keys) as [bounds|?].
    + by rewrite IH, bind_Ok.
    + destruct IH as [e' IH]. exists e'. exact IH.
  - destruct Hl as [e' Hl]. exists e'. by apply outcome_bind_Raise.
Qed.

Lemma store_rslts_levels_fail (rslt : rslts) (e : exn) (key : nat * float)
    (keys : list (nat * float)) :
  baseline_column rslt = Raise e →
  ∃ e', outcome (for_out (key :: keys) (store_rslts_level rslt)) = Raise e'.
Proof.
  intros Hbs. pose proof (store_rslts_level_spec rslt key) as Hl.
  rewrite Hbs in Hl. destruct Hl as [e' Hl]. exists e'.
  cbn [for_out]. by apply outcome_bind_Raise.
Qed.

(** Without the key 0.0 the first pass of the loop raises [KeyError]. *)
Lemma store_rslts_level_KeyError (rslt : rslts) (key : nat * float) :
  dict_get rslt F64.zero = Raise KeyError →
  outcome (store_rslts_level rslt key) = Raise KeyError.
Proof.
  intros Hk. unfold store_rslts_level, write. rewrite bind_Out_Ok.
  cbn [outcome]. apply outcome_bind_Raise.
  let l := eval vm_compute in (py_enumerate CHOICE_LIST) in
    change (py_enumerate CHOICE_LIST) with l.
  cbn [for_out]. apply outcome_bind_Raise.
  rewrite store_rslts_choice_eq. unfold baseline_entry.
  by rewrite Hk, bind_Raise, bind_quiet_Raise.
Qed.

(** *** The two files *)

(** With the directory [rslts] in place, and no directory in the way of the
    two files, [store_rslts] ends as the writing of the log does; it leaves
    the serialized results and what was written to the log, and touches no
    other path. *)
Lemma store_rslts_opened (pkl_dumps : rslts → string) (rslt : rslts)
    (fs : file_system) :
  fs !! "rslts" = Some Directory →
  fs !! "rslts/admissible_values.robupy.pkl" ≠ Some Directory →
  fs !! "rslts/admissible_values.robupy.log" ≠ Some Directory →
  (store_rslts pkl_dumps rslt fs).2 = outcome (store_rslts_log rslt)
  ∧ (store_rslts pkl_dumps rslt fs).1 !! "rslts/admissible_values.robupy.log"
    = Some (File (written (store_rslts_log rslt)))
  ∧ (store_rslts pkl_dumps rslt fs).1 !! "rslts/admissible_values.robupy.pkl"
    = Some (File (pkl_dumps rslt))
  ∧ ∀ path : string,
      path ≠ "rslts/admissible_values.robupy.pkl" →
      path ≠ "rslts/admissible_values.robupy.log" →
      (store_rslts pkl_dumps rslt fs).1 !! path = fs !! path.
Proof.
  intros Hdir Hpkl Hlog. unfold store_rslts, py_open_w. rewrite Hdir.
  change ("rslts" +:+ "/" +:+ "admissible_values.robupy.pkl")
    with "rslts/admissible_values.robupy.pkl".
  change ("rslts" +:+ "/" +:+ "admissible_values.robupy.log")
    with "rslts/admissible_values.robupy.log".
  assert (Hdir' :
    <["rslts/admissible_values.robupy.pkl" := File (pkl_dumps rslt)]>
      (<["rslts/admissible_values.robupy.pkl" := File EmptyString]> fs)
    !! "rslts" = Some Directory)
    by (by rewrite !lookup_insert_ne).
  assert (Hlog' :
    <["rslts/admissible_values.robupy.pkl" := File (pkl_dumps rslt)]>
      (<["rslts/admissible_values.robupy.pkl" := File EmptyString]> fs)
    !! "rslts/admissible_values.robupy.log"
    = fs !! "rslts/admissible_values.robupy.log")
    by (by rewrite !lookup_insert_ne).
  destruct (fs !! "rslts/admissible_values.robupy.pkl") as [[|?]|] eqn:Hp;
    [done| |];
    (rewrite Hdir', Hlog';
     destruct (fs !! "rslts/admissible_values.robupy.log") as [[|?]|] eqn:Hl;
       [done| |];
     cbn [fst snd];
     (split; [done|]); (split; [by rewrite lookup_insert_eq|]);
     (split; [do 2 (rewrite lookup_insert_ne by done);
              by rewrite lookup_insert_eq|]);
     intros path H1 H2; by rewrite !lookup_insert_ne by done).
Qed.

(** C10 (amended): when [rslt] has at least one level (and the two files in
    the directory [rslts] can be written), [store_rslts] needs the key 0.0:
    without it the call raises [KeyError]; and when the call completes, the
    Baseline column of the log is [rslt[0.0][i][0]] for choice [i], the same
    four numbers in the block of every level, each block giving the level
    with three decimals and, for every choice, the lower bound, the Baseline
    entry and the upper bound with five decimals.  For an empty [rslt] the
    call completes without the key 0.0 and writes an empty log. *)
Theorem store_rslts_baseline_is_level_zero
    (pkl_dumps : rslts → string) (rslt : rslts) (fs : file_system) :
  rslt ≠ [] →
  fs !! "rslts" = Some Directory →
  fs !! "rslts/admissible_values.robupy.pkl" ≠ Some Directory →
  fs !! "rslts/admissible_values.robupy.log" ≠ Some Directory →
  let line (choice : string) (lower baseline upper : float) : string :=
    "  " +:+ ljust 15 choice +:+ rjust 15 (format_f 5 lower) +:+
    rjust 15 (format_f 5 baseline) +:+ rjust 15 (format_f 5 upper) +:+ nl in
  let block (level : float) (baselines : list float)
      (bounds : list (float * float)) : string :=
    " Level  " +:+ format_f 3 level +:+
    "        Lower          Baseline       Upper          " +:+ nl +:+ nl +:+
    foldr String.append EmptyString
      (zip_with (λ '(choice, b) '(lower, upper), line choice lower b upper)
         (zip ["Occupation A"; "Occupation B"; "School"; "Home"] baselines)
         bounds)
    +:+ nl +:+ nl in
  (dict_get rslt F64.zero = Raise KeyError →
   (store_rslts pkl_dumps rslt fs).2 = Raise KeyError)
  ∧ ((store_rslts pkl_dumps rslt fs).2 = Ok tt →
     ∃ (baselines : list float) (bounds : list (list (float * float))),
       Forall2 (λ i b, (e ← dict_get rslt F64.zero;
                        r ← py_getitem e i;
                        py_getitem r 0) = Ok b)
         [0; 1; 2; 3] baselines
       ∧ Forall2 (λ '(pos, level) lus,
                    Forall2 (λ i '(lower, upper),
                               (e ← dict_get_own rslt pos level;
                                py_getitem e i) = Ok [lower; upper])
                      [0; 1; 2; 3] lus)
           (dict_keys rslt) bounds
       ∧ (store_rslts pkl_dumps rslt fs).1
           !! "rslts/admissible_values.robupy.log"
         = Some (File (foldr String.append EmptyString
                         (zip_with (λ '(_, level) lus,
                                      block level baselines lus)
                            (dict_keys rslt) bounds)))).
Proof.
  intros Hne Hdir Hpkl Hlog line block.
  destruct (store_rslts_opened pkl_dumps rslt fs Hdir Hpkl Hlog)
    as (-> & -> & _).
  unfold store_rslts_log.
  destruct rslt as [|[level entry] rslt']; [done|]. clear Hne.
  set (rslt := (level, entry) :: rslt').
  change (dict_keys rslt)
    with ((0%nat, level) :: imap ((λ pos kv, (pos, kv.1)) ∘ S) rslt').
  set (keys := imap _ rslt'). split.
  - intros Hk. cbn [for_out].
    apply outcome_bind_Raise. by apply store_rslts_level_KeyError.
  - intros Hok. destruct (baseline_column rslt) as [bs|e] eqn:Hbs.
    + pose proof (store_rslts_levels_ok rslt bs ((0%nat, level) :: keys) Hbs)
        as Hl.
      destruct (map_each _ ((0%nat, level) :: keys)) as [bounds|?] eqn:Hbd.
      * exists bs, bounds. split; [by apply map_each_Forall2|]. split.
        { apply map_each_Forall2 in Hbd.
          eapply Forall2_impl; [exact Hbd|].
          intros [pos lv] lus Hlus. apply map_each_Forall2 in Hlus.
          eapply Forall2_impl; [exact Hlus|].
          intros i [lower upper] Hi. by apply bounds_entry_Ok. }
        by rewrite Hl.
      * destruct Hl as [e' Hl]. congruence.
    + destruct (store_rslts_levels_fail rslt e (0%nat, level) keys Hbs)
        as [e' He'].
      congruence.
Qed.

End AdmissibleFacts.

(** * Further properties of the code *)

(** ** robupy/python/py/auxiliary.py *)

Lemma py_getitem_Ok_lookup {A} (a : list A) (i : Z) (x : A) :
  0 ≤ i → py_getitem a i = Ok x → a !! Z.to_nat i = Some x.
Proof.
  intros Hi. unfold py_getitem.
  destruct (Z.ltb_spec i 0) as [?|_]; [lia|].
  destruct (_ || _); [done|].
  destruct (a !! Z.to_nat i); [|done]. by intros [= ->].
Qed.

Lemma for_each_app {A S} (xs ys : list A) (body : S → A → result S) (s : S) :
  for_each (xs ++ ys) body s = (s' ← for_each xs body s; for_each ys body s').
Proof.
  revert s. induction xs as [|x xs IH]; intros s; [done|].
  cbn [app for_each]. destruct (body s x) as [s'|?]; [|done].
  rewrite !bind_Ok. apply IH.
Qed.

Lemma py_range_succ (n : Z) :
  0 ≤ n → py_range (n + 1) = py_range n ++ [n].
Proof.
  intros Hn. unfold py_range.
  replace (Z.to_nat (n + 1)) with (S (Z.to_nat n)) by lia.
  rewrite seq_S, fmap_app. cbn. by rewrite Z2Nat.id by lia.
Qed.

Lemma bind_Raise_inv {A B} (m : result A) (f : A → result B) (e : exn) :
  m ≫= f = Raise e → m = Raise e ∨ ∃ a, m = Ok a ∧ f a = Raise e.
Proof. destruct m as [a|e']; [eauto|]. intros [= ->]. by left. Qed.

Lemma py_getitem_Raise {A} (a : list A) (i : Z) (e : exn) :
  py_getitem a i = Raise e → e = IndexError.
Proof.
  unfold py_getitem. destruct (_ || _); [by intros [= <-]|].
  destruct (a !! _); [done|]. by intros [= <-].
Qed.

Lemma index2_Raise {A} (a : Kernel.array2 A) (i j : Z) (e : exn) :
  Kernel.index2 a i j = Raise e → e = IndexError.
Proof.
  unfold Kernel.index2. intros [H|(r & _ & H)]%bind_Raise_inv;
    by apply py_getitem_Raise in H.
Qed.

Lemma index5_Raise {A} (a : Kernel.array5 A) (i j k l m : Z) (e : exn) :
  Kernel.index5 a i j k l m = Raise e → e = IndexError.
Proof.
  unfold Kernel.index5. intros H.
  repeat (apply bind_Raise_inv in H as [H|(? & _ & H)];
          [by apply py_getitem_Raise in H|]).
  by apply py_getitem_Raise in H.
Qed.

(** The exceptions of an array access: an index out of bounds, or a state
    row that does not unpack into four numbers. *)
Definition access_error (e : exn) : Prop := e = IndexError ∨ e = ValueError.

Lemma mul_zero_finite (d f : float) :
  F64.eqb d F64.zero = true → F64.isfinite f = true →
  ∃ s, F64.mul d f = S754_zero s.
Proof.
  intros Hd Hf.
  destruct d as [sd|[]| |[] ? ?]; cbv in Hd; try discriminate Hd;
    destruct f as [sf|sf| |sf m e]; cbv in Hf; try discriminate Hf;
    cbn; eauto.
Qed.

Section KernelMore.

Import Kernel.

Variables (num_periods period k edu_max edu_start : Z).
Variables (emax : array2 float) (mapping_state_idx : array5 Z).
Variable delta : float.

Lemma _get_future_payoffs_length states_all future :
  _get_future_payoffs edu_max edu_start mapping_state_idx period emax k
    states_all = Ok future →
  length future = 4%nat.
Proof.
  unfold _get_future_payoffs. intros H.
  bind_inv H. bind_inv H. destruct a0 as [[[exp_A exp_B] edu] edu_lagged].
  repeat bind_inv H. injection H as <-. rewrite length_insert.
  destruct (edu <? edu_max - edu_start).
  - repeat bind_inv Ha5. injection Ha5 as <-. by rewrite ?length_insert.
  - injection Ha5 as <-. by rewrite ?length_insert.
Qed.

(** What [get_total_value] returns, when it returns: the ex-post payoffs
    computed from the first four items of its inputs, future payoffs with
    four items, and total payoffs obtained from both (item by item, the
    sum [payoffs_ex_post + delta * future_payoffs], stabilised for the
    myopic agent). *)
Lemma get_total_value_inv payoffs_ex_ante disturbances states_all
    total ex_post future :
  get_total_value period num_periods delta payoffs_ex_ante disturbances
    edu_max edu_start mapping_state_idx emax k states_all
  = Ok (total, ex_post, future) →
  (∃ a0 a1 a2 a3 d0 d1 d2 d3,
     payoffs_ex_ante !! 0%nat = Some a0 ∧ payoffs_ex_ante !! 1%nat = Some a1
     ∧ payoffs_ex_ante !! 2%nat = Some a2
     ∧ payoffs_ex_ante !! 3%nat = Some a3
     ∧ disturbances !! 0%nat = Some d0 ∧ disturbances !! 1%nat = Some d1
     ∧ disturbances !! 2%nat = Some d2 ∧ disturbances !! 3%nat = Some d3
     ∧ ex_post
       = [F64.mul a0 d0; F64.mul a1 d1; F64.add a2 d2; F64.add a3 d3])
  ∧ length future = 4%nat
  ∧ total
    = (if F64.eqb delta F64.zero
       then _stabilize_myopic
              (zip_with F64.add ex_post (F64.mul delta <$> future)) future
       else zip_with F64.add ex_post (F64.mul delta <$> future)).
Proof.
  unfold get_total_value. cbn [for_each]. intros H.
  bind_inv H. bind_inv H. bind_inv H. injection H as <- <- <-.
  repeat match goal with E : _ ≫= _ = Ok _ |- _ => bind_inv E end.
  repeat match goal with E : Ok _ = Ok _ |- _ => injection E as <- end.
  repeat match goal with
    | E : py_getitem _ _ = Ok _ |- _ =>
        apply py_getitem_Ok_lookup in E; [|lia]
    end.
  split; [|split; [|done]].
  - eexists _, _, _, _, _, _, _, _.
    repeat (split; [eassumption|]). reflexivity.
  - destruct (negb _).
    + by eapply _get_future_payoffs_length.
    + match goal with E : Ok _ = Ok _ |- _ => by injection E as <- end.
Qed.

Lemma get_total_value_lengths payoffs_ex_ante disturbances states_all
    total ex_post future :
  get_total_value period num_periods delta payoffs_ex_ante disturbances
    edu_max edu_start mapping_state_idx emax k states_all
  = Ok (total, ex_post, future) →
  length total = 4%nat ∧ length ex_post = 4%nat ∧ length future = 4%nat.
Proof.
  intros H. apply get_total_value_inv in H as (Hp & Hf & Ht).
  destruct Hp as (a0 & a1 & a2 & a3 & d0 & d1 & d2 & d3 & Hp).
  assert (Hl : length ex_post = 4%nat).
  { decompose [and] Hp. by subst. }
  split; [|done]. subst total. unfold _stabilize_myopic, mask_fill.
  destruct (F64.eqb delta F64.zero);
    rewrite ?length_zip_with, ?length_fmap, Hl, Hf; done.
Qed.

Lemma _get_future_payoffs_Raise states_all (e : exn) :
  _get_future_payoffs edu_max edu_start mapping_state_idx period emax k
    states_all = Raise e →
  access_error e.
Proof.
  unfold _get_future_payoffs, access_error. intros H.
  apply bind_Raise_inv in H as [H|(row & _ & H)];
    [apply index2_Raise in H; auto|].
  apply bind_Raise_inv in H as [H|([[[exp_A exp_B] edu] lag] & _ & H)].
  { destruct row as [|? [|? [|? [|? [|? ?]]]]]; try done;
      injection H as <-; auto. }
  repeat (apply bind_Raise_inv in H as [H|(? & _ & H)];
          [first [apply index5_Raise in H | apply index2_Raise in H]; auto|]).
  apply bind_Raise_inv in H as [H|(? & _ & H)].
  - destruct (edu <? edu_max - edu_start); [|done].
    repeat (apply bind_Raise_inv in H as [H|(? & _ & H)];
            [first [apply index5_Raise in H | apply index2_Raise in H];
             auto|]).
    done.
  - repeat (apply bind_Raise_inv in H as [H|(? & _ & H)];
            [first [apply index5_Raise in H | apply index2_Raise in H];
             auto|]).
    done.
Qed.

Lemma get_total_value_Raise payoffs_ex_ante disturbances states_all
    (e : exn) :
  get_total_value period num_periods delta payoffs_ex_ante disturbances
    edu_max edu_start mapping_state_idx emax k states_all = Raise e →
  access_error e.
Proof.
  unfold get_total_value. cbn [for_each]. intros H.
  repeat match goal with
    | E : _ ≫= _ = Raise _ |- _ =>
        apply bind_Raise_inv in E as [E|(? & _ & E)]
    | E : py_getitem _ _ = Raise _ |- _ =>
        apply py_getitem_Raise in E; by left
    | E : Ok _ = Raise _ |- _ => discriminate E
    | E : (if negb _ then _ else _) = Raise _ |- _ =>
        destruct (negb _); [by apply _get_future_payoffs_Raise in E|done]
    end.
Qed.

(** X1: whenever [get_total_value] returns, its three arrays have four
    entries each, and the ex-post payoffs are the products of the first two
    ex-ante payoffs with their disturbances and the sums of the next two
    with theirs, whatever the period and the discount factor. *)
Theorem get_total_value_four_entries payoffs_ex_ante disturbances
    states_all total ex_post future :
  get_total_value period num_periods delta payoffs_ex_ante disturbances
    edu_max edu_start mapping_state_idx emax k states_all
  = Ok (total, ex_post, future) →
  length total = 4%nat ∧ length ex_post = 4%nat ∧ length future = 4%nat
  ∧ ∃ a0 a1 a2 a3 d0 d1 d2 d3,
      payoffs_ex_ante !! 0%nat = Some a0 ∧ payoffs_ex_ante !! 1%nat = Some a1
      ∧ payoffs_ex_ante !! 2%nat = Some a2
      ∧ payoffs_ex_ante !! 3%nat = Some a3
      ∧ disturbances !! 0%nat = Some d0 ∧ disturbances !! 1%nat = Some d1
      ∧ disturbances !! 2%nat = Some d2 ∧ disturbances !! 3%nat = Some d3
      ∧ ex_post
        = [F64.mul a0 d0; F64.mul a1 d1; F64.add a2 d2; F64.add a3 d3].
Proof.
  intros H. pose proof (get_total_value_lengths _ _ _ _ _ _ H) as (? & ? & ?).
  apply get_total_value_inv in H as (Hp & _ & _). done.
Qed.

(** X2: the total values of a state do not depend on its lagged-education
    flag: two state arrays that agree on experience and education of state
    [k] in [period] give the same result. *)
Theorem get_total_value_ignores_edu_lagged payoffs_ex_ante disturbances
    (states_all states_all' : array3 Z) (exp_A exp_B edu lag lag' : Z) :
  index2 states_all period k = Ok [exp_A; exp_B; edu; lag] →
  index2 states_all' period k = Ok [exp_A; exp_B; edu; lag'] →
  get_total_value period num_periods delta payoffs_ex_ante disturbances
    edu_max edu_start mapping_state_idx emax k states_all
  = get_total_value period num_periods delta payoffs_ex_ante disturbances
      edu_max edu_start mapping_state_idx emax k states_all'.
Proof.
  intros H1 H2. unfold get_total_value, _get_future_payoffs.
  by rewrite H1, H2.
Qed.

(** X3: for the myopic agent ([delta == 0]) every total payoff that
    [get_total_value] returns is negative infinity where the future payoff
    is negative infinity, and the ex-post payoff itself (the same number)
    where the future payoff is finite. *)
Theorem get_total_value_myopic payoffs_ex_ante disturbances states_all
    total ex_post future (j : nat) (p f : float) :
  F64.eqb delta F64.zero = true →
  get_total_value period num_periods delta payoffs_ex_ante disturbances
    edu_max edu_start mapping_state_idx emax k states_all
  = Ok (total, ex_post, future) →
  ex_post !! j = Some p →
  future !! j = Some f →
  ∃ t, total !! j = Some t
    ∧ (f = F64.neg_inf → t = F64.neg_inf)
    ∧ (F64.isfinite f = true → F64.same_number t p).
Proof.
  intros Hz H Hp Hf. apply get_total_value_inv in H as (_ & _ & ->).
  rewrite Hz. unfold _stabilize_myopic, mask_fill.
  rewrite lookup_zip_with, lookup_zip_with, Hp, !list_lookup_fmap, Hf.
  cbn. eexists. split; [reflexivity|]. split.
  - by intros ->.
  - intros Hfin. destruct (mul_zero_finite _ _ Hz Hfin) as [s ->].
    destruct f as [| | |]; try done; apply add_zero_same_number.
Qed.

Variable states_all : array3 Z.

(** The loop of [simulate_emax] raises nothing but the exceptions of an
    array access. *)
Lemma simulate_emax_loop_Raise eps_relevant payoffs_ex_ante xs s (e : exn) :
  for_each xs
    (λ '(emax_simulated, _, _) i,
       disturbances ← py_getitem eps_relevant i;
       '(total_payoffs, payoffs_ex_post, future_payoffs) ←
         get_total_value period num_periods delta payoffs_ex_ante
           disturbances edu_max edu_start mapping_state_idx emax k
           states_all;
       maximum ← py_max total_payoffs;
       Ok (F64.add emax_simulated maximum,
           PyArray payoffs_ex_post, PyArray future_payoffs))
    s = Raise e →
  access_error e.
Proof.
  revert s. induction xs as [|i xs IH]; intros [[es ps] fs] H; [done|].
  cbn [for_each] in H.
  apply bind_Raise_inv in H as [H|(s' & _ & H)]; [|by eapply IH].
  apply bind_Raise_inv in H as [H|(d & _ & H)].
  { apply py_getitem_Raise in H. by left. }
  apply bind_Raise_inv in H as [H|([[t pe] fp] & Hgtv & H)].
  { by apply get_total_value_Raise in H. }
  apply get_total_value_lengths in Hgtv as (Ht & _ & _).
  destruct t as [|? ?]; [done|]. done.
Qed.

(** X4: the exceptions of [simulate_emax].  Without a draw
    ([num_draws <= 0]) it divides the Python float [0.0] by [num_draws]:
    [ZeroDivisionError] for [num_draws == 0], [OverflowError] for a negative
    [num_draws] too large for a float, and otherwise the quotient, a negative
    zero, with the two payoffs left at [0.0].  With [num_draws >= 1] every
    exception comes from an array access ([IndexError], or [ValueError] for
    a state row that does not unpack into four numbers). *)
Theorem simulate_emax_exceptions (num_draws : Z) eps_relevant
    payoffs_ex_ante :
  (num_draws ≤ 0 →
   simulate_emax num_periods num_draws period k eps_relevant payoffs_ex_ante
     edu_max edu_start emax states_all mapping_state_idx delta
   = if num_draws =? 0 then Raise ZeroDivisionError
     else if F64.isfinite (F64.of_Z num_draws)
     then Ok (F64.div F64.zero (F64.of_Z num_draws),
              PyFloat F64.zero, PyFloat F64.zero)
     else Raise OverflowError)
  ∧ ∀ e : exn,
      simulate_emax num_periods num_draws period k eps_relevant
        payoffs_ex_ante edu_max edu_start emax states_all mapping_state_idx
        delta = Raise e →
      (e = ZeroDivisionError ∧ num_draws = 0)
      ∨ (e = OverflowError ∧ num_draws < 0
         ∧ F64.isfinite (F64.of_Z num_draws) = false)
      ∨ (access_error e ∧ 0 < num_draws).
Proof.
  assert (Hempty : num_draws ≤ 0 → py_range num_draws = []).
  { intros Hn. unfold py_range.
    by replace (Z.to_nat num_draws) with 0%nat by lia. }
  split.
  - intros Hn. unfold simulate_emax, py_float_truediv_int, py_float_of_int.
    rewrite (Hempty Hn). cbn [for_each]. rewrite bind_Ok.
    destruct (Z.ltb_spec 0 num_draws) as [?|_]; [lia|].
    destruct (Z.eqb_spec num_draws 0) as [->|?]; [done|].
    by destruct (F64.isfinite (F64.of_Z num_draws)).
  - intros e H. unfold simulate_emax in H.
    apply bind_Raise_inv in H as [H|([[es ps] fs] & Hloop & H)].
    + right. right. split; [by eapply simulate_emax_loop_Raise|].
      destruct (Z.ltb_spec 0 num_draws) as [?|Hn]; [done|].
      by rewrite (Hempty Hn) in H.
    + apply bind_Raise_inv in H as [H|(? & _ & H)]; [|done].
      destruct (Z.ltb_spec 0 num_draws) as [?|Hn]; [done|].
      unfold py_float_truediv_int, py_float_of_int in H.
      destruct (F64.isfinite (F64.of_Z num_draws)) eqn:Hfin.
      * rewrite bind_Ok in H.
        destruct (Z.eqb_spec num_draws 0) as [->|?]; [|done].
        injection H as <-. by left.
      * injection H as <-. right. left. split; [done|]. split; [|done].
        destruct (Z.eq_dec num_draws 0) as [->|?]; [done|lia].
Qed.

(** X5: the second and third values that [simulate_emax] returns for
    [num_draws >= 1] are the ex-post and future payoffs of the last draw,
    row [num_draws - 1] of [eps_relevant]. *)
Theorem simulate_emax_last_draw (num_draws : Z) eps_relevant
    payoffs_ex_ante (e : float) (p f : pyobj) :
  1 ≤ num_draws →
  simulate_emax num_periods num_draws period k eps_relevant payoffs_ex_ante
    edu_max edu_start emax states_all mapping_state_idx delta
  = Ok (e, p, f) →
  ∃ disturbances total ex_post future,
    eps_relevant !! Z.to_nat (num_draws - 1) = Some disturbances
    ∧ get_total_value period num_periods delta payoffs_ex_ante disturbances
        edu_max edu_start mapping_state_idx emax k states_all
      = Ok (total, ex_post, future)
    ∧ p = PyArray ex_post ∧ f = PyArray future.
Proof.
  intros Hn H. unfold simulate_emax in H.
  replace num_draws with (num_draws - 1 + 1) in H at 1 by lia.
  rewrite py_range_succ, for_each_app in H by lia.
  apply bind_Ok_inv in H as ([[e' p'] f'] & Hloop & H).
  apply bind_Ok_inv in H as (e'' & _ & H). injection H as _ <- <-.
  apply bind_Ok_inv in Hloop as ([[e0 p0] f0] & _ & Hlast).
  cbn [for_each] in Hlast.
  apply bind_Ok_inv in Hlast as (s' & Hbody & Hlast). injection Hlast as ->.
  apply bind_Ok_inv in Hbody as (disturbances & Hrow & Hbody).
  apply bind_Ok_inv in Hbody as ([[t pe] fp] & Hgtv & Hbody).
  apply bind_Ok_inv in Hbody as (m & _ & Hbody). injection Hbody as _ <- <-.
  apply py_getitem_Ok_lookup in Hrow; [|lia]. eauto 10.
Qed.

End KernelMore.

(** ** respy/interpolate.py *)

Lemma map_each_lookup {A B} (f : A → result B) xs ys (i : nat) (y : B) :
  map_each f xs = Ok ys → ys !! i = Some y →
  ∃ x, xs !! i = Some x ∧ f x = Ok y.
Proof.
  revert ys i. induction xs as [|x xs IH]; intros ys i H Hy; simpl in H.
  - injection H as <-. done.
  - apply bind_Ok_inv in H as (y0 & Hy0 & H).
    apply bind_Ok_inv in H as (ys0 & Hys0 & H). injection H as <-.
    destruct i as [|i]; simpl in Hy.
    + injection Hy as <-. eauto.
    + by apply (IH ys0).
Qed.

Section SeedFacts.

Import Interpolate.

Lemma seeds_for_spec {K} (keys : list K) (it : seed_iterator) :
  seeds_for keys it
  = (zip keys (upcoming it <$> seq (taken it) (length keys)),
     {| upcoming := upcoming it; taken := taken it + length keys |}).
Proof.
  revert it. induction keys as [|key keys IH]; intros it.
  - destruct it as [u t]. cbn. by rewrite Nat.add_0_r.
  - cbn [seeds_for py_next]. rewrite IH. cbn. do 3 f_equal. lia.
Qed.

(** X6: [_get_seeds_for_interpolation] takes one seed from the iterator for
    every dense sub-state-space, in iteration order: the [i]-th
    sub-state-space gets the [i]-th of the next seeds, and the iterator has
    advanced by the number of sub-state-spaces.  Without dense dimensions it
    takes exactly one seed. *)
Theorem get_seeds_for_interpolation_consecutive {K V}
    (subs : list (K * V)) (it : seed_iterator) :
  _get_seeds_for_interpolation {| sub_state_spaces := Some subs |} it
  = (PerDense
       (zip subs.*1 (upcoming it <$> seq (taken it) (length subs))),
     {| upcoming := upcoming it; taken := taken it + length subs |})
  ∧ _get_seeds_for_interpolation
      (V := V) {| sub_state_spaces := @None (list (K * V)) |} it
    = (Single (upcoming it (taken it)),
       {| upcoming := upcoming it; taken := S (taken it) |}).
Proof.
  split; [|reflexivity].
  unfold _get_seeds_for_interpolation. cbn [sub_state_spaces].
  by rewrite seeds_for_spec, length_fmap.
Qed.

(** X7: every outcome of [_split_interpolation_points_evenly].  Without
    dense dimensions it returns the budget itself.  With them, a budget
    outside the range of [int64] is an [OverflowError], an empty dictionary
    of sub-state-spaces a [ZeroDivisionError], and in every other case,
    also for a negative budget, the result is a dictionary with the keys of
    [sub_state_spaces] in the same order whose values sum to the budget. *)
Theorem split_interpolation_points_total {K V}
    (state_space : state_space K V) (p : Z) :
  match sub_state_spaces state_space with
  | None =>
      _split_interpolation_points_evenly state_space
        {| interpolation_points := p |} = Ok (Single p)
  | Some subs =>
      if (p <? - 2 ^ 63) || (2 ^ 63 <=? p) then
        _split_interpolation_points_evenly state_space
          {| interpolation_points := p |} = Raise OverflowError
      else if bool_decide (subs = []) then
        _split_interpolation_points_evenly state_space
          {| interpolation_points := p |} = Raise ZeroDivisionError
      else
        ∃ d : list (K * Z),
          _split_interpolation_points_evenly state_space
            {| interpolation_points := p |} = Ok (PerDense d)
          ∧ d.*1 = subs.*1
          ∧ foldr Z.add 0 d.*2 = p
  end.
Proof.
  destruct state_space as [[subs|]]; [|reflexivity].
  cbn [sub_state_spaces]. unfold _split_interpolation_points_evenly.
  cbn [sub_state_spaces interpolation_points].
  destruct (Z.ltb_spec p (- 2 ^ 63)) as [?|Hlo].
  { unfold floor_divide_int64. by rewrite np_int64_Raise by lia. }
  destruct (Z.leb_spec (2 ^ 63) p) as [?|Hhi].
  { unfold floor_divide_int64. by rewrite np_int64_Raise by lia. }
  cbn [orb]. destruct subs as [|kv subs].
  { rewrite bool_decide_eq_true_2 by done.
    unfold floor_divide_int64. by rewrite np_int64_Ok by lia. }
  rewrite bool_decide_eq_false_2 by done.
  set (all := kv :: subs).
  assert (Hn : (1 ≤ length all)%nat) by (subst all; simpl; lia).
  assert (Hr : 0 ≤ p `mod` Z.of_nat (length all) < Z.of_nat (length all))
    by (apply Z.mod_pos_bound; lia).
  pose proof (split_counts (length all) p Hn ltac:(lia)) as Hsplit.
  revert Hsplit.
  destruct (floor_divide_int64 p _) as [interp_points|?]; [|done].
  rewrite !bind_Ok.
  destruct (py_mod p _) as [remaining_points|?]; [|done].
  rewrite !bind_Ok. intros [= ->].
  change (S (length subs)) with (length all).
  eexists. split; [reflexivity|].
  assert (Hlen : length (replicate (Z.to_nat (p `mod` Z.of_nat (length all)))
                           (p `div` Z.of_nat (length all) + 1)
                         ++ replicate
                              (length all
                               - Z.to_nat (p `mod` Z.of_nat (length all)))
                              (p `div` Z.of_nat (length all)))
                 = length all.*1).
  { rewrite length_app, !length_replicate, length_fmap. lia. }
  split.
  - apply fst_zip. by rewrite Hlen.
  - rewrite snd_zip by (by rewrite Hlen). by apply split_counts_sum.
Qed.

(** Filling in-range positions: no exception, and a position holds true
    afterwards exactly when it did before or is one of the indices. *)
Lemma index_fill_positions (indices : list Z) (acc : list bool) :
  Forall (λ i, 0 ≤ i < Z.of_nat (length acc)) indices →
  ∃ acc', index_fill acc indices true = Ok acc'
    ∧ length acc' = length acc
    ∧ ∀ (j : nat) (b : bool), acc !! j = Some b →
        acc' !! j = Some (b || bool_decide (Z.of_nat j ∈ indices)).
Proof.
  revert acc. induction indices as [|i indices IH]; intros acc Hall.
  - exists acc. split; [done|]. split; [done|]. intros j b Hj.
    rewrite bool_decide_eq_false_2 by apply not_elem_of_nil.
    by rewrite orb_false_r.
  - apply Forall_cons in Hall as [Hi Hall].
    unfold index_fill. cbn [for_each].
    destruct (Z.ltb_spec i 0) as [?|_]; [lia|].
    destruct (Z.ltb_spec i 0) as [?|_]; [lia|].
    destruct (Z.leb_spec (Z.of_nat (length acc)) i) as [?|_]; [lia|].
    cbn [orb]. rewrite bind_Ok.
    destruct (IH (<[Z.to_nat i := true]> acc)) as (acc' & Hf & Hl & Hpos).
    { by rewrite length_insert. }
    exists acc'. split; [exact Hf|]. rewrite Hl, length_insert.
    split; [done|]. intros j b Hj.
    destruct (decide (j = Z.to_nat i)) as [->|Hne].
    + rewrite (Hpos (Z.to_nat i) true).
      * rewrite orb_true_l, bool_decide_eq_true_2, orb_true_r; [done|].
        rewrite Z2Nat.id by lia. apply elem_of_cons. by left.
      * apply list_lookup_insert_eq. lia.
    + rewrite (Hpos j b) by by rewrite list_lookup_insert_ne.
      do 2 f_equal. apply bool_decide_ext. rewrite elem_of_cons.
      split; [tauto|]. intros [Heq|?]; [|done]. lia.
Qed.

Context `{NumpyRandom}.

(** X8: when the generator returns a sample of indices of [range(n_states)],
    [_get_not_interpolated_indicator] returns an array with [n_states]
    entries in which an entry is true exactly when its index was sampled. *)
Theorem get_not_interpolated_indicator_positions
    (interpolation_points n_states seed : Z) (g g0 g' : rng_state)
    (indices : list Z) :
  np_random_seed seed = Ok g0 →
  np_random_choice g0 n_states interpolation_points = (Ok indices, g') →
  Forall (λ i, 0 ≤ i < n_states) indices →
  0 ≤ n_states →
  ∃ not_interpolated : list bool,
    _get_not_interpolated_indicator interpolation_points n_states seed g
    = (Ok not_interpolated, g')
    ∧ length not_interpolated = Z.to_nat n_states
    ∧ ∀ j : nat, (j < Z.to_nat n_states)%nat →
        not_interpolated !! j
        = Some (bool_decide (Z.of_nat j ∈ indices)).
Proof.
  intros Hseed Hch Hrange Hn.
  destruct (index_fill_positions indices
              (replicate (Z.to_nat n_states) false))
    as (acc' & Hf & Hl & Hpos).
  { rewrite length_replicate, Z2Nat.id by lia. exact Hrange. }
  exists acc'. split; [|split].
  - unfold _get_not_interpolated_indicator, np_zeros_bool.
    rewrite Hseed, Hch.
    destruct (Z.ltb_spec n_states 0) as [?|_]; [lia|].
    by rewrite !bind_Ok, Hf.
  - by rewrite Hl, length_replicate.
  - intros j Hj. rewrite (Hpos j false); [done|].
    by apply lookup_replicate_2.
Qed.

End SeedFacts.

Section RegressionVariables.

Import Interpolate.

Context `{RespyShared}.

(** X9: [_compute_rhs_variables] returns one row of regressors and one
    maximum per state: the maximum is the largest value function of the
    state, and the row holds the differences between the maximum and each
    value function, then the square roots of these differences, then the
    constant 1, so it has [2 * n_choices + 1] entries. *)
Theorem compute_rhs_variables_rows
    (wages nonpec emaxs : list (list float)) (draws : list float)
    (delta : float) (exogenous : list (list float))
    (max_value_functions : list float) :
  _compute_rhs_variables wages nonpec emaxs draws delta
  = Ok (exogenous, max_value_functions) →
  let value_functions :=
    (calculate_value_functions_and_flow_utilities wages nonpec emaxs draws
       delta).1 in
  length exogenous = length value_functions
  ∧ length max_value_functions = length value_functions
  ∧ ∀ (i : nat) (row : list float), exogenous !! i = Some row →
      ∃ v m,
        value_functions !! i = Some v
        ∧ max_value_functions !! i = Some m
        ∧ np_max v = Ok m
        ∧ row = (F64.sub m <$> v) ++ (F64.sqrt <$> (F64.sub m <$> v))
                ++ [F64.one]
        ∧ length row = (2 * length v + 1)%nat.
Proof.
  unfold _compute_rhs_variables.
  destruct (calculate_value_functions_and_flow_utilities _ _ _ _ _)
    as [vf fu]. cbn [fst]. intros Hr.
  apply bind_Ok_inv in Hr as (ms & Hms & Hr). injection Hr as <- <-.
  pose proof (map_each_length _ _ _ Hms) as Hlen.
  split; [|split; [done|]].
  - rewrite !length_zip_with, length_replicate, ?length_zip_with. lia.
  - intros i row Hrow.
    apply lookup_zip_with_Some in Hrow as (r & o & -> & Hr & Ho).
    apply lookup_zip_with_Some in Hr as (m & v & -> & Hm & Hv).
    apply lookup_replicate in Ho as [-> _].
    destruct (map_each_lookup _ _ _ _ _ Hms Hm) as (v' & Hv' & Hmax).
    rewrite Hv in Hv'. injection Hv' as <-.
    exists v, m. repeat (split; [done|]).
    rewrite !length_app, !length_fmap. simpl. lia.
Qed.

(** The expected-value kernel returns one number per state it is given. *)
Hypothesis calculate_expected_value_functions_length :
  ∀ wages nonpec continuation_values draws delta,
    length (calculate_expected_value_functions wages nonpec
              continuation_values draws delta)
    = length wages.

(** X10: for inputs with one row per state, [_compute_lhs_variable] returns
    one number per not-interpolated state: the expected value function that
    the kernel computes from the rows of these states, minus their maximal
    value function. *)
Theorem compute_lhs_variable_selected
    (wages nonpec continuation_values : list (list float))
    (max_value_functions : list float) (not_interpolated : list bool)
    (draws : list (list float)) (delta : float) :
  length wages = length not_interpolated →
  length nonpec = length not_interpolated →
  length continuation_values = length not_interpolated →
  length max_value_functions = length not_interpolated →
  ∃ endogenous,
    _compute_lhs_variable wages nonpec continuation_values
      max_value_functions not_interpolated draws delta = Ok endogenous
    ∧ length endogenous = count_true not_interpolated
    ∧ endogenous
      = zip_with F64.sub
          (calculate_expected_value_functions
             (compress not_interpolated wages)
             (compress not_interpolated nonpec)
             (compress not_interpolated continuation_values) draws delta)
          (compress not_interpolated max_value_functions).
Proof.
  intros Hw Hn Hc Hm. unfold _compute_lhs_variable, mask_select.
  rewrite !bool_decide_eq_true_2 by done. cbv iota. rewrite !bind_Ok.
  unfold np_sub.
  rewrite bool_decide_eq_true_2
    by (rewrite calculate_expected_value_functions_length,
          !compress_length by done; done).
  eexists. split; [reflexivity|]. split; [|done].
  rewrite length_zip_with, calculate_expected_value_functions_length,
    !compress_length by done. lia.
Qed.

End RegressionVariables.

(** ** development/analyses/robust/admissible_values/modules/auxiliary.py *)

(** Rounding is symmetric in the sign. *)
Lemma binary_round_aux_opp (s : bool) (m e : Z) (l : location) :
  SFopp (binary_round_aux F64.prec F64.emax s m e l)
  = binary_round_aux F64.prec F64.emax (negb s) m e l.
Proof.
  unfold binary_round_aux.
  destruct (shr_fexp _ _ m e l) as [mrs e'].
  destruct (shr_fexp _ _ _ e' loc_Exact) as [mrs' e''].
  destruct (shr_m mrs') as [|p|p]; [done| |done].
  by destruct (e'' <=? F64.emax - F64.prec).
Qed.

(** Multiplying by [-1] negates the product with [1]. *)
Lemma mul_minus_one (x : float) :
  F64.mul (F64.of_Z (-1)) x = F64.opp (F64.mul (F64.of_Z 1) x).
Proof.
  change (F64.of_Z (-1)) with (S754_finite true 4503599627370496 (-52)).
  change (F64.of_Z 1) with (S754_finite false 4503599627370496 (-52)).
  destruct x as [s|s| |s m e]; try done.
  unfold F64.mul, F64.opp, SFmul. rewrite binary_round_aux_opp.
  by destruct s.
Qed.

Section AdmissibleMore.

Import Admissible.

(** X11: when [get_elements] returns, [lower] and [upper] hold, for the
    three ambiguity levels 0.0, 0.01 and 0.02 in this order, the lower and
    the upper bound that [_extract_results] finds for the choice, each
    divided by 1000, and [increments] holds the three differences between
    the divided upper and lower bounds. *)
Theorem get_elements_values (choice : string) (rslts : rslts)
    (upper lower increments : list float) :
  get_elements choice rslts = Ok (upper, lower, increments) →
  ∃ lo0 lo1 lo2 up0 up1 up2,
    _extract_results F64.zero choice rslts "lower" = Ok lo0
    ∧ _extract_results f_0_01 choice rslts "lower" = Ok lo1
    ∧ _extract_results f_0_02 choice rslts "lower" = Ok lo2
    ∧ _extract_results F64.zero choice rslts "upper" = Ok up0
    ∧ _extract_results f_0_01 choice rslts "upper" = Ok up1
    ∧ _extract_results f_0_02 choice rslts "upper" = Ok up2
    ∧ lower = [F64.div lo0 (F64.of_Z 1000); F64.div lo1 (F64.of_Z 1000);
               F64.div lo2 (F64.of_Z 1000)]
    ∧ upper = [F64.div up0 (F64.of_Z 1000); F64.div up1 (F64.of_Z 1000);
               F64.div up2 (F64.of_Z 1000)]
    ∧ increments
      = [F64.sub (F64.div up0 (F64.of_Z 1000)) (F64.div lo0 (F64.of_Z 1000));
         F64.sub (F64.div up1 (F64.of_Z 1000)) (F64.div lo1 (F64.of_Z 1000));
         F64.sub (F64.div up2 (F64.of_Z 1000)) (F64.div lo2 (F64.of_Z 1000))].
Proof.
  unfold get_elements, BOUNDS_LIST, AMBIGUITY_GRID. cbn [for_each].
  change (str_in "lower" ["upper"]) with false.
  change (str_in "upper" ["upper"]) with true.
  intros H0.
  apply bind_Ok_inv in H0 as ([lower' upper'] & Hloop & H0).
  apply bind_Ok_inv in H0 as (incr & Hincr & H0). injection H0 as <- <- <-.
  apply bind_Ok_inv in Hloop as ([l1 u1] & Hlo & Hloop).
  apply bind_Ok_inv in Hlo as (los & Hlos & Hlo). injection Hlo as <- <-.
  apply bind_Ok_inv in Hloop as ([l2 u2] & Hup & Hloop).
  injection Hloop as <- <-.
  apply bind_Ok_inv in Hup as (ups & Hups & Hup). injection Hup as <-.
  repeat match goal with
    | E : _ ≫= _ = Ok _ |- _ =>
        let x := fresh "x" in let Hx := fresh "Hx" in
        apply bind_Ok_inv in E as (x & Hx & E)
    end.
  repeat match goal with E : Ok _ = Ok _ |- _ => injection E as <- end.
  subst. eexists _, _, _, _, _, _. repeat (split; [eassumption|]).
  unfold in_thousands in *. cbn [fmap list_fmap app] in *.
  split; [reflexivity|]. split; [reflexivity|].
  unfold Interpolate.np_sub in Hincr.
  rewrite bool_decide_eq_true_2 in Hincr by done. by injection Hincr as <-.
Qed.

Lemma _extract_results_unknown_choice (level : float) (choice : string)
    (rslts : rslts) (which : string) :
  choice ∉ CHOICE_LIST →
  _extract_results level choice rslts which = Raise AssertionError.
Proof.
  intros Hc. unfold _extract_results, str_in.
  rewrite (bool_decide_eq_false_2 _ Hc).
  by destruct (float_in level AMBIGUITY_GRID).
Qed.

Lemma list_index_elem_of (xs : list string) (x : string) :
  x ∈ xs → ∃ i, list_index xs x = Ok i.
Proof.
  induction xs as [|y xs IH]; intros Hx; [by apply elem_of_nil in Hx|].
  cbn [list_index]. destruct (decide (y = x)) as [->|Hne].
  - rewrite bool_decide_eq_true_2 by done. eauto.
  - rewrite bool_decide_eq_false_2 by done.
    apply elem_of_cons in Hx as [->|Hx]; [done|].
    destruct (IH Hx) as [i ->]. rewrite bind_Ok. eauto.
Qed.

Lemma dict_get_Raise {V} (d : list (float * V)) (key : float) (e : exn) :
  dict_get d key = Raise e → e = KeyError.
Proof.
  induction d as [|[k v] d IH]; cbn [dict_get]; [by intros [= <-]|].
  by destruct (F64.eqb k key).
Qed.

(** X20: [_extract_results] raises an assertion error only for an argument
    outside its vocabulary, [KeyError] only when the level, though one of
    the grid, is no key of [rslts], and otherwise nothing but [IndexError]
    (an entry of [rslts] with too few items). *)
Theorem extract_results_exceptions (level : float) (choice : string)
    (rslts : rslts) (which : string) (e : exn) :
  _extract_results level choice rslts which = Raise e →
  (e = AssertionError
   ∧ (float_in level AMBIGUITY_GRID = false
      ∨ choice ∉ CHOICE_LIST ∨ which ∉ BOUNDS_LIST))
  ∨ (e = KeyError ∧ dict_get rslts level = Raise KeyError
     ∧ float_in level AMBIGUITY_GRID = true)
  ∨ e = IndexError.
Proof.
  unfold _extract_results, str_in.
  destruct (float_in level AMBIGUITY_GRID) eqn:Hl;
    [|intros [= <-]; left; auto].
  destruct (decide (choice ∈ CHOICE_LIST)) as [Hc|Hc];
    [rewrite (bool_decide_eq_true_2 _ Hc)
    |rewrite (bool_decide_eq_false_2 _ Hc); intros [= <-]; left; auto].
  destruct (decide (which ∈ BOUNDS_LIST)) as [Hw|Hw];
    [rewrite (bool_decide_eq_true_2 _ Hw)
    |rewrite (bool_decide_eq_false_2 _ Hw); intros [= <-]; left; auto].
  cbn [py_assert]. rewrite !bind_Ok.
  destruct (list_index_elem_of _ _ Hc) as [ic ->].
  destruct (list_index_elem_of _ _ Hw) as [ib ->]. rewrite !bind_Ok.
  intros H. right.
  apply bind_Raise_inv in H as [H|(entry & _ & H)].
  { pose proof (dict_get_Raise _ _ _ H) as ->. by left. }
  right. apply bind_Raise_inv in H as [H|(r & _ & H)];
    by apply py_getitem_Raise in H.
Qed.

(** X12: for a choice that is not in the list of choices, [get_elements]
    fails with an assertion error, whatever the results. *)
Theorem get_elements_unknown_choice (choice : string) (rslts : rslts) :
  choice ∉ CHOICE_LIST →
  get_elements choice rslts = Raise AssertionError.
Proof.
  intros Hc. unfold get_elements, BOUNDS_LIST, AMBIGUITY_GRID.
  cbn [for_each].
  by rewrite (_extract_results_unknown_choice F64.zero _ _ "lower" Hc).
Qed.

Section CriterionFacts.

Variable transform_disturbances_ambiguity :
  Kernel.array2 float → list float → Kernel.array2 float.

(** X13: [criterion] with [sign = -1] is the negation of [criterion] with
    [sign = 1] on the same arguments (exceptions included), so minimising
    the one maximises the other; for any other sign it fails with an
    assertion error before it simulates anything. *)
Theorem criterion_sign (x : list float) (num_draws : Z)
    (eps_relevant : Kernel.array2 float) (period k : Z)
    (payoffs_systematic : list float) (edu_max edu_start : Z)
    (mapping_state_idx : Kernel.array5 Z) (states_all : Kernel.array3 Z)
    (num_periods : Z) (periods_emax : Kernel.array2 float)
    (delta : float) :
  criterion transform_disturbances_ambiguity x num_draws eps_relevant
    period k payoffs_systematic edu_max edu_start mapping_state_idx
    states_all num_periods periods_emax delta (-1)
  = F64.opp <$>
      criterion transform_disturbances_ambiguity x num_draws eps_relevant
        period k payoffs_systematic edu_max edu_start mapping_state_idx
        states_all num_periods periods_emax delta 1
  ∧ ∀ sign : Z, sign ≠ 1 → sign ≠ -1 →
      criterion transform_disturbances_ambiguity x num_draws eps_relevant
        period k payoffs_systematic edu_max edu_start mapping_state_idx
        states_all num_periods periods_emax delta sign
      = Raise AssertionError.
Proof.
  split.
  - unfold criterion.
    change (py_assert ((-1 =? 1) || (-1 =? -1))) with (@Ok unit tt).
    change (py_assert ((1 =? 1) || (1 =? -1))) with (@Ok unit tt).
    rewrite !bind_Ok.
    destruct (Kernel.simulate_emax _ _ _ _ _ _ _ _ _ _ _ _)
      as [[[simulated p] f]|?]; [|done].
    rewrite !bind_Ok. cbn [fmap result_fmap]. by rewrite mul_minus_one.
  - intros sign H1 H2. unfold criterion.
    destruct (Z.eqb_spec sign 1) as [?|_]; [done|].
    by destruct (Z.eqb_spec sign (-1)) as [?|_].
Qed.

End CriterionFacts.

(** X14: [distribute_arguments] returns exactly when [levels] is a list,
    both flags equal [True] or [False], [num_procs] is an integer above
    zero and [spec] is one of "one", "two", "three"; it then returns the
    five options unchanged, in the order levels, is_recompile, is_debug,
    num_procs, spec.  In every other case it fails with an assertion error.
    The numbers in [levels] play no part. *)
Theorem distribute_arguments_accepted (parser : parser) :
  distribute_arguments parser
  = if accepted (parse_args parser)
    then Ok (levels (parse_args parser), is_recompile (parse_args parser),
             is_debug (parse_args parser), num_procs (parse_args parser),
             spec (parse_args parser))
    else Raise AssertionError.
Proof.
  destruct parser as [[r n d l sp]].
  unfold distribute_arguments, accepted.
  cbn [parse_args levels is_recompile is_debug num_procs spec].
  destruct l as [|?|?|l]; try done. cbn [is_list py_assert andb].
  rewrite bind_Ok, levels_check_vacuous. cbn [py_assert]. rewrite bind_Ok.
  destruct (eq_bool r true || eq_bool r false); [|done].
  destruct (eq_bool d true || eq_bool d false); [|done].
  destruct (is_int n); [|done].
  destruct (gt_zero n); [|done].
  cbn [py_assert andb]. rewrite !bind_Ok.
  by destruct sp as [|?|s|?]; [..|destruct (bool_decide _)|].
Qed.

(** The key 0.0 is found under either sign of zero. *)
Lemma dict_get_zero {V} (d : list (float * V)) (level : float) :
  F64.eqb level F64.zero = true → dict_get d level = dict_get d F64.zero.
Proof.
  intros Hz. destruct level as [s|[]| |[] ? ?]; try done.
  induction d as [|[key v] d IH]; [done|]. cbn [dict_get]. rewrite IH.
  by destruct key as [?|[]| |[] ? ?].
Qed.

(** X15: in the block of level 0.0 every line that [store_rslts] writes has
    the same number in the Lower and in the Baseline column, the first
    number of the entry of the choice: the line is two spaces, the choice in
    15 characters, and this number, the same number again and the upper
    bound with five decimals in 15 characters each. *)
Theorem store_rslts_level_zero_line (rslt : rslts) (pos : nat)
    (level : float) (i : Z) (choice text : string) :
  F64.eqb level F64.zero = true →
  store_rslts_choice rslt (pos, level) (i, choice) = Out text (Ok tt) →
  ∃ e lower upper,
    dict_get rslt F64.zero = Ok e
    ∧ py_getitem e i = Ok [lower; upper]
    ∧ text = "  " +:+ ljust 15 choice +:+ rjust 15 (format_f 5 lower) +:+
             rjust 15 (format_f 5 lower) +:+ rjust 15 (format_f 5 upper) +:+
             nl.
Proof.
  intros Hz. rewrite store_rslts_choice_eq.
  unfold baseline_entry, bounds_entry, dict_get_own. cbn [fst snd].
  rewrite (dict_get_zero _ _ Hz).
  destruct (dict_get rslt F64.zero) as [e|?]; [|done]. rewrite !bind_Ok.
  destruct (py_getitem e i) as [r|?] eqn:Hgi; [|done]. rewrite !bind_Ok.
  destruct (unpack2 r) as [[lower upper]|?] eqn:Hr.
  - assert (r = [lower; upper]) as ->.
    { destruct r as [|? [|? [|? ?]]]; try done. by injection Hr as -> ->. }
    change (py_getitem [lower; upper] 0) with (@Ok float lower).
    rewrite !bind_quiet_Ok. cbn [fst snd]. intros [= <-].
    by exists e, lower, upper.
  - destruct (py_getitem r 0); [|done]. by rewrite bind_quiet_Ok.
Qed.

(** X16: conversely to C10, when the directory [rslts] is in place and
    every number the log needs is there (for a non-empty [rslt] the four
    Baseline entries [rslt[0.0][i][0]], and for every level, also a level
    that is NaN, the two bounds [rslt[level][i]] of the four choices),
    [store_rslts] completes and leaves exactly the log that has one block
    for each level in the order of [rslt]. *)
Theorem store_rslts_writes_log (pkl_dumps : rslts → string) (rslt : rslts)
    (fs : file_system) (baselines : list float)
    (bounds : list (list (float * float))) :
  fs !! "rslts" = Some Directory →
  fs !! "rslts/admissible_values.robupy.pkl" ≠ Some Directory →
  fs !! "rslts/admissible_values.robupy.log" ≠ Some Directory →
  rslt = []
  ∨ Forall2 (λ i b, (e ← dict_get rslt F64.zero;
                     r ← py_getitem e i;
                     py_getitem r 0) = Ok b)
      [0; 1; 2; 3] baselines →
  Forall2 (λ '(pos, level) lus,
             Forall2 (λ i '(lower, upper),
                        (e ← dict_get_own rslt pos level;
                         py_getitem e i) = Ok [lower; upper])
               [0; 1; 2; 3] lus)
    (dict_keys rslt) bounds →
  let line (choice : string) (lower baseline upper : float) : string :=
    "  " +:+ ljust 15 choice +:+ rjust 15 (format_f 5 lower) +:+
    rjust 15 (format_f 5 baseline) +:+ rjust 15 (format_f 5 upper) +:+ nl in
  let block (level : float) (lus : list (float * float)) : string :=
    " Level  " +:+ format_f 3 level +:+
    "        Lower          Baseline       Upper          " +:+ nl +:+ nl +:+
    foldr String.append EmptyString
      (zip_with (λ '(choice, b) '(lower, upper), line choice lower b upper)
         (zip ["Occupation A"; "Occupation B"; "School"; "Home"] baselines)
         lus)
    +:+ nl +:+ nl in
  (store_rslts pkl_dumps rslt fs).2 = Ok tt
  ∧ (store_rslts pkl_dumps rslt fs).1 !! "rslts/admissible_values.robupy.log"
    = Some (File (foldr String.append EmptyString
                    (zip_with (λ '(_, level) lus, block level lus)
                       (dict_keys rslt) bounds))).
Proof.
  intros Hdir Hpkl Hlog Hbase Hbounds line block.
  destruct (store_rslts_opened pkl_dumps rslt fs Hdir Hpkl Hlog)
    as (-> & -> & _).
  unfold store_rslts_log. destruct Hbase as [->|Hbase].
  { by inversion Hbounds. }
  assert (Hbs : baseline_column rslt = Ok baselines)
    by (by apply map_each_Forall2).
  pose proof (store_rslts_levels_ok rslt baselines (dict_keys rslt) Hbs)
    as Hl.
  assert (Hbd : map_each (level_bounds rslt) (dict_keys rslt) = Ok bounds).
  { apply map_each_Forall2. eapply Forall2_impl; [exact Hbounds|].
    intros [pos lv] lus Hlus. apply map_each_Forall2.
    eapply Forall2_impl; [exact Hlus|].
    intros i [lower upper] Hi. by apply bounds_entry_Ok. }
  rewrite Hbd in Hl. by rewrite Hl.
Qed.

(** Once the file of the serialized results is open, it is written, whatever
    happens to the log. *)
Lemma store_rslts_pkl_written (pkl_dumps : rslts → string) (rslt : rslts)
    (fs : file_system) :
  fs !! "rslts" = Some Directory →
  fs !! "rslts/admissible_values.robupy.pkl" ≠ Some Directory →
  (store_rslts pkl_dumps rslt fs).1 !! "rslts/admissible_values.robupy.pkl"
  = Some (File (pkl_dumps rslt))
  ∧ (∀ path : string,
       path ≠ "rslts/admissible_values.robupy.pkl" →
       path ≠ "rslts/admissible_values.robupy.log" →
       (store_rslts pkl_dumps rslt fs).1 !! path = fs !! path)
  ∧ match fs !! "rslts/admissible_values.robupy.log" with
    | Some Directory =>
        (store_rslts pkl_dumps rslt fs).2 = Raise IsADirectoryError
        ∧ (store_rslts pkl_dumps rslt fs).1
            !! "rslts/admissible_values.robupy.log"
          = Some Directory
    | _ =>
        ∃ text,
          (store_rslts pkl_dumps rslt fs).1
            !! "rslts/admissible_values.robupy.log"
          = Some (File text)
    end.
Proof.
  intros Hdir Hpkl.
  destruct (fs !! "rslts/admissible_values.robupy.log") as [[|c]|] eqn:Hlog.
  - unfold store_rslts, py_open_w. rewrite Hdir.
    change ("rslts" +:+ "/" +:+ "admissible_values.robupy.pkl")
      with "rslts/admissible_values.robupy.pkl".
    change ("rslts" +:+ "/" +:+ "admissible_values.robupy.log")
      with "rslts/admissible_values.robupy.log".
    assert (Hopen :
      match fs !! "rslts/admissible_values.robupy.pkl" with
      | Some Directory => Raise IsADirectoryError
      | _ => Ok (<["rslts/admissible_values.robupy.pkl"
                   := File EmptyString]> fs)
      end
      = Ok (<["rslts/admissible_values.robupy.pkl" := File EmptyString]>
              fs)).
    { by destruct (fs !! "rslts/admissible_values.robupy.pkl")
        as [[|?]|]. }
    rewrite Hopen.
    do 2 (rewrite (lookup_insert_ne _ _ "rslts") by done).
    do 2 (rewrite (lookup_insert_ne _ _
                     "rslts/admissible_values.robupy.log") by done).
    rewrite Hdir, Hlog. cbn [fst snd].
    split; [by rewrite lookup_insert_eq|].
    split; [intros path H1 H2; by rewrite !lookup_insert_ne by done|].
    split; [done|].
    by do 2 (rewrite lookup_insert_ne by done).
  - destruct (store_rslts_opened pkl_dumps rslt fs Hdir Hpkl)
      as (_ & Hl & Hp & Hother); [by rewrite Hlog|eauto].
  - destruct (store_rslts_opened pkl_dumps rslt fs Hdir Hpkl)
      as (_ & Hl & Hp & Hother); [by rewrite Hlog|eauto].
Qed.

(** X17: the files of [store_rslts].  Without the directory [rslts] the call
    raises [FileNotFoundError] and leaves the directory tree as it was
    (likewise with [NotADirectoryError] when [rslts] is a file, and with
    [IsADirectoryError] when the path of the serialized results is a
    directory).  Otherwise it leaves the serialized results in
    [rslts/admissible_values.robupy.pkl], also when writing the log fails,
    leaves a log file unless a directory is in its way, and touches no other
    path. *)
Theorem store_rslts_files (pkl_dumps : rslts → string) (rslt : rslts)
    (fs : file_system) :
  match fs !! "rslts" with
  | None => store_rslts pkl_dumps rslt fs = (fs, Raise FileNotFoundError)
  | Some (File _) =>
      store_rslts pkl_dumps rslt fs = (fs, Raise NotADirectoryError)
  | Some Directory =>
      match fs !! "rslts/admissible_values.robupy.pkl" with
      | Some Directory =>
          store_rslts pkl_dumps rslt fs = (fs, Raise IsADirectoryError)
      | _ =>
          (store_rslts pkl_dumps rslt fs).1
            !! "rslts/admissible_values.robupy.pkl"
          = Some (File (pkl_dumps rslt))
          ∧ (∀ path : string,
               path ≠ "rslts/admissible_values.robupy.pkl" →
               path ≠ "rslts/admissible_values.robupy.log" →
               (store_rslts pkl_dumps rslt fs).1 !! path = fs !! path)
          ∧ match fs !! "rslts/admissible_values.robupy.log" with
            | Some Directory =>
                (store_rslts pkl_dumps rslt fs).2 = Raise IsADirectoryError
                ∧ (store_rslts pkl_dumps rslt fs).1
                    !! "rslts/admissible_values.robupy.log"
                  = Some Directory
            | _ =>
                ∃ text,
                  (store_rslts pkl_dumps rslt fs).1
                    !! "rslts/admissible_values.robupy.log"
                  = Some (File text)
            end
      end
  end.
Proof.
  destruct (fs !! "rslts") as [[|?]|] eqn:Hdir;
    [|by unfold store_rslts, py_open_w; rewrite Hdir..].
  destruct (fs !! "rslts/admissible_values.robupy.pkl") as [[|c]|] eqn:Hp.
  - unfold store_rslts, py_open_w. rewrite Hdir.
    change ("rslts" +:+ "/" +:+ "admissible_values.robupy.pkl")
      with "rslts/admissible_values.robupy.pkl".
    by rewrite Hp.
  - apply store_rslts_pkl_written; [done|by rewrite Hp].
  - apply store_rslts_pkl_written; [done|by rewrite Hp].
Qed.

End AdmissibleMore.

(** ** development/testing/_modules/auxiliary_scalability.py *)

Section ScalabilityMore.

Import Scalability.

Context `{DateTime}.

Lemma append_to_other (path path' text : string) (fs : gmap string string) :
  path' ≠ path → append_to path text fs !! path' = fs !! path'.
Proof. intros Hne. unfold append_to. by rewrite lookup_insert_ne. Qed.

(** X18: however often [record_information] is called, it changes no file
    other than [scalability.respy.info]. *)
Theorem record_information_other_files
    (calls : list (datetime * datetime * Z)) (fs : gmap string string)
    (path : string) :
  path ≠ info_file →
  record_all calls fs !! path = fs !! path.
Proof.
  intros Hne. revert fs.
  induction calls as [|[[s f] n] calls IH]; intros fs; [done|].
  unfold record_all in *. cbn [foldl]. rewrite IH.
  unfold record_information.
  rewrite append_to_other by done.
  destruct (negb _); [|done]. by rewrite !append_to_other.
Qed.

(** X19: a row of the report gives every field at least its column (15,
    25, 25 and 15 characters, separated by one space, ended by a newline)
    and never cuts a field: its length is the sum of the larger of column
    width and field length, plus four. *)
Theorem fmt_width (a b c d : string) :
  String.length (fmt a b c d)
  = (Nat.max 15 (String.length a) + Nat.max 25 (String.length b)
     + Nat.max 25 (String.length c) + Nat.max 15 (String.length d) + 4)%nat.
Proof.
  unfold fmt. rewrite !str_length_app, !rjust_length. simpl. lia.
Qed.

End ScalabilityMore.

(** * The properties at concrete inputs *)

(** ** The kernel *)

Example get_total_value_example :
  Kernel.get_total_value 0 Sample.num_periods F64.zero
    Sample.payoffs_ex_ante [F64.of_Z 1; F64.of_Z 1; F64.zero; F64.zero]
    Sample.edu_max Sample.edu_start Sample.mapping_state_idx
    Sample.emax 0 Sample.states_all
  = Ok ([F64.of_Z 1; F64.of_Z 2; F64.neg_inf; F64.of_Z 4],
        [F64.of_Z 1; F64.of_Z 2; F64.of_Z 3; F64.of_Z 4],
        [F64.of_Z 10; F64.of_Z 20; F64.neg_inf; F64.of_Z 30]).
Proof. vm_compute. reflexivity. Qed.

Example simulate_emax_example :
  Kernel.simulate_emax Sample.num_periods 2 1 0 Sample.eps_relevant
    Sample.payoffs_ex_ante Sample.edu_max Sample.edu_start Sample.emax
    Sample.states_all Sample.mapping_state_idx (F64.of_Z 1)
  = Ok (F64.div (F64.of_Z 10) (F64.of_Z 2),
        PyArray [F64.of_Z 5; F64.of_Z 2; F64.of_Z 3; F64.of_Z 6],
        PyArray [F64.zero; F64.zero; F64.zero; F64.zero]).
Proof. vm_compute. reflexivity. Qed.

Lemma simulate_emax_is_mean_of_maxima_witness :
  (λ r : float * pyobj * pyobj, r.1.1) <$>
    Kernel.simulate_emax Sample.num_periods 2 1 0 Sample.eps_relevant
      Sample.payoffs_ex_ante Sample.edu_max Sample.edu_start
      Sample.emax Sample.states_all Sample.mapping_state_idx
      (F64.of_Z 1)
  = (maxima ← map_each
       (Kernel.draw_maximum Sample.num_periods 1 0 Sample.eps_relevant
          Sample.payoffs_ex_ante Sample.edu_max Sample.edu_start
          Sample.emax Sample.states_all Sample.mapping_state_idx
          (F64.of_Z 1))
       (py_range 2);
     Ok (F64.mean maxima)).
Proof. apply simulate_emax_is_mean_of_maxima. lia. Defined.

Lemma get_total_value_terminal_period_witness :
  ∃ total_payoffs,
    Kernel.get_total_value 1 2 (F64.of_Z 1)
      [F64.of_Z 1; F64.of_Z 2; F64.of_Z 3; F64.of_Z 4]
      [F64.of_Z 5; F64.of_Z 1; F64.zero; F64.of_Z 2]
      Sample.edu_max Sample.edu_start Sample.mapping_state_idx
      Sample.emax 0 Sample.states_all
    = Ok (total_payoffs,
          [F64.mul (F64.of_Z 1) (F64.of_Z 5);
           F64.mul (F64.of_Z 2) (F64.of_Z 1);
           F64.add (F64.of_Z 3) F64.zero;
           F64.add (F64.of_Z 4) (F64.of_Z 2)],
          [F64.zero; F64.zero; F64.zero; F64.zero])
    ∧ (F64.isfinite (F64.of_Z 1) = true →
       Forall2 F64.same_number total_payoffs
         [F64.mul (F64.of_Z 1) (F64.of_Z 5);
          F64.mul (F64.of_Z 2) (F64.of_Z 1);
          F64.add (F64.of_Z 3) F64.zero;
          F64.add (F64.of_Z 4) (F64.of_Z 2)])
    ∧ (F64.isfinite (F64.of_Z 1) = false →
       total_payoffs = [F64.nan; F64.nan; F64.nan; F64.nan]).
Proof.
  apply (get_total_value_terminal_period 2 1 0 Sample.edu_max
           Sample.edu_start Sample.emax Sample.states_all
           Sample.mapping_state_idx (F64.of_Z 1)
           (F64.of_Z 1) (F64.of_Z 2) (F64.of_Z 3) (F64.of_Z 4)
           (F64.of_Z 5) (F64.of_Z 1) F64.zero (F64.of_Z 2) [] []);
    reflexivity.
Defined.

(** At an infinite discount factor the total payoffs of the terminal period
    are NaN, not the ex-post payoffs. *)
Lemma get_total_value_terminal_period_infinite_delta :
  ∃ total_payoffs payoffs_ex_post future_payoffs,
    Kernel.get_total_value 1 2 F64.inf
      [F64.of_Z 1; F64.of_Z 2; F64.of_Z 3; F64.of_Z 4]
      [F64.of_Z 5; F64.of_Z 1; F64.zero; F64.of_Z 2]
      Sample.edu_max Sample.edu_start Sample.mapping_state_idx
      Sample.emax 0 Sample.states_all
    = Ok (total_payoffs, payoffs_ex_post, future_payoffs)
    ∧ total_payoffs = [F64.nan; F64.nan; F64.nan; F64.nan]
    ∧ payoffs_ex_post = [F64.of_Z 5; F64.of_Z 2; F64.of_Z 3; F64.of_Z 6]
    ∧ future_payoffs = [F64.zero; F64.zero; F64.zero; F64.zero]
    ∧ ¬ Forall2 F64.same_number total_payoffs payoffs_ex_post.
Proof.
  eexists _, _, _. split; [vm_compute; reflexivity|].
  repeat (split; [vm_compute; reflexivity|]).
  intros H. apply Forall2_cons_1 in H as [H _]. vm_compute in H.
  discriminate H.
Qed.

(** Without a draw: the quotient of [0.0] by [num_draws] is a negative zero,
    a division by zero, or the conversion of an integer that no float
    holds. *)
Example simulate_emax_without_draws :
  Kernel.simulate_emax Sample.num_periods (-2) 1 0 Sample.eps_relevant
    Sample.payoffs_ex_ante Sample.edu_max Sample.edu_start Sample.emax
    Sample.states_all Sample.mapping_state_idx (F64.of_Z 1)
  = Ok (S754_zero true, PyFloat F64.zero, PyFloat F64.zero)
  ∧ Kernel.simulate_emax Sample.num_periods 0 1 0 Sample.eps_relevant
      Sample.payoffs_ex_ante Sample.edu_max Sample.edu_start Sample.emax
      Sample.states_all Sample.mapping_state_idx (F64.of_Z 1)
    = Raise ZeroDivisionError
  ∧ Kernel.simulate_emax Sample.num_periods (- 10 ^ 400) 1 0
      Sample.eps_relevant Sample.payoffs_ex_ante Sample.edu_max
      Sample.edu_start Sample.emax Sample.states_all
      Sample.mapping_state_idx (F64.of_Z 1)
    = Raise OverflowError.
Proof. repeat split; vm_compute; reflexivity. Qed.

(** The largest integer that converts to a float, and the next one. *)
Example py_float_of_int_limit :
  py_float_of_int (2 ^ 1024 - 2 ^ 970 - 1)
  = Ok (S754_finite false 9007199254740991 971)
  ∧ py_float_of_int (2 ^ 1024 - 2 ^ 970) = Raise OverflowError.
Proof. split; vm_compute; reflexivity. Qed.

Lemma get_total_value_max_education_witness :
  [F64.of_Z 10; F64.of_Z 20; F64.neg_inf; F64.of_Z 30] !! 2%nat
  = Some F64.neg_inf
  ∧ (F64.eqb F64.zero F64.zero = true →
     [F64.of_Z 1; F64.of_Z 2; F64.neg_inf; F64.of_Z 4] !! 2%nat
     = Some F64.neg_inf
     ∧ ∃ p, [F64.of_Z 1; F64.of_Z 2; F64.of_Z 3; F64.of_Z 4] !! 2%nat
            = Some p
          ∧ F64.add p (F64.mul F64.zero F64.neg_inf) = F64.nan).
Proof.
  apply (get_total_value_max_education Sample.num_periods 0 0
           Sample.edu_max Sample.edu_start Sample.emax
           Sample.states_all Sample.mapping_state_idx F64.zero
           Sample.payoffs_ex_ante
           [F64.of_Z 1; F64.of_Z 1; F64.zero; F64.zero] 0 0 0 0).
  - vm_compute. lia.
  - reflexivity.
  - reflexivity.
  - vm_compute. reflexivity.
Defined.

(** ** The interpolation helpers *)

Example split_interpolation_points_evenly_example :
  Interpolate._split_interpolation_points_evenly
    {| Interpolate.sub_state_spaces := Some [("a", tt); ("b", tt); ("c", tt)] |}
    {| Interpolate.interpolation_points := 7 |}
  = Ok (Interpolate.PerDense [("a", 3); ("b", 2); ("c", 2)]).
Proof. reflexivity. Qed.

Lemma split_interpolation_points_evenly_witness :
  ∃ counts : list Z,
    Interpolate._split_interpolation_points_evenly
      {| Interpolate.sub_state_spaces :=
           Some [("a", tt); ("b", tt); ("c", tt)] |}
      {| Interpolate.interpolation_points := 7 |}
    = Ok (Interpolate.PerDense
            (zip (fst <$> [("a", tt); ("b", tt); ("c", tt)]) counts))
    ∧ length counts = 3%nat
    ∧ (∀ i : nat, (i < 3)%nat →
         counts !! i
         = Some (7 `div` 3 + if Z.of_nat i <? 7 `mod` 3 then 1 else 0))
    ∧ foldr Z.add 0 counts = 7.
Proof.
  apply (split_interpolation_points_evenly
           [("a", tt); ("b", tt); ("c", tt)] 7); simpl; lia.
Defined.

(** A budget of [2^63] does not fit the [int64] array of the counts. *)
Lemma split_interpolation_points_evenly_overflow :
  Interpolate._split_interpolation_points_evenly
    {| Interpolate.sub_state_spaces :=
         Some [("a", tt); ("b", tt); ("c", tt)] |}
    {| Interpolate.interpolation_points := 2 ^ 63 |}
  = Raise OverflowError.
Proof. vm_compute. reflexivity. Qed.

Example split_interpolation_points_evenly_largest :
  Interpolate._split_interpolation_points_evenly
    {| Interpolate.sub_state_spaces :=
         Some [("a", tt); ("b", tt); ("c", tt)] |}
    {| Interpolate.interpolation_points := 2 ^ 63 - 1 |}
  = Ok (Interpolate.PerDense
          [("a", 3074457345618258603); ("b", 3074457345618258602);
           ("c", 3074457345618258602)]).
Proof. vm_compute. reflexivity. Qed.

Example split_interpolation_points_evenly_negative :
  Interpolate._split_interpolation_points_evenly
    {| Interpolate.sub_state_spaces :=
         Some [("a", tt); ("b", tt); ("c", tt)] |}
    {| Interpolate.interpolation_points := -7 |}
  = Ok (Interpolate.PerDense [("a", -2); ("b", -2); ("c", -3)]).
Proof. vm_compute. reflexivity. Qed.

Example split_interpolation_points_evenly_no_sub_state_spaces :
  Interpolate._split_interpolation_points_evenly
    {| Interpolate.sub_state_spaces := @Some (list (string * unit)) [] |}
    {| Interpolate.interpolation_points := 7 |}
  = Raise ZeroDivisionError
  ∧ Interpolate._split_interpolation_points_evenly
      {| Interpolate.sub_state_spaces := @Some (list (string * unit)) [] |}
      {| Interpolate.interpolation_points := 2 ^ 63 |}
    = Raise OverflowError.
Proof. split; vm_compute; reflexivity. Qed.


Example get_not_interpolated_indicator_example :
  (@Interpolate._get_not_interpolated_indicator Sample.rotation_rng
     2 5 7 0).1
  = Ok [false; false; true; true; false].
Proof. reflexivity. Qed.


Lemma dot_mv_length (a : list (list float)) (v : list float) :
  length (Sample.dot_mv a v) = length a.
Proof. unfold Sample.dot_mv. by rewrite length_fmap. Qed.

Example predict_with_linear_model_example :
  @Interpolate._predict_with_linear_model Sample.naive_linalg
    [F64.of_Z 3; F64.of_Z 8]
    [[F64.of_Z 1]; [F64.of_Z (-4)]; [F64.of_Z 2]]
    [F64.of_Z 10; F64.of_Z 20; F64.of_Z 30] [true; false; true]
  = Ok ([F64.of_Z 13; F64.of_Z 20; F64.of_Z 38], false).
Proof. vm_compute. reflexivity. Qed.

Lemma predict_with_linear_model_pointwise_witness :
  let endogenous := [F64.of_Z 3; F64.of_Z 8] in
  let exogenous := [[F64.of_Z 1]; [F64.of_Z (-4)]; [F64.of_Z 2]] in
  let max_value_functions := [F64.of_Z 10; F64.of_Z 20; F64.of_Z 30] in
  let not_interpolated := [true; false; true] in
  let endogenous_predicted :=
    [F64.mul (F64.of_Z 1) (F64.mul (F64.div F64.one (F64.of_Z 5)) (F64.of_Z 19));
     F64.mul (F64.of_Z (-4))
       (F64.mul (F64.div F64.one (F64.of_Z 5)) (F64.of_Z 19));
     F64.mul (F64.of_Z 2)
       (F64.mul (F64.div F64.one (F64.of_Z 5)) (F64.of_Z 19))] in
  ∃ predictions warned,
    @Interpolate._predict_with_linear_model Sample.naive_linalg
      endogenous exogenous max_value_functions not_interpolated
    = Ok (predictions, warned)
    ∧ length predictions = length not_interpolated
    ∧ ∀ i : nat, (i < length not_interpolated)%nat →
        ∃ m, max_value_functions !! i = Some m
          ∧ match not_interpolated !! i with
            | Some true =>
                ∃ e, endogenous
                       !! Interpolate.count_true (take i not_interpolated)
                     = Some e
                   ∧ predictions !! i = Some (F64.add e m)
            | _ =>
                ∃ p, endogenous_predicted !! i = Some p
                   ∧ predictions !! i
                     = Some (F64.add
                               (if F64.ltb p F64.zero then F64.zero else p)
                               m)
            end.
Proof.
  apply (@predict_with_linear_model_pointwise Sample.naive_linalg
           dot_mv_length [F64.of_Z 3; F64.of_Z 8]
           [[F64.of_Z 1]; [F64.of_Z (-4)]; [F64.of_Z 2]]
           [F64.of_Z 10; F64.of_Z 20; F64.of_Z 30] [true; false; true]);
    reflexivity.
Defined.

(** ** The admissible-value toolkit *)

Example extract_results_example :
  Admissible._extract_results Admissible.f_0_01 "School" Sample.rslt "upper"
  = Ok (F64.of_Z 4).
Proof. vm_compute. reflexivity. Qed.

Example extract_results_unknown_level :
  Admissible._extract_results (F64.of_Z 1) "School" Sample.rslt "upper"
  = Raise AssertionError.
Proof. reflexivity. Qed.

(** Python's rendering of numbers with a fixed number of decimals. *)
Example format_f_examples :
  format_f 5 (F64.of_Z 3) = "3.00000"
  ∧ format_f 3 Admissible.f_0_01 = "0.010"
  ∧ format_f 5 (S754_zero true) = "-0.00000"
  ∧ format_f 5 (F64.div (F64.of_Z 1) (F64.of_Z 400000)) = "0.00000"
  ∧ format_f 5 (F64.div (F64.of_Z 1234567891234) (F64.of_Z 1000000))
    = "1234567.89123"
  ∧ format_f 3 F64.nan = "nan"
  ∧ format_f 5 F64.neg_inf = "-inf".
Proof. repeat split; vm_compute; reflexivity. Qed.

(** An empty [rslt] has no key 0.0, and [store_rslts] completes on it: it
    writes the serialized results and an empty log. *)
Lemma store_rslts_empty_without_level_zero :
  Admissible.dict_get ([] : Admissible.rslts) F64.zero = Raise KeyError
  ∧ (Admissible.store_rslts (λ _, "pickled") [] Sample.results_directory).2
    = Ok tt
  ∧ (Admissible.store_rslts (λ _, "pickled") [] Sample.results_directory).1
      !! "rslts/admissible_values.robupy.log"
    = Some (Admissible.File EmptyString).
Proof. repeat split; vm_compute; reflexivity. Qed.

(** Solves a goal [Forall2 R xs ys] on two closed lists by computation. *)
Ltac forall2_compute :=
  lazymatch goal with
  | |- Forall2 _ [] [] => apply Forall2_nil_2
  | |- Forall2 _ (_ :: _) (_ :: _) =>
      apply Forall2_cons_2;
      [cbv beta iota; first [forall2_compute | vm_compute; reflexivity]
      |forall2_compute]
  end.

Lemma store_rslts_baseline_is_level_zero_witness :
  let line (choice : string) (lower baseline upper : float) : string :=
    "  " +:+ ljust 15 choice +:+ rjust 15 (format_f 5 lower) +:+
    rjust 15 (format_f 5 baseline) +:+ rjust 15 (format_f 5 upper) +:+ nl in
  let block (level : float) (baselines : list float)
      (bounds : list (float * float)) : string :=
    " Level  " +:+ format_f 3 level +:+
    "        Lower          Baseline       Upper          " +:+ nl +:+ nl +:+
    foldr String.append EmptyString
      (zip_with (λ '(choice, b) '(lower, upper), line choice lower b upper)
         (zip ["Occupation A"; "Occupation B"; "School"; "Home"] baselines)
         bounds)
    +:+ nl +:+ nl in
  (Admissible.store_rslts (λ _, "pickled") Sample.rslt_low
     Sample.results_directory).2 = Raise KeyError
  ∧ ∃ (baselines : list float) (bounds : list (list (float * float))),
      Forall2 (λ i b, (e ← Admissible.dict_get Sample.rslt F64.zero;
                       r ← py_getitem e i;
                       py_getitem r 0) = Ok b)
        [0; 1; 2; 3] baselines
      ∧ Forall2 (λ '(pos, level) lus,
                   Forall2 (λ i '(lower, upper),
                              (e ← Admissible.dict_get_own Sample.rslt pos
                                     level;
                               py_getitem e i) = Ok [lower; upper])
                     [0; 1; 2; 3] lus)
          (Admissible.dict_keys Sample.rslt) bounds
      ∧ (Admissible.store_rslts (λ _, "pickled") Sample.rslt
           Sample.results_directory).1
          !! "rslts/admissible_values.robupy.log"
        = Some (Admissible.File
                  (foldr String.append EmptyString
                     (zip_with (λ '(_, level) lus,
                                  block level baselines lus)
                        (Admissible.dict_keys Sample.rslt) bounds))).
Proof.
  intros line block. split.
  - apply (store_rslts_baseline_is_level_zero (λ _, "pickled")
             Sample.rslt_low Sample.results_directory);
      [done | reflexivity | done | done | reflexivity].
  - apply (store_rslts_baseline_is_level_zero (λ _, "pickled")
             Sample.rslt Sample.results_directory);
      [done | reflexivity | done | done | vm_compute; reflexivity].
Defined.

(** ** The scalability report *)

Example record_information_twice :
  @Scalability.record_all Sample.day_clock [(3600, 3725, 1); (3725, 3790, 2)]
    ∅ !! Scalability.info_file
  = Some (nl +:+ " Time" +:+ nl +:+ nl +:+
          "         Slaves                     Start                      Stop        Duration" +:+ nl +:+ nl +:+
          "              1       2016-05-01 01:00:00       2016-05-01 01:02:05        00:02:05" +:+ nl +:+
          "              2       2016-05-01 01:02:05       2016-05-01 01:03:10        00:01:05" +:+ nl).
Proof. vm_compute. reflexivity. Qed.

(** A report file that is there before the first call, here an empty one,
    gets the row and no header. *)
Lemma record_information_existing_file_no_header :
  ∃ content,
    @Scalability.record_all Sample.day_clock [(3600, 3725, 1)]
      {["scalability.respy.info" := EmptyString]}
      !! "scalability.respy.info" = Some content
    ∧ content
      = "              1       2016-05-01 01:00:00       2016-05-01 01:02:05        00:02:05"
        +:+ nl
    ∧ occurrences " Time" content = 0%nat
    ∧ occurrences "Slaves" content = 0%nat.
Proof. eexists. repeat split; vm_compute; reflexivity. Qed.

(** ** Further properties at concrete inputs *)

Lemma get_total_value_four_entries_witness :
  ∃ total ex_post future,
    Kernel.get_total_value 0 Sample.num_periods (F64.of_Z 1)
      Sample.payoffs_ex_ante [F64.of_Z 1; F64.of_Z 1; F64.zero; F64.zero]
      Sample.edu_max Sample.edu_start Sample.mapping_state_idx Sample.emax 0
      Sample.states_all
    = Ok (total, ex_post, future)
    ∧ length total = 4%nat ∧ length ex_post = 4%nat
    ∧ length future = 4%nat
    ∧ ∃ a0 a1 a2 a3 d0 d1 d2 d3,
        Sample.payoffs_ex_ante !! 0%nat = Some a0
        ∧ Sample.payoffs_ex_ante !! 1%nat = Some a1
        ∧ Sample.payoffs_ex_ante !! 2%nat = Some a2
        ∧ Sample.payoffs_ex_ante !! 3%nat = Some a3
        ∧ [F64.of_Z 1; F64.of_Z 1; F64.zero; F64.zero] !! 0%nat = Some d0
        ∧ [F64.of_Z 1; F64.of_Z 1; F64.zero; F64.zero] !! 1%nat = Some d1
        ∧ [F64.of_Z 1; F64.of_Z 1; F64.zero; F64.zero] !! 2%nat = Some d2
        ∧ [F64.of_Z 1; F64.of_Z 1; F64.zero; F64.zero] !! 3%nat = Some d3
        ∧ ex_post
          = [F64.mul a0 d0; F64.mul a1 d1; F64.add a2 d2; F64.add a3 d3].
Proof.
  eexists _, _, _. split; [vm_compute; reflexivity|].
  apply (get_total_value_four_entries Sample.num_periods 0 0 Sample.edu_max
           Sample.edu_start Sample.emax Sample.mapping_state_idx
           (F64.of_Z 1) Sample.payoffs_ex_ante
           [F64.of_Z 1; F64.of_Z 1; F64.zero; F64.zero] Sample.states_all).
  vm_compute. reflexivity.
Defined.

Lemma get_total_value_ignores_edu_lagged_witness :
  Kernel.get_total_value 0 Sample.num_periods (F64.of_Z 1)
    Sample.payoffs_ex_ante [F64.of_Z 1; F64.of_Z 1; F64.zero; F64.zero]
    Sample.edu_max Sample.edu_start Sample.mapping_state_idx Sample.emax 0
    Sample.states_all
  = Kernel.get_total_value 0 Sample.num_periods (F64.of_Z 1)
      Sample.payoffs_ex_ante [F64.of_Z 1; F64.of_Z 1; F64.zero; F64.zero]
      Sample.edu_max Sample.edu_start Sample.mapping_state_idx Sample.emax 0
      Sample.states_all_lagged.
Proof.
  apply (get_total_value_ignores_edu_lagged Sample.num_periods 0 0
           Sample.edu_max Sample.edu_start Sample.emax
           Sample.mapping_state_idx (F64.of_Z 1) Sample.payoffs_ex_ante
           [F64.of_Z 1; F64.of_Z 1; F64.zero; F64.zero] Sample.states_all
           Sample.states_all_lagged 0 0 0 0 1); reflexivity.
Defined.

Lemma get_total_value_myopic_witness :
  ∃ t, [F64.of_Z 1; F64.of_Z 2; F64.neg_inf; F64.of_Z 4] !! 3%nat = Some t
    ∧ (F64.of_Z 30 = F64.neg_inf → t = F64.neg_inf)
    ∧ (F64.isfinite (F64.of_Z 30) = true →
       F64.same_number t (F64.of_Z 4)).
Proof.
  apply (get_total_value_myopic Sample.num_periods 0 0 Sample.edu_max
           Sample.edu_start Sample.emax Sample.mapping_state_idx F64.zero
           Sample.payoffs_ex_ante
           [F64.of_Z 1; F64.of_Z 1; F64.zero; F64.zero] Sample.states_all
           [F64.of_Z 1; F64.of_Z 2; F64.neg_inf; F64.of_Z 4]
           [F64.of_Z 1; F64.of_Z 2; F64.of_Z 3; F64.of_Z 4]
           [F64.of_Z 10; F64.of_Z 20; F64.neg_inf; F64.of_Z 30] 3
           (F64.of_Z 4) (F64.of_Z 30));
    vm_compute; reflexivity.
Defined.

Lemma simulate_emax_last_draw_witness :
  ∃ disturbances total ex_post future,
    Sample.eps_relevant !! Z.to_nat (2 - 1) = Some disturbances
    ∧ Kernel.get_total_value 1 Sample.num_periods (F64.of_Z 1)
        Sample.payoffs_ex_ante disturbances Sample.edu_max Sample.edu_start
        Sample.mapping_state_idx Sample.emax 0 Sample.states_all
      = Ok (total, ex_post, future)
    ∧ PyArray [F64.of_Z 5; F64.of_Z 2; F64.of_Z 3; F64.of_Z 6]
      = PyArray ex_post
    ∧ PyArray [F64.zero; F64.zero; F64.zero; F64.zero] = PyArray future.
Proof.
  apply (simulate_emax_last_draw Sample.num_periods 1 0 Sample.edu_max
           Sample.edu_start Sample.emax Sample.mapping_state_idx
           (F64.of_Z 1) Sample.states_all 2 Sample.eps_relevant
           Sample.payoffs_ex_ante (F64.div (F64.of_Z 10) (F64.of_Z 2)));
    [lia | vm_compute; reflexivity].
Defined.

Lemma get_not_interpolated_indicator_positions_witness :
  ∃ not_interpolated : list bool,
    @Interpolate._get_not_interpolated_indicator Sample.rotation_rng
      2 5 7 0
    = (Ok not_interpolated, 8)
    ∧ length not_interpolated = Z.to_nat 5
    ∧ ∀ j : nat, (j < Z.to_nat 5)%nat →
        not_interpolated !! j = Some (bool_decide (Z.of_nat j ∈ [2; 3])).
Proof.
  apply (@get_not_interpolated_indicator_positions Sample.rotation_rng
           2 5 7 0 7 8 [2; 3]);
    [reflexivity | reflexivity | | lia].
  repeat constructor; lia.
Defined.

Lemma compute_rhs_variables_rows_witness :
  let wages := [[F64.of_Z 1; F64.of_Z 2]; [F64.of_Z 3; F64.of_Z 1]] in
  let nonpec := [[F64.zero; F64.of_Z 1]; [F64.of_Z 2; F64.zero]] in
  let emaxs := [[F64.of_Z 4; F64.of_Z 4]; [F64.of_Z 1; F64.of_Z 9]] in
  let draws := [F64.of_Z 1; F64.of_Z 1] in
  ∃ exogenous max_value_functions,
    @Interpolate._compute_rhs_variables Sample.shared_kernels wages nonpec
      emaxs draws (F64.of_Z 1)
    = Ok (exogenous, max_value_functions)
    ∧ let value_functions :=
        (@calculate_value_functions_and_flow_utilities Sample.shared_kernels
           wages nonpec emaxs draws (F64.of_Z 1)).1 in
      length exogenous = length value_functions
      ∧ length max_value_functions = length value_functions
      ∧ ∀ (i : nat) (row : list float), exogenous !! i = Some row →
          ∃ v m,
            value_functions !! i = Some v
            ∧ max_value_functions !! i = Some m
            ∧ Interpolate.np_max v = Ok m
            ∧ row = (F64.sub m <$> v) ++ (F64.sqrt <$> (F64.sub m <$> v))
                    ++ [F64.one]
            ∧ length row = (2 * length v + 1)%nat.
Proof.
  intros wages nonpec emaxs draws. eexists _, _.
  split; [vm_compute; reflexivity|].
  apply (@compute_rhs_variables_rows Sample.shared_kernels wages nonpec
           emaxs draws (F64.of_Z 1)).
  vm_compute. reflexivity.
Defined.

Lemma shared_kernels_length
    (wages nonpec continuation_values draws : list (list float))
    (delta : float) :
  length (@calculate_expected_value_functions Sample.shared_kernels wages
            nonpec continuation_values draws delta)
  = length wages.
Proof. cbn. by rewrite length_fmap. Qed.

Lemma compute_lhs_variable_selected_witness :
  let wages := [[F64.of_Z 1; F64.of_Z 2]; [F64.of_Z 3; F64.of_Z 1]] in
  let nonpec := [[F64.zero; F64.of_Z 1]; [F64.of_Z 2; F64.zero]] in
  let continuation_values :=
    [[F64.of_Z 4; F64.of_Z 4]; [F64.of_Z 1; F64.of_Z 9]] in
  let max_value_functions := [F64.of_Z 7; F64.of_Z 10] in
  let not_interpolated := [false; true] in
  let draws := [[F64.of_Z 1; F64.of_Z 1]; [F64.of_Z 2; F64.of_Z 3]] in
  ∃ endogenous,
    @Interpolate._compute_lhs_variable Sample.shared_kernels wages nonpec
      continuation_values max_value_functions not_interpolated draws
      (F64.of_Z 1)
    = Ok endogenous
    ∧ length endogenous = Interpolate.count_true not_interpolated
    ∧ endogenous
      = zip_with F64.sub
          (@calculate_expected_value_functions Sample.shared_kernels
             (Interpolate.compress not_interpolated wages)
             (Interpolate.compress not_interpolated nonpec)
             (Interpolate.compress not_interpolated continuation_values)
             draws (F64.of_Z 1))
          (Interpolate.compress not_interpolated max_value_functions).
Proof.
  intros wages nonpec continuation_values max_value_functions
    not_interpolated draws.
  apply (@compute_lhs_variable_selected Sample.shared_kernels
           shared_kernels_length); reflexivity.
Defined.

Example get_elements_example :
  Admissible.get_elements "School" Sample.rslts_grid
  = Ok ([F64.div (F64.of_Z 3) (F64.of_Z 1000);
         F64.div (F64.of_Z 4) (F64.of_Z 1000);
         F64.div (F64.of_Z 5) (F64.of_Z 1000)],
        [F64.div (F64.of_Z 3) (F64.of_Z 1000);
         F64.div (F64.of_Z 2) (F64.of_Z 1000);
         F64.div (F64.of_Z 1) (F64.of_Z 1000)],
        [F64.zero;
         F64.sub (F64.div (F64.of_Z 4) (F64.of_Z 1000))
           (F64.div (F64.of_Z 2) (F64.of_Z 1000));
         F64.sub (F64.div (F64.of_Z 5) (F64.of_Z 1000))
           (F64.div (F64.of_Z 1) (F64.of_Z 1000))]).
Proof. vm_compute. reflexivity. Qed.

Lemma get_elements_values_witness :
  ∃ lo0 lo1 lo2 up0 up1 up2,
    Admissible._extract_results F64.zero "School" Sample.rslts_grid "lower"
    = Ok lo0
    ∧ Admissible._extract_results Admissible.f_0_01 "School"
        Sample.rslts_grid "lower" = Ok lo1
    ∧ Admissible._extract_results Admissible.f_0_02 "School"
        Sample.rslts_grid "lower" = Ok lo2
    ∧ Admissible._extract_results F64.zero "School" Sample.rslts_grid
        "upper" = Ok up0
    ∧ Admissible._extract_results Admissible.f_0_01 "School"
        Sample.rslts_grid "upper" = Ok up1
    ∧ Admissible._extract_results Admissible.f_0_02 "School"
        Sample.rslts_grid "upper" = Ok up2
    ∧ [F64.div (F64.of_Z 3) (F64.of_Z 1000);
       F64.div (F64.of_Z 2) (F64.of_Z 1000);
       F64.div (F64.of_Z 1) (F64.of_Z 1000)]
      = [F64.div lo0 (F64.of_Z 1000); F64.div lo1 (F64.of_Z 1000);
         F64.div lo2 (F64.of_Z 1000)]
    ∧ [F64.div (F64.of_Z 3) (F64.of_Z 1000);
       F64.div (F64.of_Z 4) (F64.of_Z 1000);
       F64.div (F64.of_Z 5) (F64.of_Z 1000)]
      = [F64.div up0 (F64.of_Z 1000); F64.div up1 (F64.of_Z 1000);
         F64.div up2 (F64.of_Z 1000)]
    ∧ [F64.zero;
       F64.sub (F64.div (F64.of_Z 4) (F64.of_Z 1000))
         (F64.div (F64.of_Z 2) (F64.of_Z 1000));
       F64.sub (F64.div (F64.of_Z 5) (F64.of_Z 1000))
         (F64.div (F64.of_Z 1) (F64.of_Z 1000))]
      = [F64.sub (F64.div up0 (F64.of_Z 1000)) (F64.div lo0 (F64.of_Z 1000));
         F64.sub (F64.div up1 (F64.of_Z 1000)) (F64.div lo1 (F64.of_Z 1000));
         F64.sub (F64.div up2 (F64.of_Z 1000))
           (F64.div lo2 (F64.of_Z 1000))].
Proof.
  apply (get_elements_values "School" Sample.rslts_grid).
  vm_compute. reflexivity.
Defined.

Lemma get_elements_unknown_choice_witness :
  Admissible.get_elements "Farm" Sample.rslts_grid = Raise AssertionError.
Proof.
  apply (get_elements_unknown_choice "Farm" Sample.rslts_grid).
  apply (bool_decide_eq_false_1 ("Farm" ∈ Admissible.CHOICE_LIST)).
  reflexivity.
Defined.

Lemma store_rslts_level_zero_line_witness :
  ∃ e lower upper,
    Admissible.dict_get Sample.rslt F64.zero = Ok e
    ∧ py_getitem e 2 = Ok [lower; upper]
    ∧ "  School                 3.00000        3.00000        3.00000" +:+ nl
      = "  " +:+ ljust 15 "School" +:+ rjust 15 (format_f 5 lower) +:+
        rjust 15 (format_f 5 lower) +:+ rjust 15 (format_f 5 upper) +:+ nl.
Proof.
  apply (store_rslts_level_zero_line Sample.rslt 0 F64.zero 2 "School");
    vm_compute; reflexivity.
Defined.

Example store_rslts_log_example :
  (Admissible.store_rslts (λ _, "pickled") Sample.rslt
     Sample.results_directory).1 !! "rslts/admissible_values.robupy.log"
  = Some (Admissible.File
            (" Level  0.000        Lower          Baseline       Upper          " +:+ nl +:+
             nl +:+
             "  Occupation A           1.00000        1.00000        1.00000" +:+ nl +:+
             "  Occupation B           2.00000        2.00000        2.00000" +:+ nl +:+
             "  School                 3.00000        3.00000        3.00000" +:+ nl +:+
             "  Home                   4.00000        4.00000        4.00000" +:+ nl +:+
             nl +:+ nl +:+
             " Level  0.010        Lower          Baseline       Upper          " +:+ nl +:+
             nl +:+
             "  Occupation A           0.00000        1.00000        2.00000" +:+ nl +:+
             "  Occupation B           1.00000        2.00000        3.00000" +:+ nl +:+
             "  School                 2.00000        3.00000        4.00000" +:+ nl +:+
             "  Home                   3.00000        4.00000        5.00000" +:+ nl +:+
             nl +:+ nl)).
Proof. vm_compute. reflexivity. Qed.

Lemma store_rslts_writes_log_witness :
  (Admissible.store_rslts (λ _, "pickled") Sample.rslt_nan
     Sample.results_directory).2 = Ok tt
  ∧ (Admissible.store_rslts (λ _, "pickled") Sample.rslt_nan
       Sample.results_directory).1 !! "rslts/admissible_values.robupy.log"
    = Some (Admissible.File
              (" Level  0.000        Lower          Baseline       Upper          " +:+ nl +:+
               nl +:+
               "  Occupation A           1.00000        1.00000        1.00000" +:+ nl +:+
               "  Occupation B           2.00000        2.00000        2.00000" +:+ nl +:+
               "  School                 3.00000        3.00000        3.00000" +:+ nl +:+
               "  Home                   4.00000        4.00000        4.00000" +:+ nl +:+
               nl +:+ nl +:+
               " Level  nan        Lower          Baseline       Upper          " +:+ nl +:+
               nl +:+
               "  Occupation A           0.00000        1.00000        2.00000" +:+ nl +:+
               "  Occupation B           1.00000        2.00000        3.00000" +:+ nl +:+
               "  School                 2.00000        3.00000        4.00000" +:+ nl +:+
               "  Home                   3.00000        4.00000        5.00000" +:+ nl +:+
               nl +:+ nl)).
Proof.
  apply (store_rslts_writes_log (λ _, "pickled") Sample.rslt_nan
           Sample.results_directory
           [F64.of_Z 1; F64.of_Z 2; F64.of_Z 3; F64.of_Z 4]
           [ [(F64.of_Z 1, F64.of_Z 1); (F64.of_Z 2, F64.of_Z 2);
              (F64.of_Z 3, F64.of_Z 3); (F64.of_Z 4, F64.of_Z 4)];
             [(F64.zero, F64.of_Z 2); (F64.of_Z 1, F64.of_Z 3);
              (F64.of_Z 2, F64.of_Z 4); (F64.of_Z 3, F64.of_Z 5)] ]);
    [reflexivity | done | done | right; forall2_compute |].
  let l := eval vm_compute in (Admissible.dict_keys Sample.rslt_nan) in
    change (Admissible.dict_keys Sample.rslt_nan) with l.
  forall2_compute.
Defined.

(** The directory [rslts] is missing: nothing is written. *)
Lemma store_rslts_files_witness :
  Admissible.store_rslts (λ _, "pickled") Sample.rslt ∅
  = (∅, Raise FileNotFoundError).
Proof.
  pose proof (store_rslts_files (λ _, "pickled") Sample.rslt ∅) as H.
  rewrite lookup_empty in H. exact H.
Defined.

Lemma simulate_emax_exceptions_witness :
  Kernel.simulate_emax Sample.num_periods (- 10 ^ 400) 1 0
    Sample.eps_relevant Sample.payoffs_ex_ante Sample.edu_max
    Sample.edu_start Sample.emax Sample.states_all
    Sample.mapping_state_idx (F64.of_Z 1)
  = Raise OverflowError.
Proof.
  etrans.
  - apply (proj1 (simulate_emax_exceptions Sample.num_periods 1 0
                    Sample.edu_max Sample.edu_start Sample.emax
                    Sample.mapping_state_idx (F64.of_Z 1) Sample.states_all
                    (- 10 ^ 400) Sample.eps_relevant
                    Sample.payoffs_ex_ante)).
    by vm_compute.
  - vm_compute. reflexivity.
Defined.

Lemma split_interpolation_points_total_witness :
  ∃ d : list (string * Z),
    Interpolate._split_interpolation_points_evenly
      {| Interpolate.sub_state_spaces :=
           Some [("a", tt); ("b", tt); ("c", tt)] |}
      {| Interpolate.interpolation_points := -7 |}
    = Ok (Interpolate.PerDense d)
    ∧ d.*1 = ["a"; "b"; "c"]
    ∧ foldr Z.add 0 d.*2 = -7.
Proof.
  apply (split_interpolation_points_total
           {| Interpolate.sub_state_spaces :=
                Some [("a", tt); ("b", tt); ("c", tt)] |} (-7)).
Defined.

(** The serialized results are there although the log breaks off, after the
    title of the first block, at the missing key 0.0. *)
Example store_rslts_files_example :
  (Admissible.store_rslts (λ _, "pickled") Sample.rslt_low
     Sample.results_directory).2 = Raise KeyError
  ∧ (Admissible.store_rslts (λ _, "pickled") Sample.rslt_low
       Sample.results_directory).1 !! "rslts/admissible_values.robupy.pkl"
    = Some (Admissible.File "pickled")
  ∧ (Admissible.store_rslts (λ _, "pickled") Sample.rslt_low
       Sample.results_directory).1 !! "rslts/admissible_values.robupy.log"
    = Some (Admissible.File
              (" Level  0.010        Lower          Baseline       Upper          "
               +:+ nl +:+ nl)).
Proof. repeat split; vm_compute; reflexivity. Qed.

Lemma record_information_other_files_witness :
  @Scalability.record_all Sample.day_clock [(3600, 3725, 1); (3725, 3790, 2)]
    {["data.respy.dat" := "0 1 2"]} !! "data.respy.dat"
  = ({["data.respy.dat" := "0 1 2"]} : gmap string string)
      !! "data.respy.dat".
Proof.
  apply (@record_information_other_files Sample.day_clock). done.
Defined.

Lemma extract_results_exceptions_witness :
  (KeyError = AssertionError
   ∧ (Admissible.float_in Admissible.f_0_02 Admissible.AMBIGUITY_GRID
      = false
      ∨ "School" ∉ Admissible.CHOICE_LIST
      ∨ "upper" ∉ Admissible.BOUNDS_LIST))
  ∨ (KeyError = KeyError
     ∧ Admissible.dict_get Sample.rslt Admissible.f_0_02 = Raise KeyError
     ∧ Admissible.float_in Admissible.f_0_02 Admissible.AMBIGUITY_GRID
       = true)
  ∨ KeyError = IndexError.
Proof.
  apply (extract_results_exceptions Admissible.f_0_02 "School" Sample.rslt
           "upper" KeyError).
  vm_compute. reflexivity.
Defined.
